(** * Store locator: geometry helpers, cache, search, authentication, store
    administration.

    A shallow embedding of the Python sources of the store-locator service
    ([app/utils/distance.py], [app/utils/cache.py], [app/utils/geocoding.py],
    [app/schemas.py] and the routers [search.py], [auth.py], [stores.py],
    [admin.py]) together with the properties of its specification.

    Conventions of the embedding:
    - a Python [float] that is only compared, tested for truth or formatted is
      a rational ([Q]); the trigonometry of the bounding box is stated over
      the real numbers;
    - an instant ([datetime]) is a number of microseconds ([Z]);
    - [Optional[T]] is [option T], a [dict] is a [gmap], a table of the
      database is a list of rows in table order;
    - an [HTTPException] or a validation failure is the [Err] branch of the
      result of an endpoint;
    - the process-wide [cache] object is threaded through every function that
      touches it;
    - collaborators that live outside the repository (the geodesic distance of
      geopy, the Nominatim geocoder, the JWT and password helpers, the
      builtins [int], [float] and [repr]) are parameters: Section variables or
      fields of a record of collaborators. *)

From Stdlib Require Import ZArith QArith Qround Qabs Reals Lra Lia List String Ascii Bool Permutation Sorted.
From Stdlib Require Lqa.
From stdpp Require Import base option gmap strings list pretty.
Import ListNotations.

Local Open Scope string_scope.
Local Open Scope Z_scope.

(* ===================================================================== *)
(** * Small pieces of Python used by several modules *)
(* ===================================================================== *)

Module Py.

(** [s.split(sep)] for a one-character separator: never empty, the empty
    string splits into one empty piece. *)
Fixpoint split (sep : ascii) (s : string) : list string :=
  match s with
  | EmptyString => [EmptyString]
  | String c rest =>
      if Ascii.eqb c sep then EmptyString :: split sep rest
      else match split sep rest with
           | [] => [String c EmptyString]
           | w :: ws => String c w :: ws
           end
  end.

(** [sep.join(parts)] *)
Definition join (sep : string) (parts : list string) : string :=
  String.concat sep parts.

(** Truth value of a string, a list, a float, an optional. *)
Definition truthy_str (s : string) : bool :=
  match s with EmptyString => false | _ => true end.

Definition truthy_list {A} (l : list A) : bool :=
  match l with [] => false | _ => true end.

Definition truthy_float (x : Q) : bool := negb (Qeq_bool x 0).

Definition truthy_opt {A} (t : A -> bool) (o : option A) : bool :=
  match o with None => false | Some a => t a end.

(** ASCII part of [str.lower]. *)
Definition lower_ascii (c : ascii) : ascii :=
  let n := nat_of_ascii c in
  if (Nat.leb 65 n && Nat.leb n 90)%bool then ascii_of_nat (n + 32) else c.

Fixpoint lower (s : string) : string :=
  match s with
  | EmptyString => EmptyString
  | String c rest => String (lower_ascii c) (lower rest)
  end.

(** [s.strip()] on ASCII white space. *)
Definition is_space (c : ascii) : bool :=
  let n := nat_of_ascii c in
  (Nat.eqb n 32 || (Nat.leb 9 n && Nat.leb n 13))%bool.

Fixpoint lstrip (s : string) : string :=
  match s with
  | String c rest => if is_space c then lstrip rest else s
  | EmptyString => EmptyString
  end.

Definition strip (s : string) : string :=
  String.rev (lstrip (String.rev (lstrip s))).

(** [sorted] on strings: a stable insertion sort by code-point order; every
    stable sort returns the same list. *)
Fixpoint insert_str (x : string) (l : list string) : list string :=
  match l with
  | [] => [x]
  | y :: ys => if String.leb x y then x :: y :: ys else y :: insert_str x ys
  end.

Definition sorted (l : list string) : list string :=
  foldr insert_str [] l.

(** [int(s)] restricted to ASCII input: surrounding white space, one optional
    sign, decimal digits with single underscores between digits. *)
Definition digit_value (c : ascii) : option Z :=
  let n := nat_of_ascii c in
  if (Nat.leb 48 n && Nat.leb n 57)%bool then Some (Z.of_nat (n - 48)) else None.

Fixpoint digits_value (acc : Z) (after_digit : bool) (s : string) : option Z :=
  match s with
  | EmptyString => if after_digit then Some acc else None
  | String c rest =>
      match digit_value c with
      | Some d => digits_value (10 * acc + d) true rest
      | None =>
          if (Ascii.eqb c "_" && after_digit)%bool
          then match rest with
               | String c' _ =>
                   match digit_value c' with
                   | Some _ => digits_value acc false rest
                   | None => None
                   end
               | EmptyString => None
               end
          else None
      end
  end.

Definition int_ascii (s : string) : option Z :=
  match strip s with
  | String "-" rest => Z.opp <$> digits_value 0 false rest
  | String "+" rest => digits_value 0 false rest
  | body => digits_value 0 false body
  end.

End Py.

(** Tests on the characters of a string, for the statements about the
    hours format and about the cache keys. *)
Module Text.

Fixpoint all_chars (p : ascii -> bool) (s : string) : bool :=
  match s with
  | EmptyString => true
  | String c rest => p c && all_chars p rest
  end.



(** A character of the ASCII range. On a string of such characters
    [Py.lower] is Python's [str.lower]. *)
Definition is_ascii (c : ascii) : bool := Nat.ltb (nat_of_ascii c) 128.

End Text.

(* ===================================================================== *)
(** * app/utils/distance.py *)
(* ===================================================================== *)

Module Distance.

(** ** [calculate_bounding_box], over the real numbers *)

Section BoundingBox.
Local Open Scope R_scope.

Record bbox := { min_lat : R; max_lat : R; min_lon : R; max_lon : R }.

(** [math.radians] *)
Definition radians (x : R) : R := x * PI / 180.

(** Python's [/]: a zero divisor raises [ZeroDivisionError] ([None]). *)
Definition py_div (a b : R) : option R :=
  if Req_dec_T b 0 then None else Some (a / b).

(** The body of the function once [math.cos(math.radians(latitude))] has been
    evaluated to [c]. *)
Definition bounding_box_with (c latitude longitude radius_miles : R) : option bbox :=
  let latitude_delta := radius_miles / 69 in
  longitude_delta ← py_div radius_miles (69 * c);
  Some {| min_lat := latitude - latitude_delta;
          max_lat := latitude + latitude_delta;
          min_lon := longitude - longitude_delta;
          max_lon := longitude + longitude_delta |}.

(** [math.cos(math.radians(latitude))]. A latitude reaches the function from
    a validated request or from the geocoder, between -90 and 90. Over the
    reals the cosine vanishes at the two poles; over the floats it does not:
    [math.radians(90.0)] is the float nearest to pi/2, not pi/2, and its
    cosine is the residue 6.123233995736766e-17, at -90.0 as at 90.0. *)
Definition cos_at_pole : R := 6123233995736766 / 100000000000000000000000000000000.

Definition cos_radians (latitude : R) : R :=
  if Req_dec_T (Rabs latitude) 90 then cos_at_pole else cos (radians latitude).

Definition calculate_bounding_box (latitude longitude radius_miles : R) : option bbox :=
  bounding_box_with (cos_radians latitude) latitude longitude radius_miles.

End BoundingBox.

(** ** [is_store_open_now] *)

(** [datetime.time]: compared field by field, hour first. *)
Record time := { hour : Z; minute : Z; second : Z; microsecond : Z }.

Definition time_leb (a b : time) : bool :=
  if hour a <? hour b then true
  else if hour b <? hour a then false
  else if minute a <? minute b then true
  else if minute b <? minute a then false
  else if second a <? second b then true
  else if second b <? second a then false
  else microsecond a <=? microsecond b.

(** A time of day as [datetime.time] admits it, and its distance from
    midnight in microseconds. *)
Definition valid_time (t : time) : Prop :=
  0 <= hour t <= 23 /\ 0 <= minute t <= 59 /\ 0 <= second t <= 59
  /\ 0 <= microsecond t <= 999999.

Definition since_midnight (t : time) : Z :=
  ((hour t * 60 + minute t) * 60 + second t) * 1000000 + microsecond t.

(** The value of [datetime.weekday()], Monday first. *)
Inductive weekday := Monday | Tuesday | Wednesday | Thursday | Friday | Saturday | Sunday.

Definition weekday_number (d : weekday) : nat :=
  match d with
  | Monday => 0 | Tuesday => 1 | Wednesday => 2 | Thursday => 3
  | Friday => 4 | Saturday => 5 | Sunday => 6
  end%nat.

(** What the function reads from [datetime.now()]. *)
Record local_now := { now_weekday : weekday; now_time : time }.

Definition day_names : list string := ["mon"; "tue"; "wed"; "thu"; "fri"; "sat"; "sun"].

Definition hours_key (now : local_now) : string :=
  "hours_" +:+ nth (weekday_number (now_weekday now)) day_names "".

Section OpenNow.

(** The builtin [int] on strings; [None] is [ValueError]. *)
Variable py_int : string -> option Z.

(** [h, m = map(int, s.split(':'))] *)
Definition parse_hm (s : string) : option (Z * Z) :=
  match Py.split ":" s with
  | [h; m] => h' ← py_int h; m' ← py_int m; Some (h', m')
  | _ => None
  end.

(** [datetime.now().replace(hour=h, minute=m, second=0, microsecond=0).time()];
    [None] is the [ValueError] of an hour or minute out of range. *)
Definition replace_time (h m : Z) : option time :=
  if (0 <=? h) && (h <=? 23) && (0 <=? m) && (m <=? 59)
  then Some {| hour := h; minute := m; second := 0; microsecond := 0 |}
  else None.

(** The body of the [try] block up to the comparison; [None] is any exception
    raised there. *)
Definition parse_hours (today_hours : string) : option (time * time) :=
  match Py.split "-" today_hours with
  | [open_time_str; close_time_str] =>
      '(open_hour, open_min) ← parse_hm open_time_str;
      '(close_hour, close_min) ← parse_hm close_time_str;
      open_time ← replace_time open_hour open_min;
      close_time ← replace_time close_hour close_min;
      Some (open_time, close_time)
  | _ => None
  end.

Definition today_hours (hours : gmap string string) (now : local_now) : string :=
  default "closed" (hours !! hours_key now).

Definition is_store_open_now (hours : gmap string string) (now : local_now) : bool :=
  let current_time := now_time now in
  let today := today_hours hours now in
  if String.eqb today "closed" then false
  else match parse_hours today with
       | Some (open_time, close_time) =>
           time_leb open_time current_time && time_leb current_time close_time
       | None => false
       end.

End OpenNow.

End Distance.


(* ===================================================================== *)
(** * Results of an endpoint *)
(* ===================================================================== *)

(** [Ok] is a normal return, [HTTPError] a raised [HTTPException] (or the 422
    of a request that fails schema validation). *)
Inductive result (A : Type) : Type :=
  | Ok (a : A)
  | HTTPError (status_code : Z) (detail : string).
Arguments Ok {A} a.
Arguments HTTPError {A} status_code detail.


Definition detail_of {A} (r : result A) : option string :=
  match r with Ok _ => None | HTTPError _ d => Some d end.

Definition is_ok {A} (r : result A) : bool :=
  match r with Ok _ => true | HTTPError _ _ => false end.

(* ===================================================================== *)
(** * app/utils/cache.py *)
(* ===================================================================== *)

Module Cache.

Section SimpleCache.
Context {V : Type}.

Record entry := { value : V; expires_at : Z; created_at : Z }.

(** [timedelta(seconds=n)] in microseconds. *)
Definition timedelta_seconds (n : Z) : Z := n * 1000000.

(** [get]: an entry read after its expiry is deleted and reported absent. The
    second component is the cache after the call. *)
Definition get (c : gmap string entry) (key : string) (utcnow : Z)
  : option V * gmap string entry :=
  match c !! key with
  | None => (None, c)
  | Some e =>
      if expires_at e <? utcnow then (None, delete key c)
      else (Some (value e), c)
  end.

Definition set (c : gmap string entry) (key : string) (v : V) (ttl_seconds : Z)
    (utcnow : Z) : gmap string entry :=
  <[ key := {| value := v;
               expires_at := utcnow + timedelta_seconds ttl_seconds;
               created_at := utcnow |} ]> c.

Definition delete (c : gmap string entry) (key : string) : gmap string entry :=
  base.delete key c.

Definition clear (c : gmap string entry) : gmap string entry := ∅.

End SimpleCache.

Arguments entry V : clear implicits.

Definition GEOCODING_TTL : Z := 30 * 24 * 60 * 60.
Definition SEARCH_TTL : Z := 5 * 60.

End Cache.

(* ===================================================================== *)
(** * app/models.py and app/schemas.py *)
(* ===================================================================== *)

Module Models.

Inductive StoreType := flagship | regular | outlet | express.

Definition StoreType_value (t : StoreType) : string :=
  match t with
  | flagship => "flagship" | regular => "regular"
  | outlet => "outlet" | express => "express"
  end.

Inductive StoreStatus := active | inactive | temporarily_closed.

Definition StoreStatus_eqb (a b : StoreStatus) : bool :=
  match a, b with
  | active, active | inactive, inactive
  | temporarily_closed, temporarily_closed => true
  | _, _ => false
  end.

Inductive UserStatus := user_active | user_inactive.

(** A row of [stores]. The column [store_type] is kept as the string the code
    assigns to it (bulk import assigns a lower-cased CSV field); a query that
    loads the row succeeds when that string is a member of [StoreType]
    ([Loading.enum_store_type], below). The server-managed timestamps are left
    out. *)
Record Store := {
  store_id : string;
  name : string;
  store_type : string;
  status : StoreStatus;
  latitude : Q;
  longitude : Q;
  address_street : string;
  address_city : string;
  address_state : string;
  address_postal_code : string;
  address_country : string;
  phone : option string;
  hours_mon : string;
  hours_tue : string;
  hours_wed : string;
  hours_thu : string;
  hours_fri : string;
  hours_sat : string;
  hours_sun : string
}.

(** The tables a store endpoint reads and writes: [stores] and the association
    table [store_services] of (store_id, service_name) pairs. *)
Record StoreDb := {
  stores : list Store;
  store_services : list (string * string)
}.

(** [store_services.select().where(store_id == sid)] as a list of names. *)
Definition services_of (db : StoreDb) (sid : string) : list string :=
  map snd (filter (fun p => String.eqb (fst p) sid = true) (store_services db)).

(** [db.query(Store).filter(Store.store_id == sid).first()] *)
Definition find_store (db : StoreDb) (sid : string) : option Store :=
  List.find (fun s => String.eqb (store_id s) sid) (stores db).

End Models.

Module Schemas.
Import Models.

Record StoreSearchRequest := {
  address : option string;
  postal_code : option string;
  req_latitude : option Q;
  req_longitude : option Q;
  radius_miles : Q;
  services : option (list string);
  store_types : option (list StoreType);
  open_now : option bool
}.

Definition Qbetween (lo hi x : Q) : bool := Qle_bool lo x && Qle_bool x hi.

(** The [Field(..., ge=, le=)] constraints. *)
Definition field_constraints (r : StoreSearchRequest) : bool :=
  match req_latitude r with None => true | Some x => Qbetween (-90) 90 x end
  && match req_longitude r with None => true | Some x => Qbetween (-180) 180 x end
  && Qbetween 0 100 (radius_miles r).

(** The model validator; [Some msg] is the raised [ValueError]. *)
Definition validate_lat_lon_pair (self : StoreSearchRequest) : option string :=
  if (bool_decide (is_Some (req_latitude self)) && negb (bool_decide (is_Some (req_longitude self))))
     || (bool_decide (is_Some (req_longitude self)) && negb (bool_decide (is_Some (req_latitude self))))
  then Some "Both latitude and longitude must be provided together"
  else if negb (Py.truthy_opt Py.truthy_str (address self)
                || Py.truthy_opt Py.truthy_str (postal_code self)
                || Py.truthy_opt Py.truthy_float (req_latitude self))
  then Some "At least one of address, postal_code, or latitude/longitude must be provided"
  else None.

(** Parsing the body into a [StoreSearchRequest]: a failure is answered with
    422 before the endpoint runs. *)
Definition validate (r : StoreSearchRequest) : result StoreSearchRequest :=
  if negb (field_constraints r) then HTTPError 422 "field constraint violated"
  else match validate_lat_lon_pair r with
       | Some msg => HTTPError 422 msg
       | None => Ok r
       end.

End Schemas.

(* ===================================================================== *)
(** * Values held by the cache *)
(* ===================================================================== *)

Module Payload.
Import Models.

(** The dict built by [geocode_address]. *)
Record geo_result := {
  geo_latitude : Q;
  geo_longitude : Q;
  formatted_address : string
}.

(** One element of [results]: the store row with its services, the distance
    rounded for output, the open flag. *)
Record result_item := {
  item_store : Store;
  item_services : list string;
  distance_miles : Q;
  is_open_now : bool
}.

(** [search_location_info] *)
Inductive search_location :=
  | at_coordinates (lat lon : Q)
  | at_postal_code (code : string) (lat lon : Q) (formatted : string)
  | at_address (addr : string) (lat lon : Q) (formatted : string).



Definition is_coordinates (l : search_location) : bool :=
  match l with at_coordinates _ _ => true | _ => false end.

Record filters := {
  f_radius_miles : Q;
  f_services : list string;
  f_store_types : list string;
  f_open_now : option bool
}.

Record response := {
  results : list result_item;
  location : search_location;
  filters_applied : filters;
  total_results : nat
}.

(** The cache stores values of any type; the code puts search responses and
    geocoding results in it. *)
Inductive py_value :=
  | SearchResponse (r : response)
  | GeoResult (g : geo_result).

Abbreviation cache := (gmap string (Cache.entry py_value)).

End Payload.

(* ===================================================================== *)
(** * app/utils/geocoding.py *)
(* ===================================================================== *)

Module Geocoding.
Import Payload.

Section Geocoder.

(** [geolocator.geocode(address, timeout=10)]: the answer of the provider as
    (latitude, longitude, address); [None] stands for no match and for the
    two provider exceptions the function catches. *)
Variable geolocator : string -> option (Q * Q * string).

Definition geocode_key (address : string) : string :=
  "geocode:address:" +:+ Py.lower address.

Definition geocode_address (c : cache) (utcnow : Z) (address : string)
  : option py_value * cache :=
  let cache_key := geocode_key address in
  match Cache.get c cache_key utcnow with
  | (Some cached_result, c1) => (Some cached_result, c1)
  | (None, c1) =>
      match geolocator address with
      | Some (lat, lon, addr) =>
          let result := GeoResult {| geo_latitude := lat; geo_longitude := lon;
                                     formatted_address := addr |} in
          (Some result, Cache.set c1 cache_key result Cache.GEOCODING_TTL utcnow)
      | None => (None, c1)
      end
  end.

Definition geocode_postal_code (c : cache) (utcnow : Z) (postal_code : string)
  : option py_value * cache :=
  let query := postal_code +:+ ", " +:+ "USA" in
  geocode_address c utcnow query.

End Geocoder.

End Geocoding.

(* ===================================================================== *)
(** * app/routers/search.py *)
(* ===================================================================== *)

Module Search.
Import Models Schemas Payload.

Record bbox := { min_lat : Q; max_lat : Q; min_lon : Q; max_lon : Q }.

(** What the endpoint calls outside the repository's own routers; the two
    geometry functions are float functions of [app.utils.distance]. *)
Record collaborators := {
  calculate_bounding_box : Q -> Q -> Q -> bbox;
  (** [geodesic(point1, point2).miles] of geopy: the distance along the
      WGS-84 ellipsoid (the docstring of the function names the Haversine
      formula, which geopy offers as [great_circle] and the code does not
      call). *)
  calculate_distance : Q -> Q -> Q -> Q -> Q;
  geolocator : string -> option (Q * Q * string);
  py_int : string -> option Z;
  (** [str(x)] of a float, as in [f"{radius_miles}"] *)
  float_str : Q -> string
}.

(** The two clocks a request reads: [datetime.utcnow()] in the cache and
    [datetime.now()] in the opening-hours check. *)
Record clock := { utcnow : Z; localnow : Distance.local_now }.

(** Rounding to the nearest integer, ties to even. *)
Definition round_half_even (x : Q) : Z :=
  let f := Qfloor x in
  match Qcompare (x - inject_Z f) (1 # 2) with
  | Lt => f
  | Gt => f + 1
  | Eq => if Z.even f then f else f + 1
  end.

(** [round(x, 2)] *)
Definition round2 (x : Q) : Q := Qmake (round_half_even (x * 100)) 100.

Definition pad4 (n : Z) : string :=
  let s := pretty n in
  String.concat "" (replicate (4 - String.length s)%nat "0") +:+ s.

(** [f"{x:.4f}"] *)
Definition format_4f (x : Q) : string :=
  let n := round_half_even (Qabs x * 10000) in
  (if Qle_bool 0 x then "" else "-")
    +:+ pretty (n / 10000) +:+ "." +:+ pad4 (n mod 10000).

(** [search_request.latitude and search_request.longitude], with the two
    values when the test succeeds. *)
Definition direct_coordinates (r : StoreSearchRequest) : option (Q * Q) :=
  match req_latitude r, req_longitude r with
  | Some lat, Some lon =>
      if Py.truthy_float lat && Py.truthy_float lon then Some (lat, lon) else None
  | _, _ => None
  end.

Definition open_now_requested (r : StoreSearchRequest) : bool :=
  Py.truthy_opt (fun b : bool => b) (open_now r).

(** The condition that guards both the cache lookup and the cache write. *)
Definition cacheable (r : StoreSearchRequest) : option (Q * Q) :=
  if open_now_requested r then None else direct_coordinates r.

Definition search_cache_key (E : collaborators) (r : StoreSearchRequest)
    (lat lon : Q) : string :=
  let cache_key :=
    "search:" +:+ format_4f lat +:+ ":" +:+ format_4f lon +:+ ":"
      +:+ float_str E (radius_miles r) in
  let cache_key :=
    match services r with
    | Some ((_ :: _) as l) => cache_key +:+ ":" +:+ Py.join "," (Py.sorted l)
    | _ => cache_key
    end in
  match store_types r with
  | Some ((_ :: _) as l) =>
      cache_key +:+ ":" +:+ Py.join "," (Py.sorted (map StoreType_value l))
  | _ => cache_key
  end.

(** The keys under which search responses are stored. *)
Definition is_search_key (key : string) : Prop := String.prefix "search:" key = true.

(** Reading a geocoding dict: [result["latitude"]] raises [KeyError] on a
    value that is not one. *)
Definition as_geo (v : py_value) : option geo_result :=
  match v with GeoResult g => Some g | SearchResponse _ => None end.

(** Step 1: the search coordinates. *)
Definition resolve_origin (E : collaborators) (clk : clock)
    (r : StoreSearchRequest) (c : cache)
  : result (Q * Q * search_location) * cache :=
  match direct_coordinates r with
  | Some (lat, lon) => (Ok (lat, lon, at_coordinates lat lon), c)
  | None =>
      match postal_code r, address r with
      | Some (String _ _ as code), _ =>
          match Geocoding.geocode_postal_code (geolocator E) c (utcnow clk) code with
          | (None, c1) =>
              (HTTPError 400 ("Could not geocode postal code: " +:+ code), c1)
          | (Some v, c1) =>
              match as_geo v with
              | Some g =>
                  (Ok (geo_latitude g, geo_longitude g,
                       at_postal_code code (geo_latitude g) (geo_longitude g)
                                      (formatted_address g)), c1)
              | None => (HTTPError 500 "KeyError: 'latitude'", c1)
              end
          end
      | _, Some (String _ _ as addr) =>
          match Geocoding.geocode_address (geolocator E) c (utcnow clk) addr with
          | (None, c1) =>
              (HTTPError 400 ("Could not geocode address: " +:+ addr), c1)
          | (Some v, c1) =>
              match as_geo v with
              | Some g =>
                  (Ok (geo_latitude g, geo_longitude g,
                       at_address addr (geo_latitude g) (geo_longitude g)
                                  (formatted_address g)), c1)
              | None => (HTTPError 500 "KeyError: 'latitude'", c1)
              end
          end
      | _, _ =>
          (HTTPError 400
             "Must provide either address, postal_code, or coordinates (latitude & longitude)",
           c)
      end
  end.

(** Steps 2 and 3: the bounding box and the repository query. *)
Definition in_types (types : list StoreType) (s : Store) : bool :=
  existsb (String.eqb (store_type s)) (map StoreType_value types).

Definition query_stores (E : collaborators) (r : StoreSearchRequest)
    (db : StoreDb) (search_lat search_lon : Q) : list Store :=
  let box := calculate_bounding_box E search_lat search_lon (radius_miles r) in
  let query :=
    List.filter (fun s =>
        Qbetween (min_lat box) (max_lat box) (latitude s)
        && Qbetween (min_lon box) (max_lon box) (longitude s)
        && StoreStatus_eqb (status s) active)
      (stores db) in
  match store_types r with
  | Some ((_ :: _) as types) => List.filter (in_types types) query
  | _ => query
  end.

Definition hours_dict (s : Store) : gmap string string :=
  <[ "hours_mon" := hours_mon s ]> (<[ "hours_tue" := hours_tue s ]> (
  <[ "hours_wed" := hours_wed s ]> (<[ "hours_thu" := hours_thu s ]> (
  <[ "hours_fri" := hours_fri s ]> (<[ "hours_sat" := hours_sat s ]> (
  <[ "hours_sun" := hours_sun s ]> ∅)))))).

(** Step 4, the body of the loop: [None] is [continue]. *)
Definition result_for (E : collaborators) (clk : clock) (r : StoreSearchRequest)
    (db : StoreDb) (search_lat search_lon : Q) (s : Store) : option result_item :=
  let distance := calculate_distance E search_lat search_lon (latitude s) (longitude s) in
  if negb (Qle_bool distance (radius_miles r)) then None
  else
    let services_list := services_of db (store_id s) in
    if match services r with
       | Some ((_ :: _) as wanted) =>
           negb (forallb (fun w => existsb (String.eqb w) services_list) wanted)
       | _ => false
       end
    then None
    else
      let is_open := Distance.is_store_open_now (py_int E) (hours_dict s) (localnow clk) in
      if open_now_requested r && negb is_open then None
      else Some {| item_store := s; item_services := services_list;
                   distance_miles := round2 distance; is_open_now := is_open |}.

(** Step 5: [results.sort(key=...)], a stable sort on the rounded distance. *)
Fixpoint insert_item (x : result_item) (l : list result_item) : list result_item :=
  match l with
  | [] => [x]
  | y :: ys =>
      if Qle_bool (distance_miles x) (distance_miles y) then x :: y :: ys
      else y :: insert_item x ys
  end.

Definition sort_by_distance (l : list result_item) : list result_item :=
  foldr insert_item [] l.

(** Steps 2 to 6 for a resolved origin. *)
Definition build_response (E : collaborators) (clk : clock) (r : StoreSearchRequest)
    (db : StoreDb) (search_lat search_lon : Q) (info : search_location) : response :=
  let found := query_stores E r db search_lat search_lon in
  let results := sort_by_distance (omap (result_for E clk r db search_lat search_lon) found) in
  {| results := results;
     location := info;
     filters_applied :=
       {| f_radius_miles := radius_miles r;
          f_services := default [] (services r);
          f_store_types := match store_types r with
                           | Some ((_ :: _) as l) => map StoreType_value l
                           | _ => []
                           end;
          f_open_now := open_now r |};
     total_results := length results |}.

Definition search_stores (E : collaborators) (clk : clock)
    (search_request : StoreSearchRequest) (db : StoreDb) (c : cache)
  : result py_value * cache :=
  let '(cached_result, c) :=
    match cacheable search_request with
    | Some (lat, lon) =>
        Cache.get c (search_cache_key E search_request lat lon) (utcnow clk)
    | None => (None, c)
    end in
  match cached_result with
  | Some hit => (Ok hit, c)
  | None =>
      match resolve_origin E clk search_request c with
      | (HTTPError code detail, c) => (HTTPError code detail, c)
      | (Ok (search_lat, search_lon, info), c) =>
          let response :=
            build_response E clk search_request db search_lat search_lon info in
          let c :=
            match cacheable search_request with
            | Some (lat, lon) =>
                Cache.set c (search_cache_key E search_request lat lon)
                          (SearchResponse response) Cache.SEARCH_TTL (utcnow clk)
            | None => c
            end in
          (Ok (SearchResponse response), c)
      end
  end.

(** What the endpoint computes when the cache is left aside: steps 1 to 6. *)
Definition compute_response (E : collaborators) (clk : clock)
    (r : StoreSearchRequest) (db : StoreDb) (c : cache) : result py_value * cache :=
  match resolve_origin E clk r c with
  | (HTTPError code detail, c1) => (HTTPError code detail, c1)
  | (Ok (search_lat, search_lon, info), c1) =>
      (Ok (SearchResponse (build_response E clk r db search_lat search_lon info)), c1)
  end.


(** The body of the route, for a request that the rate limiter has let
    through: the body is validated into a request, then the endpoint runs. *)
Definition post_search (E : collaborators) (clk : clock)
    (body : StoreSearchRequest) (db : StoreDb) (c : cache)
  : result py_value * cache :=
  match validate body with
  | HTTPError code detail => (HTTPError code detail, c)
  | Ok search_request => search_stores E clk search_request db c
  end.

End Search.

(* ===================================================================== *)
(** * app/routers/stores.py *)
(* ===================================================================== *)

Module Stores.
Import Models Payload.

(** A store row with its services, as the endpoints return it. *)
Record store_view := { view_store : Store; view_services : list string }.

Definition view_of (db : StoreDb) (s : Store) : store_view :=
  {| view_store := s; view_services := services_of db (store_id s) |}.


Definition get_store (sid : string) (db : StoreDb) : result store_view :=
  match find_store db sid with
  | None => HTTPError 404 "Store not found"
  | Some s => Ok (view_of db s)
  end.

Record StoreCreate := {
  c_store_id : string;
  c_name : string;
  c_store_type : StoreType;
  c_status : StoreStatus;
  c_latitude : option Q;
  c_longitude : option Q;
  c_address_street : string;
  c_address_city : string;
  c_address_state : string;
  c_address_postal_code : string;
  c_address_country : string;
  c_phone : option string;
  c_services : list string;
  c_hours : string * string * string * string * string * string * string
}.

(** The first row that satisfies [p] is replaced by its image. *)
Fixpoint update_first {A} (p : A -> bool) (f : A -> A) (l : list A) : list A :=
  match l with
  | [] => []
  | x :: xs => if p x then f x :: xs else x :: update_first p f xs
  end.

Definition has_id (sid : string) (s : Store) : bool := String.eqb (store_id s) sid.

(** The inserts into [store_services], one per name. The table has the
    primary key [(store_id, service_name)]: a second insert of the same pair
    raises, which is outside this function; statements about it take lists
    that name no service twice. *)
Definition insert_services (sid : string) (names : list string) (db : StoreDb) : StoreDb :=
  {| stores := stores db;
     store_services := store_services db ++ map (fun n => (sid, n)) names |}.

Definition delete_services (sid : string) (db : StoreDb) : StoreDb :=
  {| stores := stores db;
     store_services :=
       List.filter (fun p => negb (String.eqb (fst p) sid)) (store_services db) |}.

Section WithGeocoder.
Variable geolocator : string -> option (Q * Q * string).

(** [create_store]. A row without coordinates violates [nullable=False] at
    [db.flush()], which ends the request with a server error and no change. *)
Definition create_store (utcnow : Z) (store_data : StoreCreate) (db : StoreDb) (c : cache)
  : result store_view * StoreDb * cache :=
  match find_store db (c_store_id store_data) with
  | Some _ => (HTTPError 400 "Store ID already exists", db, c)
  | None =>
      let services_list := c_services store_data in
      let geocoded : result (option Q * option Q) * cache :=
        if (negb (bool_decide (is_Some (c_latitude store_data)))
            || negb (bool_decide (is_Some (c_longitude store_data))))
           && (Py.truthy_str (c_address_street store_data)
               && Py.truthy_str (c_address_city store_data)
               && Py.truthy_str (c_address_state store_data))
        then
          let full_address :=
            c_address_street store_data +:+ ", " +:+ c_address_city store_data
              +:+ ", " +:+ c_address_state store_data in
          match Geocoding.geocode_address geolocator c utcnow full_address with
          | (Some v, c1) =>
              match Search.as_geo v with
              | Some g => (Ok (Some (geo_latitude g), Some (geo_longitude g)), c1)
              | None => (HTTPError 500 "KeyError: 'latitude'", c1)
              end
          | (None, c1) => (Ok (c_latitude store_data, c_longitude store_data), c1)
          end
        else (Ok (c_latitude store_data, c_longitude store_data), c) in
      match geocoded with
      | (HTTPError code detail, c1) => (HTTPError code detail, db, c1)
      | (Ok (Some lat, Some lon), c1) =>
          let '(mon, tue, wed, thu, fri, sat, sun) := c_hours store_data in
          let new_store :=
            {| store_id := c_store_id store_data; name := c_name store_data;
               store_type := StoreType_value (c_store_type store_data);
               status := c_status store_data;
               latitude := lat; longitude := lon;
               address_street := c_address_street store_data;
               address_city := c_address_city store_data;
               address_state := c_address_state store_data;
               address_postal_code := c_address_postal_code store_data;
               address_country := c_address_country store_data;
               phone := c_phone store_data;
               hours_mon := mon; hours_tue := tue; hours_wed := wed;
               hours_thu := thu; hours_fri := fri; hours_sat := sat;
               hours_sun := sun |} in
          let db1 := {| stores := stores db ++ [new_store];
                        store_services := store_services db |} in
          let c2 := Cache.clear c1 in
          let db2 := insert_services (store_id new_store) services_list db1 in
          (Ok {| view_store := new_store; view_services := services_list |}, db2, c2)
      | (Ok _, c1) => (HTTPError 500 "IntegrityError: NOT NULL constraint failed", db, c1)
      end
  end.

End WithGeocoder.

(** [StoreUpdate] after [model_dump(exclude_unset=True)]: [None] is a field
    the body did not set. *)
Record StoreUpdate := {
  u_name : option string;
  u_phone : option string;
  u_services : option (list string);
  u_status : option StoreStatus;
  u_hours_mon : option string;
  u_hours_tue : option string;
  u_hours_wed : option string;
  u_hours_thu : option string;
  u_hours_fri : option string;
  u_hours_sat : option string;
  u_hours_sun : option string
}.

Definition apply_update (u : StoreUpdate) (s : Store) : Store :=
  {| store_id := store_id s;
     name := default (name s) (u_name u);
     store_type := store_type s;
     status := default (status s) (u_status u);
     latitude := latitude s; longitude := longitude s;
     address_street := address_street s; address_city := address_city s;
     address_state := address_state s;
     address_postal_code := address_postal_code s;
     address_country := address_country s;
     phone := match u_phone u with Some p => Some p | None => phone s end;
     hours_mon := default (hours_mon s) (u_hours_mon u);
     hours_tue := default (hours_tue s) (u_hours_tue u);
     hours_wed := default (hours_wed s) (u_hours_wed u);
     hours_thu := default (hours_thu s) (u_hours_thu u);
     hours_fri := default (hours_fri s) (u_hours_fri u);
     hours_sat := default (hours_sat s) (u_hours_sat u);
     hours_sun := default (hours_sun s) (u_hours_sun u) |}.

Definition update_store (sid : string) (store_data : StoreUpdate) (db : StoreDb) (c : cache)
  : result store_view * StoreDb * cache :=
  match find_store db sid with
  | None => (HTTPError 404 "Store not found", db, c)
  | Some store =>
      let db1 :=
        match u_services store_data with
        | Some services_list => insert_services sid services_list (delete_services sid db)
        | None => db
        end in
      let db2 := {| stores := update_first (has_id sid) (apply_update store_data) (stores db1);
                    store_services := store_services db1 |} in
      let c1 := Cache.clear c in
      (Ok (view_of db2 (apply_update store_data store)), db2, c1)
  end.

Definition set_status (st : StoreStatus) (s : Store) : Store :=
  {| store_id := store_id s; name := name s; store_type := store_type s;
     status := st;
     latitude := latitude s; longitude := longitude s;
     address_street := address_street s; address_city := address_city s;
     address_state := address_state s;
     address_postal_code := address_postal_code s;
     address_country := address_country s; phone := phone s;
     hours_mon := hours_mon s; hours_tue := hours_tue s; hours_wed := hours_wed s;
     hours_thu := hours_thu s; hours_fri := hours_fri s; hours_sat := hours_sat s;
     hours_sun := hours_sun s |}.

(** [delete_store]: the soft delete; [Ok tt] is the 204. *)
Definition delete_store (sid : string) (db : StoreDb) (c : cache)
  : result unit * StoreDb * cache :=
  match find_store db sid with
  | None => (HTTPError 404 "Store not found", db, c)
  | Some store =>
      let db1 := {| stores := update_first (has_id sid) (set_status inactive) (stores db);
                    store_services := store_services db |} in
      let c1 := Cache.clear c in
      (Ok tt, db1, c1)
  end.

End Stores.

(* ===================================================================== *)
(** * app/routers/admin.py: bulk import *)
(* ===================================================================== *)

Module Admin.
Import Models Payload.

(** A row of [csv.DictReader] once the required headers have been checked:
    the required columns are present, the other columns are [None] when the
    header does not have them ([row.get] then returns its default). Rows
    shorter than the header are not represented. *)
Record Row := {
  r_store_id : string;
  r_name : string;
  r_store_type : string;
  r_latitude : option string;
  r_longitude : option string;
  r_address_street : string;
  r_address_city : string;
  r_address_state : string;
  r_address_postal_code : string;
  r_phone : option string;
  r_services : option string;
  r_hours : option string * option string * option string * option string
            * option string * option string * option string
}.

Record CsvFile := {
  filename : string;
  fieldnames : list string;
  rows : list Row
}.

Record StoreImportResult := {
  row_number : nat;
  failed_store_id : string;
  import_status : string;
  error : option string
}.

Record BulkImportResponse := {
  total_rows : nat;
  created : nat;
  updated : nat;
  failed : nat;
  failed_records : list StoreImportResult
}.

Definition required_headers : list string :=
  ["store_id"; "name"; "store_type"; "address_street";
   "address_city"; "address_state"; "address_postal_code"].

Definition valid_types : list string := ["regular"; "flagship"; "outlet"; "pop-up"].

Definition ends_with (suffix s : string) : bool :=
  String.prefix (String.rev suffix) (String.rev s).

Definition mem_str (x : string) (l : list string) : bool := existsb (String.eqb x) l.

(** A coordinate is the CSV text or the float a geocoding result carries. *)
Inductive coordinate := from_csv (text : string) | from_geocoder (x : Q).

(** What one iteration of the loop did. *)
Inductive outcome :=
  | row_created
  | row_updated
  | row_failed (sid : string) (reason : string).

Section BulkImport.
Variable geolocator : string -> option (Q * Q * string).
(** The builtin [float] on strings; [None] is [ValueError]. *)
Variable py_float : string -> option Q.

Definition to_float (x : coordinate) : option Q :=
  match x with from_csv text => py_float text | from_geocoder q => Some q end.

Definition parse_services (services_str : string) : list string :=
  List.filter Py.truthy_str (map Py.strip (Py.split "|" services_str)).

Definition imported_store (row : Row) (st : string) (lat lon : Q)
    (keep_status : StoreStatus) (keep_country : string) : Store :=
  let '(mon, tue, wed, thu, fri, sat, sun) := r_hours row in
  {| store_id := r_store_id row; name := r_name row; store_type := st;
     status := keep_status; latitude := lat; longitude := lon;
     address_street := r_address_street row; address_city := r_address_city row;
     address_state := r_address_state row;
     address_postal_code := r_address_postal_code row;
     address_country := keep_country;
     phone := Some (default "" (r_phone row));
     hours_mon := default "closed" mon; hours_tue := default "closed" tue;
     hours_wed := default "closed" wed; hours_thu := default "closed" thu;
     hours_fri := default "closed" fri; hours_sat := default "closed" sat;
     hours_sun := default "closed" sun |}.

(** The body of the [for] loop for one row. *)
Definition import_row (utcnow : Z) (row : Row) (db : StoreDb) (c : cache)
  : outcome * StoreDb * cache :=
  if negb (Py.truthy_str (r_store_id row)) || negb (Py.truthy_str (r_name row))
  then (row_failed (r_store_id row) "Missing store_id or name", db, c)
  else
    let coordinates : result (coordinate * coordinate) * cache :=
      match r_latitude row, r_longitude row with
      | Some (String _ _ as lat), Some (String _ _ as lon) =>
          (Ok (from_csv lat, from_csv lon), c)
      | _, _ =>
          let full_address :=
            r_address_street row +:+ ", " +:+ r_address_city row +:+ ", "
              +:+ r_address_state row +:+ " " +:+ r_address_postal_code row in
          match Geocoding.geocode_address geolocator c utcnow full_address with
          | (Some v, c1) =>
              match Search.as_geo v with
              | Some g =>
                  (Ok (from_geocoder (geo_latitude g), from_geocoder (geo_longitude g)), c1)
              | None => (HTTPError 500 "'latitude'", c1)
              end
          | (None, c1) =>
              (HTTPError 400 "Could not geocode address and no coordinates provided", c1)
          end
      end in
    match coordinates with
    | (HTTPError _ reason, c1) => (row_failed (r_store_id row) reason, db, c1)
    | (Ok (lat, lon), c1) =>
        match to_float lat, to_float lon with
        | Some latitude, Some longitude =>
            let store_type := Py.lower (r_store_type row) in
            if negb (mem_str store_type valid_types)
            then (row_failed (r_store_id row)
                    ("Invalid store_type. Must be one of: " +:+ Py.join ", " valid_types),
                  db, c1)
            else
              let services_list := parse_services (default "" (r_services row)) in
              match find_store db (r_store_id row) with
              | Some existing_store =>
                  let db1 :=
                    {| stores :=
                         Stores.update_first (Stores.has_id (r_store_id row))
                           (fun old => imported_store row store_type latitude longitude
                                         (status old) (address_country old))
                           (stores db);
                       store_services := store_services db |} in
                  let db2 := Stores.insert_services (r_store_id row) services_list
                               (Stores.delete_services (r_store_id row) db1) in
                  (row_updated, db2, c1)
              | None =>
                  let new_store :=
                    imported_store row store_type latitude longitude active "USA" in
                  let db1 := {| stores := stores db ++ [new_store];
                                store_services := store_services db |} in
                  let db2 := Stores.insert_services (r_store_id row) services_list db1 in
                  (row_created, db2, c1)
              end
        | _, _ =>
            (row_failed (r_store_id row) "Invalid latitude or longitude format", db, c1)
        end
    end.

(** A row that passes every check before the store type: identifier and name
    are there and both coordinates are given and read as floats. *)
Definition has_coordinates (row : Row) : bool :=
  match r_latitude row, r_longitude row with
  | Some (String _ _ as lat), Some (String _ _ as lon) =>
      bool_decide (is_Some (py_float lat)) && bool_decide (is_Some (py_float lon))
  | _, _ => false
  end.

Definition well_formed (row : Row) : bool :=
  Py.truthy_str (r_store_id row) && Py.truthy_str (r_name row) && has_coordinates row.

(** The store type passes the check of the import. *)
Definition type_accepted (row : Row) : bool :=
  mem_str (Py.lower (r_store_type row)) valid_types.

(** The accumulator of the loop. *)
Record progress := {
  created_count : nat;
  updated_count : nat;
  failures : list StoreImportResult;
  p_db : StoreDb;
  p_cache : cache
}.

Definition step (utcnow : Z) (acc : progress) (numbered : nat * Row) : progress :=
  let '(row_num, row) := numbered in
  match import_row utcnow row (p_db acc) (p_cache acc) with
  | (row_created, db1, c1) =>
      {| created_count := S (created_count acc); updated_count := updated_count acc;
         failures := failures acc; p_db := db1; p_cache := c1 |}
  | (row_updated, db1, c1) =>
      {| created_count := created_count acc; updated_count := S (updated_count acc);
         failures := failures acc; p_db := db1; p_cache := c1 |}
  | (row_failed sid reason, db1, c1) =>
      {| created_count := created_count acc; updated_count := updated_count acc;
         failures := failures acc ++
           [{| row_number := row_num; failed_store_id := sid;
               import_status := "failed"; error := Some reason |}];
         p_db := db1; p_cache := c1 |}
  end.

(** [enumerate(csv_reader, start=2)] *)
Definition enumerate_from (start : nat) {A} (l : list A) : list (nat * A) :=
  combine (seq start (length l)) l.

Definition bulk_import_stores (utcnow : Z) (file : CsvFile) (db : StoreDb) (c : cache)
  : result BulkImportResponse * StoreDb * cache :=
  if negb (ends_with ".csv" (filename file))
  then (HTTPError 400 "File must be a CSV file", db, c)
  else if negb (forallb (fun h => mem_str h (fieldnames file)) required_headers)
  then (HTTPError 400 "Missing required CSV columns", db, c)
  else
    let final :=
      fold_left (step utcnow) (enumerate_from 2 (rows file))
        {| created_count := 0; updated_count := 0; failures := [];
           p_db := db; p_cache := c |} in
    (Ok {| total_rows := created_count final + updated_count final + length (failures final);
           created := created_count final;
           updated := updated_count final;
           failed := length (failures final);
           failed_records := failures final |},
     p_db final, p_cache final).

End BulkImport.

End Admin.

(* ===================================================================== *)
(** * app/routers/auth.py *)
(* ===================================================================== *)

Module Auth.
Import Models.

Record User := {
  id : Z;
  email : string;
  hashed_password : string;
  user_status : UserStatus;
  role_name : string
}.

Record RefreshToken := {
  token_hash : string;
  user_id : Z;
  expires_at : Z;
  revoked : bool
}.

Record AuthDb := {
  users : list User;
  refresh_tokens : list RefreshToken
}.

Record LoginRequest := { login_email : string; login_password : string }.

Record Token := { access_token : string; refresh_token : string; token_type : string }.

(** The claims the endpoints read from a decoded token. *)
Record payload := { claim_type : option string; claim_user_id : option Z }.

(** [app.utils.auth] and [app.utils.jwt]; token creation and decoding read the
    clock. The last field is the database behind the session: a
    [DateTime(timezone=True)] column read back from PostgreSQL is a
    timezone-aware datetime, read back from SQLite (the database of the
    tests) a naive one. *)
Record collaborators := {
  verify_password : string -> string -> bool;
  create_access_token : Z -> string -> string -> Z -> string;
  create_refresh_token : Z -> Z -> string;
  decode_token : string -> Z -> option payload;
  hash_token : string -> string;
  aware_datetimes : bool
}.

Definition is_active (u : User) : bool :=
  match user_status u with user_active => true | user_inactive => false end.

Definition timedelta_days (n : Z) : Z := n * 24 * 60 * 60 * 1000000.

Definition unauthorized {A} (detail : string) : result A := HTTPError 401 detail.

(** [login]. The column [token_hash] is unique: storing a hash that is already
    there fails at [db.commit()] with a server error. *)
Definition login (E : collaborators) (now : Z) (login_data : LoginRequest) (db : AuthDb)
  : result Token * AuthDb :=
  match List.find (fun u => String.eqb (email u) (login_email login_data)) (users db) with
  | None => (unauthorized "Incorrect email or password", db)
  | Some user =>
      if negb (verify_password E (login_password login_data) (hashed_password user))
      then (unauthorized "Incorrect email or password", db)
      else if negb (is_active user)
      then (unauthorized "User account is inactive", db)
      else
        let access := create_access_token E (id user) (email user) (role_name user) now in
        let refresh := create_refresh_token E (id user) now in
        let db_refresh_token :=
          {| token_hash := hash_token E refresh; user_id := id user;
             expires_at := now + timedelta_days 7; revoked := false |} in
        if existsb (fun t => String.eqb (token_hash t) (hash_token E refresh))
                   (refresh_tokens db)
        then (HTTPError 500 "IntegrityError: UNIQUE constraint failed", db)
        else
          (Ok {| access_token := access; refresh_token := refresh; token_type := "bearer" |},
           {| users := users db;
              refresh_tokens := refresh_tokens db ++ [db_refresh_token] |})
  end.

Definition refresh_access_token (E : collaborators) (now : Z) (refresh_data : string)
    (db : AuthDb) : result Token :=
  match decode_token E refresh_data now with
  | None => unauthorized "Invalid refresh token"
  | Some claims =>
      if negb (bool_decide (claim_type claims = Some "refresh"))
      then unauthorized "Invalid refresh token"
      else
        let h := hash_token E refresh_data in
        match List.find (fun t => String.eqb (token_hash t) h && negb (revoked t))
                        (refresh_tokens db) with
        | None => unauthorized "Refresh token not found or has been revoked"
        | Some db_token =>
            (* [db_token.expires_at < datetime.now(timezone.utc)]: a naive
               datetime is not comparable with an aware one *)
            if negb (aware_datetimes E)
            then HTTPError 500
                   "TypeError: can't compare offset-naive and offset-aware datetimes"
            else if expires_at db_token <? now
            then unauthorized "Refresh token has expired"
            else
              match List.find (fun u => bool_decide (Some (id u) = claim_user_id claims))
                              (users db) with
              | None => unauthorized "User not found or inactive"
              | Some user =>
                  if negb (is_active user)
                  then unauthorized "User not found or inactive"
                  else
                    Ok {| access_token :=
                            create_access_token E (id user) (email user) (role_name user) now;
                          refresh_token := refresh_data;
                          token_type := "bearer" |}
              end
        end
  end.

Definition revoke (t : RefreshToken) : RefreshToken :=
  {| token_hash := token_hash t; user_id := user_id t;
     expires_at := expires_at t; revoked := true |}.

(** [logout], for the user [get_current_user] has already authenticated. *)
Definition logout (E : collaborators) (refresh_data : string) (current_user : User)
    (db : AuthDb) : result string * AuthDb :=
  let h := hash_token E refresh_data in
  let owned (t : RefreshToken) :=
    String.eqb h (token_hash t) && (id current_user =? user_id t) in
  match List.find owned (refresh_tokens db) with
  | Some _ =>
      (Ok "Successfully logged out",
       {| users := users db;
          refresh_tokens := Stores.update_first owned revoke (refresh_tokens db) |})
  | None => (Ok "Successfully logged out", db)
  end.

(** A record that no longer authorizes a refresh at [now]: it is revoked or its
    expiry has passed. *)
Definition spent (now : Z) (t : RefreshToken) : Prop :=
  revoked t = true \/ expires_at t < now.

(** The state in which the records of hash [h] exist and are all spent. *)
Definition all_spent (now : Z) (h : string) (db : AuthDb) : Prop :=
  (exists t, In t (refresh_tokens db) /\ token_hash t = h)
  /\ (forall t, In t (refresh_tokens db) -> token_hash t = h -> spent now t).

(** The calls that write the token table, with the instant of each call. *)
Inductive call :=
  | call_login (now : Z) (login_data : LoginRequest)
  | call_refresh (now : Z) (refresh_data : string)
  | call_logout (refresh_data : string) (current_user : User).

Definition after_call (E : collaborators) (db : AuthDb) (c : call) : AuthDb :=
  match c with
  | call_login now login_data => snd (login E now login_data db)
  | call_refresh _ _ => db
  | call_logout refresh_data current_user => snd (logout E refresh_data current_user db)
  end.

Definition after_calls (E : collaborators) (calls : list call) (db : AuthDb) : AuthDb :=
  fold_left (after_call E) calls db.

End Auth.

(* ===================================================================== *)
(** * The order of the results of a search *)
(* ===================================================================== *)

Module ResultOrder.
Import Payload.

(** The key of [results.sort]: the reported distance. *)
Definition nearer (a b : result_item) : Prop := (distance_miles a <= distance_miles b)%Q.

End ResultOrder.

(* ===================================================================== *)
(** * Integrity of the store tables *)
(* ===================================================================== *)

Module StoreInvariants.
Import Models.

(** [store_id] is the primary key of [stores]. *)
Definition unique_ids (db : StoreDb) : Prop :=
  List.NoDup (map store_id (stores db)).

(** Every row of [store_services] refers to a row of [stores]. *)
Definition services_owned (db : StoreDb) : Prop :=
  forall p, In p (store_services db) -> In (fst p) (map store_id (stores db)).

Definition consistent (db : StoreDb) : Prop := unique_ids db /\ services_owned db.

End StoreInvariants.

(* ===================================================================== *)
(** * app/utils/cache.py: statistics *)
(* ===================================================================== *)

Module CacheStats.

Section Stats.
Context {V : Type}.

Record stats := {
  total_entries : nat;
  active_entries : nat;
  expired_entries : nat
}.

(** [get_stats]: the entries whose expiry lies before the instant of the call
    are counted as expired; nothing is removed. *)
Definition get_stats (c : gmap string (Cache.entry V)) (utcnow : Z) : stats :=
  let total := size c in
  let expired :=
    size (filter (fun kv : string * Cache.entry V => Cache.expires_at kv.2 < utcnow) c) in
  {| total_entries := total;
     active_entries := (total - expired)%nat;
     expired_entries := expired |}.

End Stats.

End CacheStats.

(* ===================================================================== *)
(** * app/dependencies.py *)
(* ===================================================================== *)

Module Dependencies.
Import Auth.

Section Gate.
Variable E : collaborators.
(** [[p.name for p in current_user.role.permissions]], read through the ORM
    relationships of the user. *)
Variable permissions_of : User -> list string.

(** [get_current_user] for the bearer token of the request. *)
Definition get_current_user (now : Z) (token : string) (db : AuthDb) : result User :=
  match decode_token E token now with
  | None => unauthorized "Invalid authentication credentials"
  | Some claims =>
      if negb (bool_decide (claim_type claims = Some "access"))
      then unauthorized "Invalid token type"
      else
        match claim_user_id claims with
        | None => unauthorized "Invalid token payload"
        | Some user_id =>
            match List.find (fun u => id u =? user_id) (users db) with
            | None => unauthorized "User not found"
            | Some user =>
                if negb (is_active user)
                then unauthorized "User account is inactive"
                else Ok user
            end
        end
  end.



End Gate.

End Dependencies.

(* ===================================================================== *)
(** * app/routers/admin.py: deactivating a user *)
(* ===================================================================== *)

Module Users.
Import Models Auth.

Definition deactivated (u : User) : User :=
  {| id := id u; email := email u; hashed_password := hashed_password u;
     user_status := user_inactive; role_name := role_name u |}.

(** [deactivate_user], for the administrator [current_user]; [Ok tt] is the
    204. *)
Definition deactivate_user (user_id : Z) (current_user : User) (db : AuthDb)
  : result unit * AuthDb :=
  match List.find (fun u => id u =? user_id) (users db) with
  | None => (HTTPError 404 "User not found", db)
  | Some user =>
      if id user =? id current_user
      then (HTTPError 400 "Cannot deactivate your own account", db)
      else
        (Ok tt,
         {| users := Stores.update_first (fun u => id u =? user_id) deactivated (users db);
            refresh_tokens := refresh_tokens db |})
  end.

End Users.

(* ===================================================================== *)
(** * Rows the ORM can load *)
(* ===================================================================== *)

Module Loading.
Import Models.

(** The column [store_type] is declared [SQLEnum(StoreType)], and the bulk
    import writes the string of the file into it after its own check. A row
    whose value is a member of the enum is loaded by a query; a row with any
    other value (the import accepts [pop-up]) makes the query that loads it
    raise [LookupError]. *)
Definition enum_store_type (s : Store) : bool :=
  existsb (String.eqb (store_type s))
          (map StoreType_value [flagship; regular; outlet; express]).

(** Every row of the table can be loaded. *)
Definition loadable (db : StoreDb) : Prop :=
  Forall (fun s => enum_store_type s = true) (stores db).

End Loading.

(* ===================================================================== *)
(** * Coordinates in the cache key *)
(* ===================================================================== *)

Module KeySpec.
Import Search.


End KeySpec.

(* ===================================================================== *)
(** * The two kinds of entries of the shared cache *)
(* ===================================================================== *)

Module CacheTyping.
Import Payload.

(** The keys under which geocoding results are stored. *)
Definition is_geocode_key (key : string) : Prop := String.prefix "geocode:" key = true.

(** Every entry holds the kind of value its key announces. *)
Definition well_typed (c : cache) : Prop :=
  forall key e, c !! key = Some e ->
    match Cache.value e with
    | SearchResponse _ => Search.is_search_key key
    | GeoResult _ => is_geocode_key key
    end.

End CacheTyping.

(* ===================================================================== *)
(** * Concrete data for the examples *)
(* ===================================================================== *)

Module Scenario.
Import Models Schemas Payload.

(** Stand-ins for the collaborators, simple enough to evaluate: a distance of
    69 miles per degree along each axis, its box, a geocoder that knows one
    postal code, and a float printer that writes the reduced fraction. *)
Definition flat_distance (lat1 lon1 lat2 lon2 : Q) : Q :=
  (69 * (Qabs (lat1 - lat2) + Qabs (lon1 - lon2)))%Q.

Definition flat_box (lat lon r : Q) : Search.bbox :=
  {| Search.min_lat := (lat - r / 69)%Q; Search.max_lat := (lat + r / 69)%Q;
     Search.min_lon := (lon - r / 69)%Q; Search.max_lon := (lon + r / 69)%Q |}.

Definition one_postal_code (address : string) : option (Q * Q * string) :=
  if String.eqb address "10001, USA"
  then Some (40.7128%Q, (-74.0060)%Q, "New York, NY 10001, USA")
  else None.

Definition fraction_str (x : Q) : string :=
  pretty (Qnum (Qred x)) +:+ "/" +:+ pretty (Zpos (Qden (Qred x))).

Definition stand_ins : Search.collaborators :=
  {| Search.calculate_bounding_box := flat_box;
     Search.calculate_distance := flat_distance;
     Search.geolocator := one_postal_code;
     Search.py_int := Py.int_ascii;
     Search.float_str := fraction_str |}.

Definition at_time (h m s : Z) : Distance.time :=
  {| Distance.hour := h; Distance.minute := m; Distance.second := s;
     Distance.microsecond := 0 |}.

Definition monday_noon : Search.clock :=
  {| Search.utcnow := 0;
     Search.localnow := {| Distance.now_weekday := Distance.Monday;
                           Distance.now_time := at_time 12 0 0 |} |}.

(** The store of the test fixture, and the same store at other places. *)
Definition store_at (sid : string) (lat lon : Q) (st : StoreStatus) : Store :=
  {| store_id := sid; name := "Test Store"; store_type := "regular";
     status := st; latitude := lat; longitude := lon;
     address_street := "123 Test St"; address_city := "New York";
     address_state := "NY"; address_postal_code := "10001";
     address_country := "USA"; phone := Some "212-555-1234";
     hours_mon := "09:00-21:00"; hours_tue := "09:00-21:00";
     hours_wed := "09:00-21:00"; hours_thu := "09:00-21:00";
     hours_fri := "09:00-21:00"; hours_sat := "10:00-20:00";
     hours_sun := "10:00-18:00" |}.

Definition test_store : Store := store_at "S0001" 40.7128%Q (-74.0060)%Q active.

Definition test_db : StoreDb :=
  {| stores := [test_store];
     store_services := [("S0001", "pharmacy"); ("S0001", "pickup")] |}.

Definition by_coordinates (lat lon radius : Q) : StoreSearchRequest :=
  {| address := None; postal_code := None;
     req_latitude := Some lat; req_longitude := Some lon;
     radius_miles := radius; services := None; store_types := None;
     open_now := None |}.

Definition empty_cache : cache := ∅.

Definition monday_at (h m s : Z) : Distance.local_now :=
  {| Distance.now_weekday := Distance.Monday; Distance.now_time := at_time h m s |}.

Definition hours_with_monday (entry : string) : gmap string string :=
  <[ "hours_mon" := entry ]> (Search.hours_dict test_store).

(** A table with an inactive and a temporarily closed store. *)
Definition mixed_db : StoreDb :=
  {| stores := [test_store;
                store_at "S0002" 40.7128%Q (-74.0060)%Q inactive;
                store_at "S0003" 40.7128%Q (-74.0060)%Q temporarily_closed];
     store_services := [("S0001", "pharmacy"); ("S0001", "pickup")] |}.

(** A stand-in for [float] that reads the coordinates of the examples. *)
Definition known_floats (text : string) : option Q :=
  if String.eqb text "40.7128" then Some 40.7128%Q
  else if String.eqb text "-74.0060" then Some (-74.0060)%Q
  else None.

Definition csv_row (sid st : string) : Admin.Row :=
  {| Admin.r_store_id := sid; Admin.r_name := "Imported Store";
     Admin.r_store_type := st;
     Admin.r_latitude := Some "40.7128"; Admin.r_longitude := Some "-74.0060";
     Admin.r_address_street := "456 Another St"; Admin.r_address_city := "New York";
     Admin.r_address_state := "NY"; Admin.r_address_postal_code := "10002";
     Admin.r_phone := Some "212-555-5678"; Admin.r_services := Some "pickup|returns";
     Admin.r_hours := (Some "09:00-21:00", Some "09:00-21:00", Some "09:00-21:00",
                       Some "09:00-21:00", Some "09:00-21:00", None, None) |}.

Definition csv_headers : list string :=
  ["store_id"; "name"; "store_type"; "latitude"; "longitude"; "address_street";
   "address_city"; "address_state"; "address_postal_code"; "phone"; "services";
   "hours_monday"; "hours_tuesday"; "hours_wednesday"; "hours_thursday";
   "hours_friday"].

Definition csv_of (rows : list Admin.Row) : Admin.CsvFile :=
  {| Admin.filename := "stores.csv"; Admin.fieldnames := csv_headers;
     Admin.rows := rows |}.

Definition import_file (file : Admin.CsvFile) (db : StoreDb) (c : cache) :=
  Admin.bulk_import_stores one_postal_code known_floats 0 file db c.

(** A search around the test store, and the cache it leaves behind. *)
Definition near_test_store : StoreSearchRequest :=
  by_coordinates 40.7128%Q (-74.0060)%Q 10%Q.

Definition search (r : StoreSearchRequest) (db : StoreDb) (c : cache) :=
  Search.search_stores stand_ins monday_noon r db c.

Definition warm_cache : cache := snd (search near_test_store test_db empty_cache).

Definition count_results (r : result py_value) : option nat :=
  match r with
  | Ok (SearchResponse resp) => Some (total_results resp)
  | _ => None
  end.





(** Requests with a zero coordinate, with filters, with [open_now]. *)
Definition with_postal_code (code : string) (r : StoreSearchRequest) : StoreSearchRequest :=
  {| address := address r; postal_code := Some code;
     req_latitude := req_latitude r; req_longitude := req_longitude r;
     radius_miles := radius_miles r; services := services r;
     store_types := store_types r; open_now := open_now r |}.

Definition with_filters (svc : list string) (types : list StoreType)
    (r : StoreSearchRequest) : StoreSearchRequest :=
  {| address := address r; postal_code := postal_code r;
     req_latitude := req_latitude r; req_longitude := req_longitude r;
     radius_miles := radius_miles r; services := Some svc;
     store_types := Some types; open_now := open_now r |}.

Definition with_open_now (r : StoreSearchRequest) : StoreSearchRequest :=
  {| address := address r; postal_code := postal_code r;
     req_latitude := req_latitude r; req_longitude := req_longitude r;
     radius_miles := radius_miles r; services := services r;
     store_types := store_types r; open_now := Some true |}.

Definition location_of (r : result py_value) : option search_location :=
  match r with
  | Ok (SearchResponse resp) => Some (location resp)
  | _ => None
  end.



Definition empty_db : StoreDb := {| stores := []; store_services := [] |}.

Definition five_minutes_later : Search.clock :=
  {| Search.utcnow := 300 * 1000000; Search.localnow := monday_at 12 5 0 |}.

(** Stand-ins for the password and token helpers. *)
Definition toy_auth : Auth.collaborators :=
  {| Auth.verify_password := fun plain hashed => String.eqb ("hashed:" +:+ plain) hashed;
     Auth.create_access_token := fun uid _ _ now =>
       "access." +:+ pretty uid +:+ "." +:+ pretty now;
     Auth.create_refresh_token := fun uid now =>
       "refresh." +:+ pretty uid +:+ "." +:+ pretty now;
     Auth.decode_token := fun tok _ =>
       if String.prefix "refresh.1." tok
       then Some {| Auth.claim_type := Some "refresh"; Auth.claim_user_id := Some 1 |}
       else if String.prefix "access.1." tok
       then Some {| Auth.claim_type := Some "access"; Auth.claim_user_id := Some 1 |}
       else None;
     Auth.hash_token := fun tok => "sha256:" +:+ tok;
     Auth.aware_datetimes := true |}.

(** The same helpers over a database that returns naive datetimes. *)
Definition toy_auth_sqlite : Auth.collaborators :=
  {| Auth.verify_password := Auth.verify_password toy_auth;
     Auth.create_access_token := Auth.create_access_token toy_auth;
     Auth.create_refresh_token := Auth.create_refresh_token toy_auth;
     Auth.decode_token := Auth.decode_token toy_auth;
     Auth.hash_token := Auth.hash_token toy_auth;
     Auth.aware_datetimes := false |}.

Definition admin : Auth.User :=
  {| Auth.id := 1; Auth.email := "admin@test.com";
     Auth.hashed_password := "hashed:AdminTest123!";
     Auth.user_status := user_active; Auth.role_name := "admin" |}.

Definition former : Auth.User :=
  {| Auth.id := 2; Auth.email := "former@test.com";
     Auth.hashed_password := "hashed:Former123!";
     Auth.user_status := user_inactive; Auth.role_name := "viewer" |}.

Definition auth_db : Auth.AuthDb :=
  {| Auth.users := [admin; former]; Auth.refresh_tokens := [] |}.

Definition credentials (e p : string) : Auth.LoginRequest :=
  {| Auth.login_email := e; Auth.login_password := p |}.

(** The token table after the administrator has logged in at instant 0 and
    logged out again. *)
Definition admin_token : string := "refresh.1.0".

Definition after_logout : Auth.AuthDb :=
  Auth.after_calls toy_auth
    [Auth.call_login 0 (credentials "admin@test.com" "AdminTest123!");
     Auth.call_logout admin_token admin]
    auth_db.

End Scenario.

(** Further data: two requests that differ only in which filter carries the
    name [flagship], bodies for the store endpoints, a file with one new and
    one known store, and a team of two active users. *)
Module Fixtures.
Import Models Schemas Payload Scenario.

Definition by_service_names : StoreSearchRequest :=
  {| address := None; postal_code := None;
     req_latitude := Some 40.7128%Q; req_longitude := Some (-74.0060)%Q;
     radius_miles := 10%Q; services := Some ["flagship"]; store_types := None;
     open_now := None |}.

Definition by_store_types : StoreSearchRequest :=
  {| address := None; postal_code := None;
     req_latitude := Some 40.7128%Q; req_longitude := Some (-74.0060)%Q;
     radius_miles := 10%Q; services := None; store_types := Some [flagship];
     open_now := None |}.

Definition one_minute_later : Search.clock :=
  {| Search.utcnow := 60 * 1000000; Search.localnow := monday_at 12 1 0 |}.

Definition new_store : Stores.StoreCreate :=
  {| Stores.c_store_id := "S0100"; Stores.c_name := "New Store";
     Stores.c_store_type := outlet; Stores.c_status := active;
     Stores.c_latitude := Some 40.75%Q; Stores.c_longitude := Some (-73.99)%Q;
     Stores.c_address_street := "1 Main St"; Stores.c_address_city := "New York";
     Stores.c_address_state := "NY"; Stores.c_address_postal_code := "10018";
     Stores.c_address_country := "USA"; Stores.c_phone := None;
     Stores.c_services := ["pickup"];
     Stores.c_hours := ("09:00-21:00", "09:00-21:00", "09:00-21:00", "09:00-21:00",
                        "09:00-21:00", "closed", "closed") |}.


Definition good_and_bad : Admin.CsvFile :=
  csv_of [csv_row "S0100" "regular"; csv_row "S0101" "express"].

Definition editor : Auth.User :=
  {| Auth.id := 3; Auth.email := "editor@test.com";
     Auth.hashed_password := "hashed:Editor123!";
     Auth.user_status := user_active; Auth.role_name := "marketing" |}.

Definition team : Auth.AuthDb :=
  {| Auth.users := [admin; editor]; Auth.refresh_tokens := [] |}.

Definition admin_login : Auth.LoginRequest := credentials "admin@test.com" "AdminTest123!".

Definition admin_access_token : string := "access.1.0".

End Fixtures.

(* ===================================================================== *)
(** * Properties *)
(* ===================================================================== *)

Module TextFacts.
Import Text.


Lemma append_cons (x : ascii) (a b : string) : String x a +:+ b = String x (a +:+ b).
Proof. reflexivity. Qed.


Lemma length_append (a b : string) :
  String.length (a +:+ b) = (String.length a + String.length b)%nat.
Proof.
  induction a as [|x a IH]; [reflexivity |]. rewrite append_cons. simpl. now f_equal.
Qed.








End TextFacts.

Module DistanceFacts.
Import Distance.

Section BoundingBoxFacts.
Local Open Scope R_scope.

Lemma radians_inside (latitude : R) :
  -90 < latitude < 90 -> - (PI / 2) < radians latitude < PI / 2.
Proof.
  intros [Hlo Hhi]. unfold radians. pose proof PI_RGT_0 as Hpi. split; nra.
Qed.

Lemma cos_radians_pos (latitude : R) :
  -90 < latitude < 90 -> 0 < cos (radians latitude).
Proof.
  intros H. destruct (radians_inside latitude H) as [Hlo Hhi].
  now apply cos_gt_0.
Qed.

Lemma cos_radians_inside (latitude : R) :
  -90 < latitude < 90 -> cos_radians latitude = cos (radians latitude).
Proof.
  intros [Hlo Hhi]. unfold cos_radians.
  destruct (Req_dec_T (Rabs latitude) 90) as [Heq | _]; [| reflexivity].
  exfalso. revert Heq. unfold Rabs. destruct (Rcase_abs latitude); lra.
Qed.

Lemma cos_radians_pole : cos_radians 90 = cos_at_pole.
Proof.
  unfold cos_radians.
  destruct (Req_dec_T (Rabs 90) 90) as [_ | Hne]; [reflexivity |].
  exfalso. apply Hne. apply Rabs_right. lra.
Qed.

Lemma py_div_nonzero (a b : R) : b <> 0 -> py_div a b = Some (a / b).
Proof. intros Hb. unfold py_div. destruct (Req_dec_T b 0); [contradiction | reflexivity]. Qed.

Lemma py_div_zero (a : R) : py_div a 0 = None.
Proof. unfold py_div. destruct (Req_dec_T 0 0); [reflexivity | contradiction]. Qed.

(** The box for any non-zero value of the cosine. *)
Lemma bounding_box_with_nonzero (c latitude longitude radius_miles : R) :
  c <> 0 ->
  bounding_box_with c latitude longitude radius_miles =
  Some {| min_lat := latitude - radius_miles / 69;
          max_lat := latitude + radius_miles / 69;
          min_lon := longitude - radius_miles / (69 * c);
          max_lon := longitude + radius_miles / (69 * c) |}.
Proof.
  intros Hc. unfold bounding_box_with.
  rewrite py_div_nonzero by (intros H; apply Hc; lra). reflexivity.
Qed.

(** C4, as amended: for every latitude strictly between the poles the box is
    the centre plus and minus radius/69 degrees of latitude and
    radius/(69 cos(radians(latitude))) degrees of longitude. *)
Theorem bounding_box_between_poles (latitude longitude radius_miles : R) :
  -90 < latitude < 90 ->
  calculate_bounding_box latitude longitude radius_miles =
  Some {| min_lat := latitude - radius_miles / 69;
          max_lat := latitude + radius_miles / 69;
          min_lon := longitude - radius_miles / (69 * cos (radians latitude));
          max_lon := longitude + radius_miles / (69 * cos (radians latitude)) |}.
Proof.
  intros Hlat. unfold calculate_bounding_box.
  rewrite (cos_radians_inside latitude Hlat).
  apply bounding_box_with_nonzero.
  pose proof (cos_radians_pos latitude Hlat). lra.
Qed.

Lemma bounding_box_between_poles_witness :
  -90 < 0 < 90 /\
  calculate_bounding_box 0 10 69 =
  Some {| min_lat := 0 - 69 / 69; max_lat := 0 + 69 / 69;
          min_lon := 10 - 69 / (69 * cos (radians 0));
          max_lon := 10 + 69 / (69 * cos (radians 0)) |}.
Proof.
  split; [lra | apply (bounding_box_between_poles 0 10 69); lra].
Defined.

(** Any small positive value of the cosine gives a span far beyond 180
    degrees on both sides. *)
Lemma bounding_box_residue_not_clamped (c : R) :
  0 < c < 1 / 2000 ->
  forall b, bounding_box_with c 90 0 10 = Some b -> min_lon b < -180 /\ 180 < max_lon b.
Proof.
  intros [Hc0 Hc1] b Hb.
  rewrite bounding_box_with_nonzero in Hb by lra.
  injection Hb as <-. simpl.
  assert (H : 180 < 10 / (69 * c)).
  { apply Rmult_lt_reg_r with (69 * c); [lra |].
    unfold Rdiv. rewrite Rmult_assoc, Rinv_l by lra. lra. }
  lra.
Qed.

(** At the pole the function has no guard. It does not divide by zero, the
    float cosine being a residue, and it returns a box; but the box is not the
    span from -180 to 180: its longitudes lie far outside on both sides. *)
Lemma bounding_box_pole_not_clamped :
  exists b, calculate_bounding_box 90 0 10 = Some b
            /\ min_lon b < -180 /\ 180 < max_lon b.
Proof.
  assert (Hc : 0 < cos_at_pole < 1 / 2000) by (unfold cos_at_pole; lra).
  unfold calculate_bounding_box. rewrite cos_radians_pole.
  rewrite bounding_box_with_nonzero by lra.
  eexists. split; [reflexivity |].
  apply (bounding_box_residue_not_clamped cos_at_pole Hc).
  apply bounding_box_with_nonzero. lra.
Qed.

End BoundingBoxFacts.

End DistanceFacts.

Module OpenNowFacts.
Import Distance.

Lemma time_leb_since_midnight (a b : time) :
  valid_time a -> valid_time b ->
  time_leb a b = true <-> since_midnight a <= since_midnight b.
Proof.
  unfold valid_time, since_midnight, time_leb.
  intros (Ha1 & Ha2 & Ha3 & Ha4) (Hb1 & Hb2 & Hb3 & Hb4).
  repeat match goal with
         | |- context [?x <? ?y] => destruct (Z.ltb_spec x y)
         end;
    rewrite ?Z.leb_le; split; intros; try lia; try discriminate.
Qed.

Lemma time_leb_refl (t : time) : time_leb t t = true.
Proof.
  unfold time_leb. rewrite !Z.ltb_irrefl. apply Z.leb_refl.
Qed.

Section WithInt.
Variable py_int : string -> option Z.

Lemma replace_time_valid (h m : Z) (t : time) :
  replace_time h m = Some t ->
  valid_time t /\ hour t = h /\ minute t = m /\ second t = 0 /\ microsecond t = 0.
Proof.
  unfold replace_time, valid_time.
  destruct (0 <=? h) eqn:H1, (h <=? 23) eqn:H2, (0 <=? m) eqn:H3, (m <=? 59) eqn:H4;
    simpl; intros [= <-]; simpl.
  apply Z.leb_le in H1, H2, H3, H4. lia.
Qed.

Lemma parse_hours_valid (today : string) (open_time close_time : time) :
  parse_hours py_int today = Some (open_time, close_time) ->
  valid_time open_time /\ valid_time close_time
  /\ second open_time = 0 /\ microsecond open_time = 0
  /\ second close_time = 0 /\ microsecond close_time = 0.
Proof.
  unfold parse_hours.
  destruct (Py.split "-" today) as [|o [|c [|x rest]]]; try discriminate.
  destruct (parse_hm py_int o) as [[oh om]|]; simpl; [|discriminate].
  destruct (parse_hm py_int c) as [[ch cm]|]; simpl; [|discriminate].
  destruct (replace_time oh om) as [ot|] eqn:Ho; simpl; [|discriminate].
  destruct (replace_time ch cm) as [ct|] eqn:Hc; simpl; [|discriminate].
  intros [= <- <-].
  apply replace_time_valid in Ho, Hc. tauto.
Qed.




End WithInt.

End OpenNowFacts.

Module OpenNowExamples.
Import Distance Scenario.


Example open_at_opening_time :
  is_store_open_now Py.int_ascii (hours_with_monday "09:00-21:00") (monday_at 9 0 0) = true.
Proof. reflexivity. Qed.

Example closed_one_second_after_closing :
  is_store_open_now Py.int_ascii (hours_with_monday "09:00-21:00") (monday_at 21 0 1) = false.
Proof. reflexivity. Qed.

Example closed_before_opening :
  is_store_open_now Py.int_ascii (hours_with_monday "09:00-21:00") (monday_at 8 59 59) = false.
Proof. reflexivity. Qed.

Example hour_out_of_range_is_closed :
  is_store_open_now Py.int_ascii (hours_with_monday "09:00-24:00") (monday_at 12 0 0) = false.
Proof. reflexivity. Qed.

Example three_parts_is_closed :
  is_store_open_now Py.int_ascii (hours_with_monday "09:00-12:00-21:00") (monday_at 10 0 0) = false.
Proof. reflexivity. Qed.

Example missing_day_is_closed :
  is_store_open_now Py.int_ascii ∅ (monday_at 12 0 0) = false.
Proof. reflexivity. Qed.

End OpenNowExamples.

Module AuthFacts.
Import Auth.

Section Login.
Variable E : collaborators.

(** C5, as amended: every authentication failure of [login] has status 401;
    an unknown email and a wrong password share one message; correct
    credentials for an inactive account get a message of their own. *)
Theorem login_failures (now : Z) (login_data : LoginRequest) (db : AuthDb) :
  let found := List.find (fun u => String.eqb (email u) (login_email login_data)) (users db) in
  (found = None ->
   login E now login_data db = (HTTPError 401 "Incorrect email or password", db))
  /\ (forall user, found = Some user ->
        verify_password E (login_password login_data) (hashed_password user) = false ->
        login E now login_data db = (HTTPError 401 "Incorrect email or password", db))
  /\ (forall user, found = Some user ->
        verify_password E (login_password login_data) (hashed_password user) = true ->
        user_status user = Models.user_inactive ->
        login E now login_data db = (HTTPError 401 "User account is inactive", db)).
Proof.
  intros found. unfold login. fold found.
  split; [| split].
  - intros ->. reflexivity.
  - intros user -> Hpw. rewrite Hpw. reflexivity.
  - intros user -> Hpw Hst. rewrite Hpw. unfold is_active. rewrite Hst. reflexivity.
Qed.

End Login.

End AuthFacts.

Module AuthExamples.
Import Auth Scenario.

Lemma login_failures_witness :
  login toy_auth 0 (credentials "nobody@test.com" "Password123!") auth_db
    = (HTTPError 401 "Incorrect email or password", auth_db)
  /\ login toy_auth 0 (credentials "admin@test.com" "WrongPassword") auth_db
    = (HTTPError 401 "Incorrect email or password", auth_db)
  /\ login toy_auth 0 (credentials "former@test.com" "Former123!") auth_db
    = (HTTPError 401 "User account is inactive", auth_db).
Proof.
  split; [| split].
  - destruct (AuthFacts.login_failures toy_auth 0
                (credentials "nobody@test.com" "Password123!") auth_db) as (H & _ & _).
    apply H. reflexivity.
  - destruct (AuthFacts.login_failures toy_auth 0
                (credentials "admin@test.com" "WrongPassword") auth_db) as (_ & H & _).
    apply (H admin); reflexivity.
  - destruct (AuthFacts.login_failures toy_auth 0
                (credentials "former@test.com" "Former123!") auth_db) as (_ & _ & H).
    apply (H former); reflexivity.
Defined.

(** The message for an inactive account is not the message for an unknown
    email. *)
Lemma login_inactive_message_differs :
  detail_of (fst (login toy_auth 0 (credentials "former@test.com" "Former123!") auth_db))
  <> detail_of (fst (login toy_auth 0 (credentials "nobody@test.com" "Password123!") auth_db)).
Proof. vm_compute. discriminate. Qed.

End AuthExamples.

Module UpdateFirstFacts.
Import Stores.

Section UpdateFirst.
Context {A : Type} (p : A -> bool) (f : A -> A).


Lemma update_first_map {B} (h : A -> B) (l : list A) :
  (forall y, h (f y) = h y) -> map h (update_first p f l) = map h l.
Proof.
  intros Hh. induction l as [|a l IH]; simpl; [reflexivity |].
  destruct (p a); simpl; [rewrite Hh | rewrite IH]; reflexivity.
Qed.

Lemma update_first_length (l : list A) : length (update_first p f l) = length l.
Proof.
  induction l as [|a l IH]; simpl; [reflexivity |].
  destruct (p a); simpl; [| rewrite IH]; reflexivity.
Qed.

(** Position by position, a row is kept or replaced by its image. *)
Lemma update_first_lookup (l : list A) (i : nat) (x : A) :
  l !! i = Some x ->
  update_first p f l !! i = Some x \/ (p x = true /\ update_first p f l !! i = Some (f x)).
Proof.
  revert i. induction l as [|a l IH]; intros i; [discriminate |].
  simpl. destruct (p a) eqn:Hp.
  - destruct i as [|i]; simpl; [intros [= <-]; right; auto | auto].
  - destruct i as [|i]; simpl; [auto | apply IH].
Qed.

Lemma find_update_first (l : list A) (x : A) :
  List.find p l = Some x -> In (f x) (update_first p f l).
Proof.
  induction l as [|a l IH]; simpl; [discriminate |].
  destruct (p a) eqn:Hp; [intros [= <-]; now left | intros H; right; auto].
Qed.

End UpdateFirst.

End UpdateFirstFacts.

Module TokenFacts.
Import Auth.

Section Tokens.
Variable E : collaborators.

Lemma spent_later (now later : Z) (t : RefreshToken) :
  now <= later -> spent now t -> spent later t.
Proof. unfold spent. intros Hle [H | H]; [left | right]; [assumption | lia]. Qed.

Lemma all_spent_later (now later : Z) (h : string) (db : AuthDb) :
  now <= later -> all_spent now h db -> all_spent later h db.
Proof.
  intros Hle [Hex Hall]. split; [exact Hex |].
  intros t Hin Hh. eapply spent_later; eauto.
Qed.

(** What holds of the records of one hash, and of every revoked record, is
    kept by every call: a login adds no record with a hash that is there, a
    logout only revokes. *)
Section Kept.
Variable P : RefreshToken -> Prop.
Hypothesis P_revoke : forall t, P (revoke t).




End Kept.







End Tokens.

End TokenFacts.

Module TokenExamples.
Import Auth Scenario.

Example refresh_before_logout :
  is_ok (refresh_access_token toy_auth 1 admin_token
           (after_calls toy_auth
              [call_login 0 (credentials "admin@test.com" "AdminTest123!")] auth_db)) = true.
Proof. reflexivity. Qed.

Example refresh_after_logout :
  refresh_access_token toy_auth 1 admin_token after_logout
  = HTTPError 401 "Refresh token not found or has been revoked".
Proof. reflexivity. Qed.

Example refresh_after_expiry :
  refresh_access_token toy_auth (timedelta_days 7 + 1) admin_token
    (after_calls toy_auth
       [call_login 0 (credentials "admin@test.com" "AdminTest123!")] auth_db)
  = HTTPError 401 "Refresh token has expired".
Proof. reflexivity. Qed.

Example refresh_on_naive_datetimes :
  refresh_access_token toy_auth_sqlite 1 admin_token
    (after_calls toy_auth_sqlite
       [call_login 0 (credentials "admin@test.com" "AdminTest123!")] auth_db)
  = HTTPError 500 "TypeError: can't compare offset-naive and offset-aware datetimes".
Proof. reflexivity. Qed.



End TokenExamples.

Module SortFacts.
Import Payload Search.

Lemma insert_item_In (x y : result_item) (l : list result_item) :
  In y (insert_item x l) <-> y = x \/ In y l.
Proof.
  induction l as [|a l IH]; simpl; [firstorder |].
  destruct (Qle_bool _ _); simpl; [firstorder | rewrite IH; firstorder].
Qed.

Lemma sort_by_distance_In (y : result_item) (l : list result_item) :
  In y (sort_by_distance l) <-> In y l.
Proof.
  unfold sort_by_distance. induction l as [|a l IH]; simpl; [tauto |].
  rewrite insert_item_In, IH. firstorder.
Qed.

Lemma omap_In {A B} (f : A -> option B) (l : list A) (y : B) :
  In y (omap f l) <-> exists x, In x l /\ f x = Some y.
Proof.
  rewrite <- list_elem_of_In, list_elem_of_omap.
  split; intros (x & Hx & Hf); exists x; [rewrite <- list_elem_of_In | rewrite list_elem_of_In]; auto.
Qed.

End SortFacts.

Module StoreFacts.
Import Models Payload Stores.

Lemma find_store_In (db : StoreDb) (sid : string) (s : Store) :
  find_store db sid = Some s -> In s (stores db) /\ store_id s = sid.
Proof.
  unfold find_store. intros H. apply find_some in H as [Hin Hid].
  apply String.eqb_eq in Hid. auto.
Qed.




End StoreFacts.

Module ListingFacts.
Import Models Payload Stores.




Section SearchSide.
Variable E : Search.collaborators.

Lemma query_stores_active (r : Schemas.StoreSearchRequest) (db : StoreDb)
    (lat lon : Q) (s : Store) :
  In s (Search.query_stores E r db lat lon) -> In s (stores db) /\ status s = active.
Proof.
  unfold Search.query_stores.
  set (q := List.filter _ (stores db)).
  assert (Hq : In s q -> In s (stores db) /\ status s = active).
  { unfold q. rewrite filter_In. intros [Hin Hp].
    apply andb_true_iff in Hp as [_ Hst]. split; [assumption |].
    now destruct (status s). }
  destruct (Schemas.store_types r) as [[|t ts]|]; auto.
  rewrite filter_In. tauto.
Qed.

Lemma result_for_store (clk : Search.clock) (r : Schemas.StoreSearchRequest)
    (db : StoreDb) (lat lon : Q) (s : Store) (item : result_item) :
  Search.result_for E clk r db lat lon s = Some item ->
  item_store item = s
  /\ Qle_bool (Search.calculate_distance E lat lon (latitude s) (longitude s))
              (Schemas.radius_miles r) = true.
Proof.
  unfold Search.result_for.
  destruct (Qle_bool _ _); simpl; [| discriminate].
  destruct (match Schemas.services r with Some ((_ :: _) as wanted) => _ | _ => false end);
    [discriminate |].
  destruct (_ && _); [discriminate |].
  intros [= <-]. auto.
Qed.

Lemma response_items (clk : Search.clock) (r : Schemas.StoreSearchRequest)
    (db : StoreDb) (lat lon : Q) (info : search_location) (item : result_item) :
  In item (results (Search.build_response E clk r db lat lon info)) ->
  exists s, In s (Search.query_stores E r db lat lon)
            /\ Search.result_for E clk r db lat lon s = Some item.
Proof.
  unfold Search.build_response. simpl.
  rewrite SortFacts.sort_by_distance_In, SortFacts.omap_In. auto.
Qed.


End SearchSide.

End ListingFacts.

Module ListingExamples.
Import Models Payload Stores Scenario.


Example search_skips_inactive :
  count_results (fst (search near_test_store mixed_db empty_cache)) = Some 1%nat.
Proof. vm_compute. reflexivity. Qed.

Example lookup_after_delete :
  let '(_, db', _) := delete_store "S0001" test_db warm_cache in
  (status ∘ view_store) <$> (match get_store "S0001" db' with Ok v => Some v | _ => None end)
  = Some inactive.
Proof. vm_compute. reflexivity. Qed.

End ListingExamples.

Module CacheFacts.
Import Payload.

Lemma get_keeps_other (c : cache) (key other : string) (utcnow : Z) :
  other <> key -> snd (Cache.get c key utcnow) !! other = c !! other.
Proof.
  intros Hne. unfold Cache.get.
  destruct (c !! key) as [e|]; [| reflexivity].
  destruct (Cache.expires_at e <? utcnow); simpl; [| reflexivity].
  now apply lookup_delete_ne.
Qed.

Lemma set_keeps_other (c : cache) (key other : string) (v : py_value) (ttl utcnow : Z) :
  other <> key -> Cache.set c key v ttl utcnow !! other = c !! other.
Proof. intros Hne. unfold Cache.set. now apply lookup_insert_ne. Qed.

(** A value that has just been stored is read back until its expiry. *)
Lemma get_after_set (c : cache) (key : string) (v : py_value) (ttl utcnow later : Z) :
  later <= utcnow + Cache.timedelta_seconds ttl ->
  Cache.get (Cache.set c key v ttl utcnow) key later
  = (Some v, Cache.set c key v ttl utcnow).
Proof.
  intros Hle. unfold Cache.get, Cache.set. rewrite lookup_insert_eq. simpl.
  destruct (Z.ltb_spec (utcnow + Cache.timedelta_seconds ttl) later); [lia | reflexivity].
Qed.

Lemma get_miss_absent (c c' : cache) (key : string) (utcnow : Z) :
  Cache.get c key utcnow = (None, c') -> c' !! key = None.
Proof.
  unfold Cache.get. destruct (c !! key) as [e|] eqn:Hk.
  - destruct (Cache.expires_at e <? utcnow); [| discriminate].
    intros [= <-]. apply lookup_delete_eq.
  - now intros [= <-].
Qed.

Lemma get_hit_unchanged (c c' : cache) (key : string) (utcnow : Z) (v : py_value) :
  Cache.get c key utcnow = (Some v, c') -> c' = c.
Proof.
  unfold Cache.get. destruct (c !! key) as [e|]; [| discriminate].
  destruct (Cache.expires_at e <? utcnow); [discriminate | now intros [= _ <-]].
Qed.

Section GeocoderCache.
Variable geolocator : string -> option (Q * Q * string).

(** The geocoder touches its own key only. *)
Lemma geocode_address_keeps_other (c : cache) (utcnow : Z) (address other : string) :
  other <> Geocoding.geocode_key address ->
  snd (Geocoding.geocode_address geolocator c utcnow address) !! other = c !! other.
Proof.
  intros Hne. unfold Geocoding.geocode_address.
  pose proof (get_keeps_other c _ other utcnow Hne) as Hget.
  destruct (Cache.get c (Geocoding.geocode_key address) utcnow) as [[v|] c1]; simpl in *.
  - assumption.
  - destruct (geolocator address) as [[[lat lon] addr]|]; simpl; [| assumption].
    now rewrite set_keeps_other.
Qed.

End GeocoderCache.

(** Keys of the search start with [s], keys of the geocoder with [g]. *)
Lemma geocode_key_not_search (address key : string) :
  Search.is_search_key key -> key <> Geocoding.geocode_key address.
Proof.
  unfold Search.is_search_key, Geocoding.geocode_key. intros Hp ->. simpl in Hp. discriminate.
Qed.

End CacheFacts.

Module InvalidationFacts.
Import Models Payload Stores.

Section Mutations.
Variable geolocator : string -> option (Q * Q * string).
Variable py_float : string -> option Q.

(** The three store endpoints leave an empty cache behind when they succeed. *)
Lemma create_store_clears (utcnow : Z) (store_data : StoreCreate) (db db' : StoreDb)
    (c c' : cache) (v : store_view) :
  create_store geolocator utcnow store_data db c = (Ok v, db', c') -> c' = ∅.
Proof.
  unfold create_store.
  destruct (find_store db _); [discriminate |].
  repeat match goal with
         | |- context [match ?x with _ => _ end] => destruct x
         end;
    try discriminate; now intros [= _ _ <-].
Qed.

Lemma update_store_clears (sid : string) (store_data : StoreUpdate) (db db' : StoreDb)
    (c c' : cache) (v : store_view) :
  update_store sid store_data db c = (Ok v, db', c') -> c' = ∅.
Proof.
  unfold update_store. destruct (find_store db sid); [| discriminate].
  now intros [= _ _ <-].
Qed.

Lemma delete_store_clears (sid : string) (db db' : StoreDb) (c c' : cache) :
  delete_store sid db c = (Ok tt, db', c') -> c' = ∅.
Proof.
  unfold delete_store. destruct (find_store db sid); [| discriminate].
  now intros [= _ <-].
Qed.

(** The bulk import never calls [cache.clear()]: what it leaves in the cache
    differs from what it found only under geocoding keys. *)
Lemma import_row_keeps_search_entries (utcnow : Z) (row : Admin.Row) (db : StoreDb)
    (c : cache) (key : string) :
  Search.is_search_key key ->
  snd (Admin.import_row geolocator py_float utcnow row db c) !! key = c !! key.
Proof.
  intros Hkey. unfold Admin.import_row.
  destruct (_ || _); [reflexivity |].
  match goal with
  | |- context [Geocoding.geocode_address geolocator c utcnow ?a] =>
      pose proof (CacheFacts.geocode_address_keeps_other geolocator c utcnow a key
                    (CacheFacts.geocode_key_not_search a key Hkey)) as Hgeo;
      destruct (Geocoding.geocode_address geolocator c utcnow a) as [[v|] c1]
  end; simpl in Hgeo.
  - destruct (Admin.r_latitude row) as [[|? ?]|], (Admin.r_longitude row) as [[|? ?]|];
      destruct (Search.as_geo v); simpl;
      repeat match goal with
             | |- context [match ?x with _ => _ end] => destruct x; simpl
             end; auto.
  - destruct (Admin.r_latitude row) as [[|? ?]|], (Admin.r_longitude row) as [[|? ?]|];
      simpl;
      repeat match goal with
             | |- context [match ?x with _ => _ end] => destruct x; simpl
             end; auto.
Qed.

End Mutations.

End InvalidationFacts.

Module ImportFacts.
Import Models Payload Admin.

Section Batch.
Variable geolocator : string -> option (Q * Q * string).
Variable py_float : string -> option Q.

Lemma step_keeps_search_entries (utcnow : Z) (acc : progress) (numbered : nat * Row)
    (key : string) :
  Search.is_search_key key ->
  p_cache (step geolocator py_float utcnow acc numbered) !! key = p_cache acc !! key.
Proof.
  intros Hkey. destruct numbered as [row_num row]. unfold step.
  pose proof (InvalidationFacts.import_row_keeps_search_entries geolocator py_float
                utcnow row (p_db acc) (p_cache acc) key Hkey) as H.
  destruct (import_row geolocator py_float utcnow row (p_db acc) (p_cache acc))
    as [[[| | sid reason] db1] c1]; simpl in *; exact H.
Qed.

Lemma fold_keeps_search_entries (utcnow : Z) (l : list (nat * Row)) (acc : progress)
    (key : string) :
  Search.is_search_key key ->
  p_cache (fold_left (step geolocator py_float utcnow) l acc) !! key = p_cache acc !! key.
Proof.
  intros Hkey. revert acc. induction l as [|x l IH]; intros acc; simpl; [reflexivity |].
  rewrite IH. now apply step_keeps_search_entries.
Qed.

(** Whatever the file, every search entry that was in the cache before the
    import is in the cache after it. *)
Lemma bulk_import_keeps_search_entries (utcnow : Z) (file : CsvFile) (db : StoreDb)
    (c : cache) (key : string) :
  Search.is_search_key key ->
  snd (bulk_import_stores geolocator py_float utcnow file db c) !! key = c !! key.
Proof.
  intros Hkey. unfold bulk_import_stores.
  destruct (negb (ends_with _ _)); [reflexivity |].
  destruct (negb (forallb _ _)); [reflexivity |].
  simpl. now rewrite fold_keeps_search_entries.
Qed.

(** Every row is counted once: the batch is not aborted by a row. *)
Lemma step_counts (utcnow : Z) (acc : progress) (numbered : nat * Row) :
  let acc' := step geolocator py_float utcnow acc numbered in
  (created_count acc' + updated_count acc' + length (failures acc')
   = S (created_count acc + updated_count acc + length (failures acc)))%nat.
Proof.
  destruct numbered as [row_num row]. unfold step.
  destruct (import_row geolocator py_float utcnow row (p_db acc) (p_cache acc))
    as [[[| | sid reason] db1] c1]; simpl; rewrite ?length_app; simpl; lia.
Qed.

Lemma fold_counts (utcnow : Z) (l : list (nat * Row)) (acc : progress) :
  let final := fold_left (step geolocator py_float utcnow) l acc in
  (created_count final + updated_count final + length (failures final)
   = length l + (created_count acc + updated_count acc + length (failures acc)))%nat.
Proof.
  revert acc. induction l as [|x l IH]; intros acc; simpl; [reflexivity |].
  specialize (IH (step geolocator py_float utcnow acc x)). simpl in IH.
  rewrite IH. pose proof (step_counts utcnow acc x) as H. simpl in H. lia.
Qed.

Lemma bulk_import_counts_every_row (utcnow : Z) (file : CsvFile) (db db' : StoreDb)
    (c c' : cache) (resp : BulkImportResponse) :
  bulk_import_stores geolocator py_float utcnow file db c = (Ok resp, db', c') ->
  (created resp + updated resp + failed resp = length (rows file))%nat
  /\ total_rows resp = length (rows file).
Proof.
  unfold bulk_import_stores.
  destruct (negb (ends_with _ _)); [discriminate |].
  destruct (negb (forallb _ _)); [discriminate |].
  intros [= <- _ _]. simpl.
  pose proof (fold_counts utcnow (enumerate_from 2 (rows file))
                {| created_count := 0; updated_count := 0; failures := [];
                   p_db := db; p_cache := c |}) as H.
  cbv zeta in H. unfold enumerate_from in *.
  rewrite length_combine, length_seq, Nat.min_id in H. simpl in H. lia.
Qed.

(** A row whose store type is [express] is never created or updated. *)
Lemma import_row_rejects_express (utcnow : Z) (row : Row) (db : StoreDb) (c : cache) :
  Py.lower (r_store_type row) = "express" ->
  exists sid reason db1 c1,
    import_row geolocator py_float utcnow row db c = (row_failed sid reason, db1, c1)
    /\ db1 = db.
Proof.
  intros Hexpress. unfold import_row. rewrite Hexpress.
  repeat match goal with
         | |- context [match ?x with _ => _ end] => destruct x; simpl
         end;
    try discriminate; eauto 10.
Qed.

End Batch.

End ImportFacts.

Module BatchFacts.
Import Models Payload Admin.

Section OneBadRow.
Variable geolocator : string -> option (Q * Q * string).
Variable py_float : string -> option Q.

Lemma accepted_row_upserts (utcnow : Z) (row : Row) (db : StoreDb) (c : cache) :
  well_formed py_float row = true -> type_accepted row = true ->
  exists db1,
    import_row geolocator py_float utcnow row db c = (row_created, db1, c)
    \/ import_row geolocator py_float utcnow row db c = (row_updated, db1, c).
Proof.
  unfold well_formed, has_coordinates, type_accepted, import_row.
  intros Hwf Hty.
  apply andb_true_iff in Hwf as [Hwf Hco]. apply andb_true_iff in Hwf as [Hid Hname].
  rewrite Hid, Hname. cbn -[mem_str Py.join String.append].
  destruct (r_latitude row) as [[|a lat]|]; try discriminate.
  destruct (r_longitude row) as [[|b lon]|]; try discriminate.
  apply andb_true_iff in Hco as [Hlat Hlon].
  apply bool_decide_eq_true in Hlat as [x Hx], Hlon as [y Hy].
  cbn -[mem_str Py.join String.append]. rewrite Hx, Hy, Hty.
  cbn -[mem_str Py.join String.append].
  destruct (find_store db (r_store_id row)); eauto.
Qed.

Lemma rejected_row_fails (utcnow : Z) (row : Row) (db : StoreDb) (c : cache) :
  well_formed py_float row = true -> type_accepted row = false ->
  import_row geolocator py_float utcnow row db c
  = (row_failed (r_store_id row)
       ("Invalid store_type. Must be one of: " +:+ Py.join ", " valid_types), db, c).
Proof.
  unfold well_formed, has_coordinates, type_accepted, import_row.
  intros Hwf Hty.
  apply andb_true_iff in Hwf as [Hwf Hco]. apply andb_true_iff in Hwf as [Hid Hname].
  rewrite Hid, Hname. cbn -[mem_str Py.join String.append].
  destruct (r_latitude row) as [[|a lat]|]; try discriminate.
  destruct (r_longitude row) as [[|b lon]|]; try discriminate.
  apply andb_true_iff in Hco as [Hlat Hlon].
  apply bool_decide_eq_true in Hlat as [x Hx], Hlon as [y Hy].
  cbn -[mem_str Py.join String.append]. rewrite Hx, Hy, Hty. reflexivity.
Qed.

Lemma enumerate_from_app {A} (start : nat) (l1 l2 : list A) :
  enumerate_from start (l1 ++ l2)
  = (enumerate_from start l1 ++ enumerate_from (start + length l1) l2)%list.
Proof.
  unfold enumerate_from. revert start.
  induction l1 as [|a l1 IH]; intros start; simpl.
  - now rewrite Nat.add_0_r.
  - rewrite IH. replace (S start + length l1)%nat with (start + S (length l1))%nat by lia.
    reflexivity.
Qed.

(** Rows that are all accepted add to the two counters and to nothing else. *)
Lemma fold_accepted (utcnow : Z) (l : list Row) (start : nat) (acc : progress) :
  Forall (fun row => well_formed py_float row = true /\ type_accepted row = true) l ->
  let final := fold_left (step geolocator py_float utcnow) (enumerate_from start l) acc in
  (created_count final + updated_count final
   = length l + (created_count acc + updated_count acc))%nat
  /\ failures final = failures acc
  /\ p_cache final = p_cache acc.
Proof.
  intros Hall. revert start acc.
  induction Hall as [|row l [Hwf Hty] _ IH]; intros start acc; [simpl; auto |].
  change (enumerate_from start (row :: l))
    with ((start, row) :: enumerate_from (S start) l).
  simpl. specialize (IH (S start) (step geolocator py_float utcnow acc (start, row))).
  simpl in IH. destruct IH as (Hcount & Hfail & Hcache).
  rewrite Hcount, Hfail, Hcache. unfold step.
  destruct (accepted_row_upserts utcnow row (p_db acc) (p_cache acc) Hwf Hty)
    as [db1 [-> | ->]]; simpl; repeat split; lia.
Qed.

(** One row with a store type the import rejects, among rows it accepts: the
    batch finishes, all other rows are created or updated, and the single
    failure record carries the line number of the bad row (its 1-based
    position among the data rows plus one for the header). *)
Lemma one_rejected_row (utcnow : Z) (file : CsvFile) (db : StoreDb) (c : cache)
    (before after : list Row) (bad : Row) :
  ends_with ".csv" (filename file) = true ->
  forallb (fun h => mem_str h (fieldnames file)) required_headers = true ->
  rows file = (before ++ bad :: after)%list ->
  Forall (fun row => well_formed py_float row = true /\ type_accepted row = true)
         (before ++ after)%list ->
  well_formed py_float bad = true -> type_accepted bad = false ->
  exists resp db',
    bulk_import_stores geolocator py_float utcnow file db c = (Ok resp, db', c)
    /\ (created resp + updated resp = length (rows file) - 1)%nat
    /\ failed resp = 1%nat
    /\ map row_number (failed_records resp) = [(length before + 1) + 1]%nat.
Proof.
  intros Hname Hheaders Hrows Hothers Hwf Hbad.
  apply Forall_app in Hothers as [Hbefore Hafter].
  unfold bulk_import_stores. rewrite Hname, Hheaders, Hrows. simpl.
  rewrite (enumerate_from_app 2 before (bad :: after)), fold_left_app.
  set (acc0 := {| created_count := 0; updated_count := 0; failures := [];
                  p_db := db; p_cache := c |}).
  destruct (fold_accepted utcnow before 2 acc0 Hbefore) as (Hc1 & Hf1 & Hk1).
  set (acc1 := fold_left (step geolocator py_float utcnow) (enumerate_from 2 before) acc0) in *.
  change (enumerate_from (2 + length before) (bad :: after))
    with ((2 + length before, bad)%nat :: enumerate_from (S (2 + length before)) after).
  cbn [fold_left].
  set (acc2 := step geolocator py_float utcnow acc1 ((2 + length before)%nat, bad)).
  assert (H2 : (created_count acc2 + updated_count acc2 = length before)%nat
               /\ failures acc2 = [{| row_number := 2 + length before;
                                      failed_store_id := r_store_id bad;
                                      import_status := "failed";
                                      error := Some ("Invalid store_type. Must be one of: "
                                                     +:+ Py.join ", " valid_types) |}]
               /\ p_cache acc2 = c).
  { unfold acc2, step.
    rewrite (rejected_row_fails utcnow bad (p_db acc1) (p_cache acc1) Hwf Hbad).
    simpl. rewrite Hf1, Hk1. simpl in Hc1. simpl. repeat split; lia. }
  destruct H2 as (Hc2 & Hf2 & Hk2).
  destruct (fold_accepted utcnow after (S (2 + length before)) acc2 Hafter)
    as (Hc3 & Hf3 & Hk3).
  set (final := fold_left (step geolocator py_float utcnow)
                  (enumerate_from (S (2 + length before)) after) acc2) in *.
  exists {| total_rows := created_count final + updated_count final + length (failures final);
            created := created_count final; updated := updated_count final;
            failed := length (failures final); failed_records := failures final |},
         (p_db final).
  simpl. rewrite Hk3, Hk2, Hf3, Hf2, length_app. simpl.
  repeat split; try lia. f_equal. lia.
Qed.

End OneBadRow.

End BatchFacts.

Module ImportExamples.
Import Models Payload Admin Scenario.

(** C7 at a row of store type [express], a member of [StoreType]: the import
    does not upsert it, it records it as failed. *)
Theorem bulk_import_rejects_express :
  import_file (csv_of [csv_row "S0002" "express"]) test_db empty_cache
  = (Ok {| total_rows := 1; created := 0; updated := 0; failed := 1;
           failed_records :=
             [{| row_number := 2; failed_store_id := "S0002";
                 import_status := "failed";
                 error := Some "Invalid store_type. Must be one of: regular, flagship, outlet, pop-up" |}] |},
     test_db, empty_cache).
Proof. vm_compute. reflexivity. Qed.

Example three_enum_rows :
  let '(r, _, _) :=
    import_file (csv_of [csv_row "S0002" "regular"; csv_row "S0003" "express";
                         csv_row "S0004" "flagship"]) test_db empty_cache in
  (fun resp => (created resp, updated resp, failed resp, map row_number (failed_records resp)))
    <$> (match r with Ok resp => Some resp | _ => None end)
  = Some (2, 0, 1, [3])%nat.
Proof. vm_compute. reflexivity. Qed.

Example upsert_of_existing_store :
  let '(r, _, _) :=
    import_file (csv_of [csv_row "S0001" "outlet"; csv_row "S0002" "Regular"])
      test_db empty_cache in
  (fun resp => (created resp, updated resp, failed resp))
    <$> (match r with Ok resp => Some resp | _ => None end)
  = Some (1, 1, 0)%nat.
Proof. vm_compute. reflexivity. Qed.

(** C8 at the bulk import: a search response cached before the import is
    still served after it, although a fresh search finds the imported store. *)
Theorem bulk_import_leaves_stale_search :
  count_results (fst (search near_test_store test_db empty_cache)) = Some 1%nat
  /\ (let '(r, db', c') :=
        import_file (csv_of [csv_row "S0002" "regular"]) test_db warm_cache in
      (created <$> (match r with Ok resp => Some resp | _ => None end)) = Some 1%nat
      /\ size c' = size warm_cache
      /\ count_results (fst (search near_test_store db' c')) = Some 1%nat
      /\ count_results (fst (search near_test_store db' empty_cache)) = Some 2%nat).
Proof.
  split; [vm_compute; reflexivity |].
  destruct (import_file _ _ _) as [[r db'] c'] eqn:Hrun.
  assert (Hr : r = fst (fst (import_file (csv_of [csv_row "S0002" "regular"]) test_db warm_cache)))
    by now rewrite Hrun.
  assert (Hdb : db' = snd (fst (import_file (csv_of [csv_row "S0002" "regular"]) test_db warm_cache)))
    by now rewrite Hrun.
  assert (Hc : c' = snd (import_file (csv_of [csv_row "S0002" "regular"]) test_db warm_cache))
    by now rewrite Hrun.
  subst r db' c'. clear Hrun.
  repeat split; vm_compute; reflexivity.
Qed.

(** The sibling endpoints empty the cache. *)
Example delete_empties_the_cache :
  snd (Stores.delete_store "S0001" test_db warm_cache) = empty_cache
  /\ size warm_cache = 1%nat.
Proof. split; [reflexivity | vm_compute; reflexivity]. Qed.

End ImportExamples.

Module SortedFacts.






End SortedFacts.

Module SearchFacts.
Import Models Schemas Payload Search.

Section WithCollaborators.
Variable E : collaborators.

Lemma cacheable_direct (r : StoreSearchRequest) (lat lon : Q) :
  cacheable r = Some (lat, lon) ->
  direct_coordinates r = Some (lat, lon) /\ open_now_requested r = false.
Proof.
  unfold cacheable. destruct (open_now_requested r); [discriminate | auto].
Qed.

Lemma resolve_direct (clk : clock) (r : StoreSearchRequest) (c : cache) (lat lon : Q) :
  direct_coordinates r = Some (lat, lon) ->
  resolve_origin E clk r c = (Ok (lat, lon, at_coordinates lat lon), c).
Proof. intros H. unfold resolve_origin. now rewrite H. Qed.


Lemma search_not_cacheable (clk : clock) (r : StoreSearchRequest) (db : StoreDb) (c : cache) :
  cacheable r = None ->
  search_stores E clk r db c = compute_response E clk r db c.
Proof.
  intros H. unfold search_stores, compute_response. rewrite H.
  destruct (resolve_origin E clk r c) as [[[[lat lon] info]|code detail] c1]; reflexivity.
Qed.


Lemma search_hit (clk : clock) (r : StoreSearchRequest) (db : StoreDb) (c : cache)
    (lat lon : Q) (v : py_value) :
  cacheable r = Some (lat, lon) ->
  fst (Cache.get c (search_cache_key E r lat lon) (utcnow clk)) = Some v ->
  search_stores E clk r db c = (Ok v, c).
Proof.
  intros Hc Hget. unfold search_stores. rewrite Hc.
  destruct (Cache.get c _ _) as [o c1] eqn:Hg. simpl in Hget. subst o.
  now rewrite (CacheFacts.get_hit_unchanged _ _ _ _ _ Hg).
Qed.

Lemma search_miss (clk : clock) (r : StoreSearchRequest) (db : StoreDb) (c : cache)
    (lat lon : Q) :
  cacheable r = Some (lat, lon) ->
  fst (Cache.get c (search_cache_key E r lat lon) (utcnow clk)) = None ->
  let resp := build_response E clk r db lat lon (at_coordinates lat lon) in
  search_stores E clk r db c
  = (Ok (SearchResponse resp),
     Cache.set (snd (Cache.get c (search_cache_key E r lat lon) (utcnow clk)))
       (search_cache_key E r lat lon) (SearchResponse resp) Cache.SEARCH_TTL (utcnow clk)).
Proof.
  intros Hc Hget. unfold search_stores. rewrite Hc.
  destruct (Cache.get c _ _) as [o c1] eqn:Hg. simpl in Hget. subst o. simpl.
  destruct (cacheable_direct r lat lon Hc) as [Hd _].
  now rewrite (resolve_direct clk r c1 lat lon Hd).
Qed.




End WithCollaborators.

End SearchFacts.

Module KeyFacts.
Import Models Schemas Payload Search Text KeySpec.
















Section WithCollaborators.
Variable E : collaborators.



End WithCollaborators.

End KeyFacts.

Module CachePolicy.
Import Models Schemas Payload Search.

Section WithCollaborators.
Variable E : collaborators.



End WithCollaborators.

End CachePolicy.

Module RadiusFacts.
Import Models Schemas Payload Search.

Section WithCollaborators.
Variable E : collaborators.




End WithCollaborators.

End RadiusFacts.

Module OriginFacts.
Import Models Schemas Payload Search.

Section WithCollaborators.
Variable E : collaborators.

(** Non-zero coordinates are the origin, whatever else the request carries. *)
Lemma coordinates_take_precedence (clk : clock) (r : StoreSearchRequest) (c : cache)
    (lat lon : Q) :
  req_latitude r = Some lat -> req_longitude r = Some lon ->
  ~ (lat == 0)%Q -> ~ (lon == 0)%Q ->
  resolve_origin E clk r c = (Ok (lat, lon, at_coordinates lat lon), c).
Proof.
  intros Hlat Hlon Hla Hlo. apply SearchFacts.resolve_direct.
  unfold direct_coordinates, Py.truthy_float. rewrite Hlat, Hlon.
  destruct (Qeq_bool lat 0) eqn:H1; [apply Qeq_bool_iff in H1; contradiction |].
  destruct (Qeq_bool lon 0) eqn:H2; [apply Qeq_bool_iff in H2; contradiction |].
  reflexivity.
Qed.

(** A lone coordinate does not pass validation. *)
Lemma lone_coordinate_rejected (r : StoreSearchRequest) :
  (is_Some (req_latitude r) /\ req_longitude r = None)
  \/ (req_latitude r = None /\ is_Some (req_longitude r)) ->
  exists detail, validate r = HTTPError 422 detail.
Proof.
  intros H. unfold validate.
  destruct (negb (field_constraints r)); [eauto |].
  unfold validate_lat_lon_pair.
  destruct H as [[[x Hx] Hy] | [Hx [y Hy]]]; rewrite Hx, Hy; simpl; eauto.
Qed.

(** A request without any of the three origins does not pass validation. *)
Lemma no_origin_rejected (r : StoreSearchRequest) :
  address r = None -> postal_code r = None ->
  req_latitude r = None -> req_longitude r = None ->
  exists detail, validate r = HTTPError 422 detail.
Proof.
  intros Ha Hp Hlat Hlon. unfold validate.
  destruct (negb (field_constraints r)); [eauto |].
  unfold validate_lat_lon_pair. rewrite Ha, Hp, Hlat, Hlon. simpl. eauto.
Qed.

End WithCollaborators.

End OriginFacts.

Module SearchExamples.
Import Models Schemas Payload Search Scenario.

(** C1 at a zero coordinate: latitude 0.0 and longitude 0.0 are in range, yet
    the pair is not taken as the origin. Alone it is rejected, by the
    validator (zero latitude) or by the endpoint (zero longitude); next to a
    postal code it is passed over for the geocoded postal code. *)
Theorem zero_coordinate_is_not_an_origin :
  validate (by_coordinates 0%Q (-74.0060)%Q 10%Q)
  = HTTPError 422 "At least one of address, postal_code, or latitude/longitude must be provided"
  /\ fst (post_search stand_ins monday_noon (by_coordinates 40.7128%Q 0%Q 10%Q)
            test_db empty_cache)
     = HTTPError 400
         "Must provide either address, postal_code, or coordinates (latitude & longitude)"
  /\ location_of
       (fst (post_search stand_ins monday_noon
               (with_postal_code "10001" (by_coordinates 0%Q (-74.0060)%Q 10%Q))
               test_db empty_cache))
     = Some (at_postal_code "10001" 40.7128%Q (-74.0060)%Q "New York, NY 10001, USA").
Proof. repeat split; vm_compute; reflexivity. Qed.

Example coordinates_beat_postal_code :
  location_of
    (fst (post_search stand_ins monday_noon
            (with_postal_code "10001" (by_coordinates 35.6762%Q 139.6503%Q 1%Q))
            test_db empty_cache))
  = Some (at_coordinates 35.6762%Q 139.6503%Q).
Proof. vm_compute. reflexivity. Qed.

Example search_finds_the_test_store :
  count_results (fst (search near_test_store test_db empty_cache)) = Some 1%nat
  /\ count_results (fst (search (by_coordinates 35.6762%Q 139.6503%Q 1%Q) test_db empty_cache))
     = Some 0%nat.
Proof. split; vm_compute; reflexivity. Qed.

Example services_filter_needs_every_service :
  count_results (fst (search (with_filters ["pickup"; "pharmacy"] [] near_test_store)
                        test_db empty_cache)) = Some 1%nat
  /\ count_results (fst (search (with_filters ["pickup"; "optical"] [] near_test_store)
                           test_db empty_cache)) = Some 0%nat
  /\ count_results (fst (search (with_filters [] [flagship; outlet] near_test_store)
                           test_db empty_cache)) = Some 0%nat
  /\ count_results (fst (search (with_filters [] [outlet; regular] near_test_store)
                           test_db empty_cache)) = Some 1%nat.
Proof. repeat split; vm_compute; reflexivity. Qed.

Example cache_keys :
  search_cache_key stand_ins (with_filters ["pickup"; "pharmacy"] [regular; flagship]
                                near_test_store) 40.71284%Q (-74.0060)%Q
  = "search:40.7128:-74.0060:10/1:pharmacy,pickup:flagship,regular"
  /\ format_4f 40.71285%Q = "40.7128" /\ format_4f 40.71286%Q = "40.7129"
  /\ format_4f (-0.00001)%Q = "-0.0000" /\ format_4f 7.5%Q = "7.5000".
Proof. repeat split; vm_compute; reflexivity. Qed.



End SearchExamples.

Module CacheExamples.
Import Models Schemas Payload Search Scenario.


Example open_now_is_computed :
  count_results (fst (search (with_open_now near_test_store) mixed_db warm_cache))
  = Some 1%nat
  /\ size (snd (search (with_open_now near_test_store) mixed_db warm_cache)) = 1%nat
  /\ size (snd (search (with_open_now near_test_store) mixed_db empty_cache)) = 0%nat.
Proof. repeat split; vm_compute; reflexivity. Qed.

Example expired_entry_is_recomputed :
  count_results
    (fst (search_stores stand_ins
            {| utcnow := 300 * 1000000 + 1; localnow := monday_at 12 5 0 |}
            near_test_store empty_db warm_cache)) = Some 0%nat
  /\ count_results
       (fst (search_stores stand_ins five_minutes_later near_test_store empty_db warm_cache))
     = Some 1%nat.
Proof. split; vm_compute; reflexivity. Qed.

End CacheExamples.

(* ===================================================================== *)
(** * Further properties of the cache and the geocoder *)
(* ===================================================================== *)

Module CacheLaws.

Section Laws.
Context {V : Type}.
Implicit Types c : gmap string (Cache.entry V).

(** X1: a value stored with [set] is read back by [get] up to and including
    the instant of its expiry, leaving the cache as it is; read after that
    instant it is absent and its entry is removed; other keys read as before,
    and a later [set] on the key replaces the entry. *)
Theorem set_then_get c (key : string) (v : V) (ttl t0 t : Z) :
  let c1 := Cache.set c key v ttl t0 in
  (t <= t0 + Cache.timedelta_seconds ttl -> Cache.get c1 key t = (Some v, c1))
  /\ (t0 + Cache.timedelta_seconds ttl < t ->
      Cache.get c1 key t = (None, Cache.delete c key))
  /\ (forall other, other <> key -> fst (Cache.get c1 other t) = fst (Cache.get c other t))
  /\ (forall v2 ttl2 t2, Cache.set c1 key v2 ttl2 t2 = Cache.set c key v2 ttl2 t2).
Proof.
  intros c1. unfold c1, Cache.get, Cache.set, Cache.delete.
  split; [| split; [| split]].
  - intros Hle. rewrite lookup_insert_eq. simpl.
    destruct (Z.ltb_spec (t0 + Cache.timedelta_seconds ttl) t); [lia | reflexivity].
  - intros Hlt. rewrite lookup_insert_eq. simpl.
    destruct (Z.ltb_spec (t0 + Cache.timedelta_seconds ttl) t); [| lia].
    now rewrite delete_insert_eq.
  - intros other Hne. rewrite lookup_insert_ne by congruence.
    destruct (c !! other) as [e|]; [| reflexivity].
    now destruct (Cache.expires_at e <? t).
  - intros v2 ttl2 t2. apply insert_insert_eq.
Qed.

Lemma expired_le_total c (t : Z) :
  (CacheStats.expired_entries (CacheStats.get_stats c t)
   <= CacheStats.total_entries (CacheStats.get_stats c t))%nat.
Proof. simpl. apply map_subseteq_size, map_filter_subseteq. Qed.

(** X2: in the statistics the total is the sum of the active and the expired
    entries. Reading a key whose entry has expired removes one entry from the
    total and from the expired count and leaves the active count; reading any
    other key leaves the statistics as they are. *)
Theorem stats_after_get c (key : string) (t : Z) :
  let before := CacheStats.get_stats c t in
  let after := CacheStats.get_stats (snd (Cache.get c key t)) t in
  CacheStats.total_entries before
  = (CacheStats.active_entries before + CacheStats.expired_entries before)%nat
  /\ (forall e, c !! key = Some e -> Cache.expires_at e < t ->
        fst (Cache.get c key t) = None
        /\ S (CacheStats.total_entries after) = CacheStats.total_entries before
        /\ S (CacheStats.expired_entries after) = CacheStats.expired_entries before
        /\ CacheStats.active_entries after = CacheStats.active_entries before)
  /\ ((forall e, c !! key = Some e -> t <= Cache.expires_at e) -> after = before).
Proof.
  intros before after. split; [| split].
  - pose proof (expired_le_total c t). unfold before. simpl in *. lia.
  - intros e He Hexp. unfold after, before, Cache.get. rewrite He.
    destruct (Z.ltb_spec (Cache.expires_at e) t); [| lia]. simpl.
    rewrite map_filter_delete.
    pose proof (expired_le_total c t) as Hle. simpl in Hle.
    set (ex := filter _ c) in *.
    assert (Hin : ex !! key = Some e) by (apply map_lookup_filter_Some; auto).
    rewrite !map_size_delete_Some by eauto.
    assert (Hpos : size ex <> 0%nat).
    { apply map_size_non_empty_iff. intros Hempty.
      rewrite Hempty, lookup_empty in Hin. discriminate. }
    repeat split; lia.
  - intros Hlive. unfold after, before, Cache.get.
    destruct (c !! key) as [e|] eqn:He; [| reflexivity].
    specialize (Hlive e eq_refl).
    destruct (Z.ltb_spec (Cache.expires_at e) t); [lia | reflexivity].
Qed.

End Laws.

End CacheLaws.

Module GeocodingLaws.
Import Payload Geocoding.

(** X3: for addresses written in ASCII characters: once an address has been
    resolved, every call within thirty days for an address with the same
    lower-case form returns the stored coordinates and leaves the cache as it
    is, whatever the provider would answer by then. *)
Theorem geocode_address_hit (g g' : string -> option (Q * Q * string)) (c : cache)
    (t0 t : Z) (a a' : string) (lat lon : Q) (addr : string) :
  Text.all_chars Text.is_ascii a = true ->
  Text.all_chars Text.is_ascii a' = true ->
  fst (Cache.get c (geocode_key a) t0) = None ->
  g a = Some (lat, lon, addr) ->
  Py.lower a' = Py.lower a ->
  t <= t0 + Cache.timedelta_seconds Cache.GEOCODING_TTL ->
  let found := GeoResult {| geo_latitude := lat; geo_longitude := lon;
                            formatted_address := addr |} in
  let c1 := snd (geocode_address g c t0 a) in
  fst (geocode_address g c t0 a) = Some found
  /\ geocode_address g' c1 t a' = (Some found, c1).
Proof.
  intros _ _ Hmiss Hg Hcase Httl found c1.
  assert (Hrun : geocode_address g c t0 a
                 = (Some found,
                    Cache.set (snd (Cache.get c (geocode_key a) t0)) (geocode_key a)
                      found Cache.GEOCODING_TTL t0)).
  { unfold geocode_address.
    destruct (Cache.get c (geocode_key a) t0) as [o c0]. simpl in Hmiss. subst o.
    now rewrite Hg. }
  split; [now rewrite Hrun |].
  unfold c1. rewrite Hrun. simpl.
  unfold geocode_address at 1.
  replace (geocode_key a') with (geocode_key a) by (unfold geocode_key; now rewrite Hcase).
  now rewrite CacheFacts.get_after_set.
Qed.

(** X4: a failed resolution stores nothing: when the provider has no answer
    and no live entry exists, the call returns nothing and leaves no entry
    under the key, so that the next call asks the provider again and returns
    its answer. *)
Theorem geocode_failure_not_cached (g g' : string -> option (Q * Q * string)) (c : cache)
    (t t' : Z) (a : string) (lat lon : Q) (addr : string) :
  fst (Cache.get c (geocode_key a) t) = None ->
  g a = None ->
  g' a = Some (lat, lon, addr) ->
  let c1 := snd (geocode_address g c t a) in
  fst (geocode_address g c t a) = None
  /\ c1 !! geocode_key a = None
  /\ fst (geocode_address g' c1 t' a)
     = Some (GeoResult {| geo_latitude := lat; geo_longitude := lon;
                          formatted_address := addr |}).
Proof.
  intros Hmiss Hg Hg' c1.
  assert (Hrun : geocode_address g c t a = (None, snd (Cache.get c (geocode_key a) t))).
  { unfold geocode_address.
    destruct (Cache.get c (geocode_key a) t) as [o c0]. simpl in Hmiss. subst o.
    now rewrite Hg. }
  assert (Habsent : c1 !! geocode_key a = None).
  { unfold c1. rewrite Hrun. simpl.
    destruct (Cache.get c (geocode_key a) t) as [o c0] eqn:Hget. simpl in *. subst o.
    now apply (CacheFacts.get_miss_absent c c0 (geocode_key a) t). }
  split; [now rewrite Hrun | split; [exact Habsent |]].
  unfold geocode_address, Cache.get. rewrite Habsent, Hg'. reflexivity.
Qed.

End GeocodingLaws.

Module GeocodingExamples.
Import Payload Geocoding Scenario.

Lemma set_then_get_witness :
  Cache.get (Cache.set (∅ : gmap string (Cache.entry Z)) "k" 7 300 0) "k" 300000000
  = (Some 7, Cache.set (∅ : gmap string (Cache.entry Z)) "k" 7 300 0)
  /\ Cache.get (Cache.set (∅ : gmap string (Cache.entry Z)) "k" 7 300 0) "k" 300000001
     = (None, Cache.delete (∅ : gmap string (Cache.entry Z)) "k").
Proof.
  destruct (CacheLaws.set_then_get (∅ : gmap string (Cache.entry Z)) "k" 7 300 0 300000000)
    as (Hlive & _).
  destruct (CacheLaws.set_then_get (∅ : gmap string (Cache.entry Z)) "k" 7 300 0 300000001)
    as (_ & Hdead & _).
  split; [apply Hlive | apply Hdead]; vm_compute; congruence.
Defined.

Lemma stats_after_get_witness :
  S (CacheStats.total_entries
       (CacheStats.get_stats
          (snd (Cache.get (Cache.set (∅ : gmap string (Cache.entry Z)) "k" 7 300 0)
                  "k" 300000001)) 300000001))
  = CacheStats.total_entries
      (CacheStats.get_stats (Cache.set (∅ : gmap string (Cache.entry Z)) "k" 7 300 0)
         300000001).
Proof.
  destruct (CacheLaws.stats_after_get
              (Cache.set (∅ : gmap string (Cache.entry Z)) "k" 7 300 0) "k" 300000001)
    as (_ & Hexpired & _).
  destruct (Hexpired {| Cache.value := 7; Cache.expires_at := 300000000;
                        Cache.created_at := 0 |}) as (_ & Htotal & _).
  - reflexivity.
  - simpl. lia.
  - exact Htotal.
Defined.

Lemma geocode_address_hit_witness :
  geocode_address (fun _ => None)
    (snd (geocode_address one_postal_code empty_cache 0 "10001, USA")) 1000000 "10001, usa"
  = (Some (GeoResult {| geo_latitude := 40.7128%Q; geo_longitude := (-74.0060)%Q;
                        formatted_address := "New York, NY 10001, USA" |}),
     snd (geocode_address one_postal_code empty_cache 0 "10001, USA")).
Proof.
  eapply proj2.
  apply (GeocodingLaws.geocode_address_hit one_postal_code (fun _ => None) empty_cache
           0 1000000 "10001, USA" "10001, usa").
  - reflexivity.
  - reflexivity.
  - reflexivity.
  - reflexivity.
  - reflexivity.
  - vm_compute. discriminate.
Defined.

Lemma geocode_failure_not_cached_witness :
  fst (geocode_address one_postal_code
         (snd (geocode_address (fun _ => None) empty_cache 0 "10001, USA")) 1 "10001, USA")
  = Some (GeoResult {| geo_latitude := 40.7128%Q; geo_longitude := (-74.0060)%Q;
                       formatted_address := "New York, NY 10001, USA" |}).
Proof.
  eapply proj2. eapply proj2.
  apply (GeocodingLaws.geocode_failure_not_cached (fun _ => None) one_postal_code
           empty_cache 0 1 "10001, USA"); reflexivity.
Defined.

End GeocodingExamples.

(* ===================================================================== *)
(** * Further properties of the geometry helpers *)
(* ===================================================================== *)

Module DistanceLaws.
Import Distance.

Section Box.
Local Open Scope R_scope.

(** X5: between the poles and for a radius that is not negative, the box is
    centred on the origin, contains it, is at least as wide in longitude as in
    latitude, and grows with the radius. *)
Theorem bounding_box_geometry (latitude longitude radius_miles wider : R) :
  -90 < latitude < 90 -> 0 <= radius_miles <= wider ->
  exists b b',
    calculate_bounding_box latitude longitude radius_miles = Some b
    /\ calculate_bounding_box latitude longitude wider = Some b'
    /\ min_lat b <= latitude <= max_lat b
    /\ min_lon b <= longitude <= max_lon b
    /\ max_lat b - latitude = latitude - min_lat b
    /\ max_lon b - longitude = longitude - min_lon b
    /\ max_lat b - min_lat b <= max_lon b - min_lon b
    /\ (min_lat b' <= min_lat b /\ max_lat b <= max_lat b'
        /\ min_lon b' <= min_lon b /\ max_lon b <= max_lon b').
Proof.
  intros Hlat [Hr Hw].
  pose proof (DistanceFacts.cos_radians_pos latitude Hlat) as Hpos.
  pose proof (COS_bound (radians latitude)) as [_ Hone].
  set (k := cos (radians latitude)) in *.
  unfold calculate_bounding_box. rewrite (DistanceFacts.cos_radians_inside latitude Hlat).
  fold k.
  rewrite !DistanceFacts.bounding_box_with_nonzero by lra.
  eexists. eexists. split; [reflexivity |]. split; [reflexivity |]. simpl.
  assert (Hinv : 1 <= / k).
  { rewrite <- Rinv_1. apply Rinv_le_contravar; lra. }
  assert (Hd : radius_miles / (69 * k) = radius_miles / 69 * / k) by (field; lra).
  assert (Hd' : wider / (69 * k) = wider / 69 * / k) by (field; lra).
  rewrite Hd, Hd'.
  assert (H0 : 0 <= radius_miles / 69) by lra.
  assert (H1 : radius_miles / 69 <= wider / 69) by lra.
  assert (H2 : radius_miles / 69 <= radius_miles / 69 * / k) by nra.
  assert (H3 : radius_miles / 69 * / k <= wider / 69 * / k) by nra.
  repeat split; lra.
Qed.

End Box.

Section Overnight.
Variable py_int : string -> option Z.

(** X6: hours whose closing time lies before the opening time, such as a
    window that runs past midnight, are never open: the function answers
    false at every time of the day. *)
Theorem closing_before_opening_is_never_open (hours : gmap string string)
    (now : local_now) (open_time close_time : time) :
  parse_hours py_int (today_hours hours now) = Some (open_time, close_time) ->
  since_midnight close_time < since_midnight open_time ->
  valid_time (now_time now) ->
  is_store_open_now py_int hours now = false.
Proof.
  intros Hparse Hlt Hnow. unfold is_store_open_now.
  destruct (String.eqb (today_hours hours now) "closed"); [reflexivity |].
  rewrite Hparse.
  destruct (OpenNowFacts.parse_hours_valid py_int _ _ _ Hparse) as (Ho & Hc & _).
  apply not_true_is_false. intros Hopen.
  apply andb_true_iff in Hopen as [H1 H2].
  apply OpenNowFacts.time_leb_since_midnight in H1, H2; try assumption. lia.
Qed.

End Overnight.

End DistanceLaws.

Module DistanceExamples.
Import Distance Scenario.

Lemma bounding_box_geometry_witness :
  exists b b',
    calculate_bounding_box 0 10 69 = Some b
    /\ calculate_bounding_box 0 10 138 = Some b'
    /\ (min_lat b <= 0 <= max_lat b)%R
    /\ (min_lon b <= 10 <= max_lon b)%R
    /\ (max_lat b - 0 = 0 - min_lat b)%R
    /\ (max_lon b - 10 = 10 - min_lon b)%R
    /\ (max_lat b - min_lat b <= max_lon b - min_lon b)%R
    /\ (min_lat b' <= min_lat b /\ max_lat b <= max_lat b'
        /\ min_lon b' <= min_lon b /\ max_lon b <= max_lon b')%R.
Proof.
  apply (DistanceLaws.bounding_box_geometry 0 10 69 138); lra.
Defined.

Lemma closing_before_opening_is_never_open_witness :
  is_store_open_now Py.int_ascii (hours_with_monday "22:00-02:00") (monday_at 23 0 0) = false.
Proof.
  apply (DistanceLaws.closing_before_opening_is_never_open Py.int_ascii
           (hours_with_monday "22:00-02:00") (monday_at 23 0 0)
           (at_time 22 0 0) (at_time 2 0 0)).
  - reflexivity.
  - unfold since_midnight. simpl. lia.
  - unfold valid_time. simpl. lia.
Defined.

End DistanceExamples.

(* ===================================================================== *)
(** * Further properties of the search *)
(* ===================================================================== *)

Module SearchLaws.
Import Models Schemas Payload Search.

Section WithCollaborators.
Variable E : collaborators.

Lemma Qbetween_iff (lo hi x : Q) : Qbetween lo hi x = true <-> (lo <= x /\ x <= hi)%Q.
Proof. unfold Qbetween. now rewrite andb_true_iff, !Qle_bool_iff. Qed.

Lemma in_types_iff (types : list StoreType) (s : Store) :
  in_types types s = true <-> exists t, In t types /\ store_type s = StoreType_value t.
Proof.
  unfold in_types. rewrite existsb_exists. split.
  - intros (x & Hin & Heq). apply in_map_iff in Hin as (t & <- & Ht).
    apply String.eqb_eq in Heq. eauto.
  - intros (t & Ht & Heq). exists (StoreType_value t). split.
    + now apply in_map.
    + now apply String.eqb_eq.
Qed.

Lemma query_stores_iff (r : StoreSearchRequest) (db : StoreDb) (lat lon : Q) (s : Store) :
  In s (query_stores E r db lat lon) <->
  In s (stores db) /\ status s = active
  /\ Qbetween (min_lat (calculate_bounding_box E lat lon (radius_miles r)))
              (max_lat (calculate_bounding_box E lat lon (radius_miles r))) (latitude s) = true
  /\ Qbetween (min_lon (calculate_bounding_box E lat lon (radius_miles r)))
              (max_lon (calculate_bounding_box E lat lon (radius_miles r))) (longitude s) = true
  /\ (forall t ts, store_types r = Some (t :: ts) -> in_types (t :: ts) s = true).
Proof.
  unfold query_stores.
  set (box := calculate_bounding_box E lat lon (radius_miles r)).
  assert (Hst : StoreStatus_eqb (status s) active = true <-> status s = active)
    by (destruct (status s); simpl; split; congruence).
  destruct (store_types r) as [[|t ts]|]; rewrite ?filter_In, ?filter_In, !andb_true_iff, Hst.
  - split; [intros (H1 & (H2 & H3) & H4) | intros (H1 & H2 & H3 & H4 & _)];
      repeat split; auto; discriminate.
  - split.
    + intros ((H1 & (H2 & H3) & H4) & H5). repeat split; auto.
      now intros t' ts' [= <- <-].
    + intros (H1 & H2 & H3 & H4 & H5). repeat split; auto.
  - split; [intros (H1 & (H2 & H3) & H4) | intros (H1 & H2 & H3 & H4 & _)];
      repeat split; auto; discriminate.
Qed.

Lemma result_for_iff (clk : clock) (r : StoreSearchRequest) (db : StoreDb)
    (lat lon : Q) (s : Store) (item : result_item) :
  result_for E clk r db lat lon s = Some item <->
  (calculate_distance E lat lon (latitude s) (longitude s) <= radius_miles r)%Q
  /\ (forall w ws, services r = Some (w :: ws) ->
        forall x, In x (w :: ws) -> In x (services_of db (store_id s)))
  /\ (open_now r = Some true ->
      Distance.is_store_open_now (py_int E) (hours_dict s) (localnow clk) = true)
  /\ item = {| item_store := s;
               item_services := services_of db (store_id s);
               distance_miles :=
                 round2 (calculate_distance E lat lon (latitude s) (longitude s));
               is_open_now :=
                 Distance.is_store_open_now (py_int E) (hours_dict s) (localnow clk) |}.
Proof.
  unfold result_for.
  set (d := calculate_distance E lat lon (latitude s) (longitude s)).
  set (op := Distance.is_store_open_now (py_int E) (hours_dict s) (localnow clk)).
  rewrite <- Qle_bool_iff.
  destruct (Qle_bool d (radius_miles r)); simpl;
    [| split; [discriminate | intros (H & _); discriminate]].
  assert (Hsvc : forall wanted,
             forallb (fun w => existsb (String.eqb w) (services_of db (store_id s))) wanted = true
             <-> forall x, In x wanted -> In x (services_of db (store_id s))).
  { intros wanted. rewrite forallb_forall. split; intros H x Hx.
    - apply H in Hx. apply existsb_exists in Hx as (y & Hy & Heq).
      apply String.eqb_eq in Heq. now subst.
    - apply existsb_exists. exists x. split; [now apply H | apply String.eqb_refl]. }
  assert (Hop : open_now_requested r = true <-> open_now r = Some true).
  { unfold open_now_requested. destruct (open_now r) as [[|]|]; simpl; split; congruence. }
  destruct (services r) as [[|w ws]|] eqn:Hs.
  - destruct (open_now_requested r && negb op) eqn:Hf.
    + split; [discriminate |]. intros (_ & _ & Ho & _).
      apply andb_true_iff in Hf as [H1 H2]. apply Hop in H1. rewrite (Ho H1) in H2.
      discriminate.
    + split.
      * intros [= <-]. repeat split; try discriminate.
        intros Ho. apply Hop in Ho. rewrite Ho in Hf. now destruct op.
      * now intros (_ & _ & _ & ->).
  - destruct (forallb _ (w :: ws)) eqn:Hall; cbn [negb].
    + destruct (open_now_requested r && negb op) eqn:Hf.
      * split; [discriminate |]. intros (_ & _ & Ho & _).
        apply andb_true_iff in Hf as [H1 H2]. apply Hop in H1. rewrite (Ho H1) in H2.
        discriminate.
      * split.
        -- intros [= <-]. repeat split.
           ++ intros w' ws' [= <- <-]. exact (proj1 (Hsvc (w :: ws)) Hall).
           ++ intros Ho. apply Hop in Ho. rewrite Ho in Hf. now destruct op.
        -- now intros (_ & _ & _ & ->).
    + split; [discriminate |]. intros (_ & Hw & _).
      specialize (Hw w ws eq_refl). apply (proj2 (Hsvc (w :: ws))) in Hw. congruence.
  - destruct (open_now_requested r && negb op) eqn:Hf.
    + split; [discriminate |]. intros (_ & _ & Ho & _).
      apply andb_true_iff in Hf as [H1 H2]. apply Hop in H1. rewrite (Ho H1) in H2.
      discriminate.
    + split.
      * intros [= <-]. repeat split; try discriminate.
        intros Ho. apply Hop in Ho. rewrite Ho in Hf. now destruct op.
      * now intros (_ & _ & _ & ->).
Qed.

End WithCollaborators.

End SearchLaws.

Module RoundingLaws.
Import Search.
Import Lqa.
Local Open Scope Q_scope.

Lemma round_half_even_range (x : Q) :
  (Qfloor x <= round_half_even x <= Qfloor x + 1)%Z.
Proof.
  unfold round_half_even.
  destruct (Qcompare _ _); [destruct (Z.even _) | |]; lia.
Qed.

Lemma round_half_even_near (x : Q) :
  x - (1 # 2) <= inject_Z (round_half_even x) /\ inject_Z (round_half_even x) <= x + (1 # 2).
Proof.
  pose proof (Qfloor_le x) as Hlo. pose proof (Qlt_floor x) as Hhi.
  rewrite inject_Z_plus in Hhi. change (inject_Z 1) with 1 in Hhi.
  unfold round_half_even.
  destruct (Qcompare_spec (x - inject_Z (Qfloor x)) (1 # 2)) as [Heq | Hlt | Hgt].
  - destruct (Z.even (Qfloor x)); rewrite ?inject_Z_plus; change (inject_Z 1) with 1;
      set (q := inject_Z (Qfloor x)) in *; clearbody q; split; lra.
  - set (q := inject_Z (Qfloor x)) in *. clearbody q. split; lra.
  - rewrite inject_Z_plus. change (inject_Z 1) with 1.
    set (q := inject_Z (Qfloor x)) in *. clearbody q. split; lra.
Qed.

Lemma round_half_even_monotone (x y : Q) :
  x <= y -> (round_half_even x <= round_half_even y)%Z.
Proof.
  intros Hxy.
  pose proof (Qfloor_resp_le x y Hxy) as Hfloor.
  destruct (Z.eq_dec (Qfloor x) (Qfloor y)) as [Heq | Hne].
  - unfold round_half_even. rewrite <- Heq.
    destruct (Qcompare_spec (x - inject_Z (Qfloor x)) (1 # 2)) as [Hx | Hx | Hx];
      destruct (Qcompare_spec (y - inject_Z (Qfloor x)) (1 # 2)) as [Hy | Hy | Hy];
      try destruct (Z.even (Qfloor x)); try lia; exfalso;
      set (q := inject_Z (Qfloor x)) in *; clearbody q; lra.
  - pose proof (round_half_even_range x). pose proof (round_half_even_range y). lia.
Qed.

(** X9: the distance written into a result, rounded to two decimals, differs
    from the exact distance by at most 0.005, and rounding never reverses the
    order of two distances. *)
Theorem round2_near_and_monotone (x y : Q) :
  (x - (1 # 200) <= round2 x /\ round2 x <= x + (1 # 200))
  /\ (x <= y -> round2 x <= round2 y).
Proof.
  split.
  - destruct (round_half_even_near (x * 100)) as [Hlo Hhi].
    assert (Hr : round2 x == inject_Z (round_half_even (x * 100)) * (1 # 100)).
    { unfold round2. rewrite Qmake_Qdiv. reflexivity. }
    rewrite Hr.
    set (n := inject_Z (round_half_even (x * 100))) in *. clearbody n.
    split; lra.
  - intros Hxy. unfold round2, Qle. simpl.
    assert (H : (round_half_even (x * 100) <= round_half_even (y * 100))%Z)
      by (apply round_half_even_monotone; lra).
    lia.
Qed.

Lemma round2_near_and_monotone_witness :
  round2 (99949 # 10000) <= round2 (100051 # 10000).
Proof.
  apply (proj2 (round2_near_and_monotone (99949 # 10000) (100051 # 10000))).
  unfold Qle. simpl. lia.
Defined.

End RoundingLaws.

Module ResultLaws.
Import Models Schemas Payload Search ResultOrder.

Lemma insert_item_permutation (x : result_item) (l : list result_item) :
  Permutation (insert_item x l) (x :: l).
Proof.
  induction l as [|y l IH]; simpl; [reflexivity |].
  destruct (Qle_bool _ _); [reflexivity |].
  rewrite IH. apply perm_swap.
Qed.

Lemma sort_by_distance_permutation (l : list result_item) :
  Permutation (sort_by_distance l) l.
Proof.
  unfold sort_by_distance. induction l as [|x l IH]; simpl; [reflexivity |].
  rewrite insert_item_permutation. now rewrite IH.
Qed.

Lemma insert_item_sorted (x : result_item) (l : list result_item) :
  StronglySorted nearer l -> StronglySorted nearer (insert_item x l).
Proof.
  induction l as [|y l IH]; intros Hs; simpl.
  - repeat constructor.
  - apply StronglySorted_inv in Hs as [Hl Hy].
    destruct (Qle_bool (distance_miles x) (distance_miles y)) eqn:Hxy.
    + apply Qle_bool_iff in Hxy. constructor; [constructor; assumption |].
      constructor; [exact Hxy |].
      eapply List.Forall_impl; [| exact Hy]. intros z Hz. unfold nearer in *.
      now apply Qle_trans with (distance_miles y).
    + constructor; [now apply IH |].
      apply List.Forall_forall. intros z Hz.
      apply SortFacts.insert_item_In in Hz as [-> | Hz].
      * unfold nearer. apply Qlt_le_weak, Qnot_le_lt. intros Hle.
        apply Qle_bool_iff in Hle. congruence.
      * rewrite List.Forall_forall in Hy. now apply Hy.
Qed.

Lemma sort_by_distance_sorted (l : list result_item) :
  StronglySorted nearer (sort_by_distance l).
Proof.
  unfold sort_by_distance. induction l as [|x l IH]; simpl; [constructor |].
  now apply insert_item_sorted.
Qed.

Section WithCollaborators.
Variable E : collaborators.

(** X7: over a table whose rows all carry a store type of the enum (so that
    the query can load them), a store is in a computed response exactly when
    it is an active row of the table inside the bounding box, of one of the
    requested store types when types are requested, within the radius by the
    distance the code computes, carrying every requested service, and open
    when [open_now] is requested. *)
Theorem results_are_the_matching_stores (clk : clock) (r : StoreSearchRequest)
    (db : StoreDb) (lat lon : Q) (info : search_location) (s : Store) :
  Loading.loadable db ->
  (exists item, In item (results (build_response E clk r db lat lon info))
                /\ item_store item = s)
  <-> In s (stores db) /\ status s = active
      /\ (min_lat (calculate_bounding_box E lat lon (radius_miles r)) <= latitude s
          /\ latitude s <= max_lat (calculate_bounding_box E lat lon (radius_miles r)))%Q
      /\ (min_lon (calculate_bounding_box E lat lon (radius_miles r)) <= longitude s
          /\ longitude s <= max_lon (calculate_bounding_box E lat lon (radius_miles r)))%Q
      /\ (forall t ts, store_types r = Some (t :: ts) ->
            exists t', In t' (t :: ts) /\ store_type s = StoreType_value t')
      /\ (calculate_distance E lat lon (latitude s) (longitude s) <= radius_miles r)%Q
      /\ (forall w ws, services r = Some (w :: ws) ->
            forall x, In x (w :: ws) -> In x (services_of db (store_id s)))
      /\ (open_now r = Some true ->
          Distance.is_store_open_now (py_int E) (hours_dict s) (localnow clk) = true).
Proof.
  intros _. split.
  - intros (item & Hitem & <-).
    apply (ListingFacts.response_items E) in Hitem as (s & Hq & Hres).
    apply (SearchLaws.result_for_iff E) in Hres as (Hd & Hsvc & Hop & ->). simpl.
    apply (SearchLaws.query_stores_iff E) in Hq as (Hin & Hst & Hla & Hlo & Hty).
    apply SearchLaws.Qbetween_iff in Hla, Hlo.
    repeat split; try tauto.
    intros t ts Ht. exact (proj1 (SearchLaws.in_types_iff (t :: ts) s) (Hty t ts Ht)).
  - intros (Hin & Hst & Hla & Hlo & Hty & Hd & Hsvc & Hop).
    exists {| item_store := s;
              item_services := services_of db (store_id s);
              distance_miles :=
                round2 (calculate_distance E lat lon (latitude s) (longitude s));
              is_open_now :=
                Distance.is_store_open_now (py_int E) (hours_dict s) (localnow clk) |}.
    split; [| reflexivity].
    unfold build_response. simpl.
    apply SortFacts.sort_by_distance_In, SortFacts.omap_In. exists s. split.
    + apply (SearchLaws.query_stores_iff E). repeat split; try assumption.
      * now apply SearchLaws.Qbetween_iff.
      * now apply SearchLaws.Qbetween_iff.
      * intros t ts Ht. exact (proj2 (SearchLaws.in_types_iff (t :: ts) s) (Hty t ts Ht)).
    + apply (SearchLaws.result_for_iff E). repeat split; assumption.
Qed.

(** X8: the results of a computed response are in ascending order of the
    reported distance, [total_results] is their number, there are no more of
    them than rows in the table, and each result carries the services of its
    store, the rounded exact distance from the origin and the open flag of its
    opening hours at the time of the request. *)
Theorem results_sorted_and_faithful (clk : clock) (r : StoreSearchRequest)
    (db : StoreDb) (lat lon : Q) (info : search_location) :
  let resp := build_response E clk r db lat lon info in
  StronglySorted nearer (results resp)
  /\ total_results resp = length (results resp)
  /\ (length (results resp) <= length (stores db))%nat
  /\ Forall (fun item =>
       item_services item = services_of db (store_id (item_store item))
       /\ distance_miles item
          = round2 (calculate_distance E lat lon (latitude (item_store item))
                      (longitude (item_store item)))
       /\ is_open_now item
          = Distance.is_store_open_now (py_int E) (hours_dict (item_store item))
              (localnow clk))
     (results resp).
Proof.
  intros resp. unfold resp, build_response. simpl.
  split; [apply sort_by_distance_sorted | split; [reflexivity | split]].
  - rewrite (Permutation_length (sort_by_distance_permutation _)).
    assert (Ho : forall (f : Store -> option result_item) (l : list Store),
               (length (omap f l) <= length l)%nat).
    { intros f l. induction l as [|x l IH]; csimpl; [lia |].
      destruct (f x); csimpl; lia. }
    etransitivity; [apply Ho |].
    unfold query_stores.
    assert (Hf : forall (p : Store -> bool) (l : list Store),
               (length (List.filter p l) <= length l)%nat).
    { intros p l. induction l as [|x l IH]; simpl; [lia |]. destruct (p x); simpl; lia. }
    destruct (store_types r) as [[|t ts]|]; try apply Hf.
    etransitivity; apply Hf.
  - apply List.Forall_forall. intros item Hitem.
    apply SortFacts.sort_by_distance_In, SortFacts.omap_In in Hitem as (s & _ & Hres).
    apply (SearchLaws.result_for_iff E) in Hres as (_ & _ & _ & ->). simpl. auto.
Qed.

End WithCollaborators.

End ResultLaws.

Module SearchCacheLaws.
Import Models Schemas Payload Search.

Lemma NoDup_map_In_eq {A B} (f : A -> B) (l : list A) (x y : A) :
  List.NoDup (map f l) -> In x l -> In y l -> f x = f y -> x = y.
Proof.
  induction l as [|a l IH]; simpl; [tauto |].
  intros Hnd Hx Hy Hf. apply NoDup_cons_iff in Hnd as [Hnotin Hnd].
  destruct Hx as [-> | Hx], Hy as [-> | Hy]; auto.
  - exfalso. apply Hnotin. rewrite Hf. now apply in_map.
  - exfalso. apply Hnotin. rewrite <- Hf. now apply in_map.
Qed.

Section WithCollaborators.
Variable E : collaborators.

(** X10: the cache key does not tell a services filter from a store-type
    filter: a request that asks for store types and no services has the key of
    the request that asks for services of the same names and no store types,
    and within the lifetime of the entry it is answered with the response
    computed for that other request. *)
Theorem store_types_share_the_key_of_services (clk clk2 : clock) (r1 r2 : StoreSearchRequest)
    (db db2 : StoreDb) (c : cache) (lat lon : Q) (t : StoreType) (ts : list StoreType) :
  cacheable r1 = Some (lat, lon) -> cacheable r2 = Some (lat, lon) ->
  float_str E (radius_miles r1) = float_str E (radius_miles r2) ->
  services r1 = Some (map StoreType_value (t :: ts)) -> store_types r1 = None ->
  services r2 = None -> store_types r2 = Some (t :: ts) ->
  fst (Cache.get c (search_cache_key E r1 lat lon) (utcnow clk)) = None ->
  utcnow clk2 <= utcnow clk + Cache.timedelta_seconds Cache.SEARCH_TTL ->
  search_cache_key E r2 lat lon = search_cache_key E r1 lat lon
  /\ search_stores E clk2 r2 db2 (snd (search_stores E clk r1 db c))
     = (Ok (SearchResponse (build_response E clk r1 db lat lon (at_coordinates lat lon))),
        snd (search_stores E clk r1 db c)).
Proof.
  intros Hc1 Hc2 Hrad Hs1 Ht1 Hs2 Ht2 Hmiss Httl.
  assert (Hkey : search_cache_key E r2 lat lon = search_cache_key E r1 lat lon).
  { unfold search_cache_key. rewrite Hs1, Ht1, Hs2, Ht2, Hrad. reflexivity. }
  split; [exact Hkey |].
  pose proof (SearchFacts.search_miss E clk r1 db c lat lon Hc1 Hmiss) as Hrun.
  cbv zeta in Hrun. rewrite Hrun. simpl.
  apply SearchFacts.search_hit with lat lon; [assumption |].
  rewrite Hkey. now rewrite CacheFacts.get_after_set.
Qed.

(** X11: after a store has been soft-deleted, no search returns it: the cache
    left by the deletion is empty, and a computed response holds active stores
    only. *)
Theorem deleted_store_is_not_found (clk : clock) (r : StoreSearchRequest)
    (db : StoreDb) (c c2 : cache) (sid : string) (s : Store) (resp : response) :
  List.NoDup (map store_id (stores db)) ->
  find_store db sid = Some s ->
  search_stores E clk r (snd (fst (Stores.delete_store sid db c)))
                (snd (Stores.delete_store sid db c))
  = (Ok (SearchResponse resp), c2) ->
  fst (fst (Stores.delete_store sid db c)) = Ok tt
  /\ forall item, In item (results resp) -> store_id (item_store item) <> sid.
Proof.
  intros Hnd Hfind. unfold Stores.delete_store. rewrite Hfind. simpl.
  set (db' := {| stores := Stores.update_first (Stores.has_id sid)
                             (Stores.set_status inactive) (stores db);
                 store_services := store_services db |}).
  intros Hrun. split; [reflexivity |].
  assert (Hresp : exists lat lon info, resp = build_response E clk r db' lat lon info).
  { destruct (cacheable r) as [[lat lon]|] eqn:Hc.
    - assert (Hmiss : fst (Cache.get (Cache.clear c) (search_cache_key E r lat lon)
                             (utcnow clk)) = None) by reflexivity.
      pose proof (SearchFacts.search_miss E clk r db' (Cache.clear c) lat lon Hc Hmiss) as H.
      cbv zeta in H. rewrite H in Hrun. injection Hrun as <- _. eauto.
    - rewrite (SearchFacts.search_not_cacheable E clk r db' _ Hc) in Hrun.
      unfold compute_response in Hrun.
      destruct (resolve_origin E clk r (Cache.clear c)) as [[[[lat lon] info]|code d] c1];
        [| discriminate].
      injection Hrun as <- _. eauto. }
  destruct Hresp as (lat & lon & info & ->).
  intros item Hitem Hid.
  apply (ListingFacts.response_items E) in Hitem as (s' & Hq & Hres).
  apply (ListingFacts.result_for_store E) in Hres as [Hst _]. rewrite Hst in Hid.
  apply (ListingFacts.query_stores_active E) in Hq as [Hin Hactive].
  simpl in Hin.
  assert (Hnd' : List.NoDup (map store_id (stores db')))
    by (simpl; now rewrite UpdateFirstFacts.update_first_map).
  assert (Hdel : In (Stores.set_status inactive s) (stores db'))
    by (simpl; now apply UpdateFirstFacts.find_update_first).
  assert (Heq : s' = Stores.set_status inactive s).
  { apply (NoDup_map_In_eq store_id (stores db')); auto.
    simpl. apply StoreFacts.find_store_In in Hfind as [_ Hs]. congruence. }
  rewrite Heq in Hactive. discriminate.
Qed.

End WithCollaborators.

End SearchCacheLaws.

(* ===================================================================== *)
(** * Further properties of the store endpoints and of the bulk import *)
(* ===================================================================== *)

Module StoreLaws.
Import Models Payload Stores StoreInvariants.

Lemma find_store_None_ids (db : StoreDb) (sid : string) :
  find_store db sid = None -> ~ In sid (map store_id (stores db)).
Proof.
  unfold find_store. intros Hnone Hin.
  apply in_map_iff in Hin as (s & Hs & Hin).
  apply (find_none _ _ Hnone) in Hin. rewrite Hs, String.eqb_refl in Hin. discriminate.
Qed.

Lemma find_store_Some_ids (db : StoreDb) (sid : string) (s : Store) :
  find_store db sid = Some s -> In sid (map store_id (stores db)).
Proof.
  intros H. apply StoreFacts.find_store_In in H as [Hin <-]. now apply in_map.
Qed.

Local Abbreviation names_for l sid :=
  (map snd (filter (fun p : string * string => String.eqb (fst p) sid = true) l)).

Lemma names_for_app (l1 l2 : list (string * string)) (sid : string) :
  names_for (l1 ++ l2)%list sid = (names_for l1 sid ++ names_for l2 sid)%list.
Proof. now rewrite filter_app, map_app. Qed.

Lemma names_for_inserted (sid other : string) (names : list string) :
  names_for (map (fun n => (sid, n)) names) other
  = if String.eqb sid other then names else [].
Proof.
  induction names as [|n names IH]; simpl; [now destruct (String.eqb sid other) |].
  destruct (String.eqb sid other) eqn:Heq.
  - rewrite filter_cons_True by exact Heq. simpl. now rewrite IH.
  - rewrite filter_cons_False by (simpl; congruence). exact IH.
Qed.


Lemma names_for_absent (l : list (string * string)) (sid : string) :
  (forall p, In p l -> fst p <> sid) -> names_for l sid = [].
Proof.
  induction l as [|p l IH]; intros Hno; [reflexivity |].
  rewrite filter_cons_False.
  - apply IH. intros q Hq. apply Hno. now right.
  - intros H. apply String.eqb_eq in H. apply (Hno p); [now left | assumption].
Qed.

Lemma services_of_absent (db : StoreDb) (sid : string) :
  services_owned db -> ~ In sid (map store_id (stores db)) -> services_of db sid = [].
Proof.
  unfold services_owned, services_of. intros Hown Habsent.
  apply names_for_absent. intros p Hp Heq. apply Habsent. rewrite <- Heq. now apply Hown.
Qed.

Lemma unique_after_append (l : list Store) (s : Store) :
  List.NoDup (map store_id l) -> ~ In (store_id s) (map store_id l) ->
  List.NoDup (map store_id (l ++ [s])%list).
Proof.
  intros Hnd Hnew. rewrite map_app. simpl.
  apply (Permutation_NoDup (l := store_id s :: map store_id l)).
  - apply Permutation_cons_append.
  - now constructor.
Qed.

Lemma consistent_after_append (db : StoreDb) (s : Store) (names : list string) :
  consistent db -> find_store db (store_id s) = None ->
  consistent
    (insert_services (store_id s) names
       {| stores := (stores db ++ [s])%list; store_services := store_services db |}).
Proof.
  intros [Hu Ho] Hnone. split.
  - unfold unique_ids. simpl. apply unique_after_append; [exact Hu |].
    now apply find_store_None_ids.
  - unfold services_owned. simpl. intros p Hp. rewrite map_app. apply in_or_app.
    apply in_app_or in Hp as [Hp | Hp].
    + left. now apply Ho.
    + right. apply in_map_iff in Hp as (n & <- & _). simpl. now left.
Qed.

Lemma consistent_after_update (db : StoreDb) (sid : string) (f : Store -> Store)
    (services : list (string * string)) :
  (forall x, store_id (f x) = store_id x) ->
  consistent db ->
  (forall p, In p services -> In p (store_services db) \/ In (fst p) (map store_id (stores db))) ->
  consistent {| stores := update_first (has_id sid) f (stores db);
                store_services := services |}.
Proof.
  intros Hf [Hu Ho] Hsvc. unfold consistent, unique_ids, services_owned. simpl.
  rewrite (UpdateFirstFacts.update_first_map (has_id sid) f store_id (stores db) Hf).
  split; [exact Hu |].
  intros p Hp. destruct (Hsvc p Hp) as [H | H]; [now apply Ho | exact H].
Qed.

Lemma apply_update_id (u : StoreUpdate) (x : Store) : store_id (apply_update u x) = store_id x.
Proof. reflexivity. Qed.

Lemma set_status_id (st : StoreStatus) (x : Store) : store_id (set_status st x) = store_id x.
Proof. reflexivity. Qed.

Section WithGeocoder.
Variable geolocator : string -> option (Q * Q * string).

Lemma create_store_consistent (utcnow : Z) (store_data : StoreCreate) (db : StoreDb) (c : cache) :
  consistent db -> consistent (snd (fst (create_store geolocator utcnow store_data db c))).
Proof.
  intros Hdb. unfold create_store.
  destruct (find_store db (c_store_id store_data)) eqn:Hfind; [exact Hdb |].
  match goal with
  | |- context [if ?b then _ else _] => destruct b
  end.
  - destruct (Geocoding.geocode_address _ _ _ _) as [[v|] c1].
    + destruct (Search.as_geo v); simpl; [| exact Hdb].
      destruct (c_hours store_data) as [[[[[[mon tue] wed] thu] fri] sat] sun]. simpl.
      now apply consistent_after_append.
    + destruct (c_latitude store_data), (c_longitude store_data); simpl; try exact Hdb.
      destruct (c_hours store_data) as [[[[[[mon tue] wed] thu] fri] sat] sun]. simpl.
      now apply consistent_after_append.
  - destruct (c_latitude store_data), (c_longitude store_data); simpl; try exact Hdb.
    destruct (c_hours store_data) as [[[[[[mon tue] wed] thu] fri] sat] sun]. simpl.
    now apply consistent_after_append.
Qed.

End WithGeocoder.

Lemma update_store_consistent (sid : string) (u : StoreUpdate) (db : StoreDb) (c : cache) :
  consistent db -> consistent (snd (fst (update_store sid u db c))).
Proof.
  intros Hdb. unfold update_store.
  destruct (find_store db sid) as [s|] eqn:Hfind; [| exact Hdb]. simpl.
  destruct (u_services u) as [l|]; simpl.
  - apply (consistent_after_update db sid); [apply apply_update_id | exact Hdb |].
    intros p Hp. apply in_app_or in Hp as [Hp | Hp].
    + left. apply filter_In in Hp. tauto.
    + right. apply in_map_iff in Hp as (n & <- & _). simpl.
      now apply (find_store_Some_ids db sid s).
  - apply (consistent_after_update db sid); [apply apply_update_id | exact Hdb | auto].
Qed.

Lemma delete_store_consistent (sid : string) (db : StoreDb) (c : cache) :
  consistent db -> consistent (snd (fst (delete_store sid db c))).
Proof.
  intros Hdb. unfold delete_store.
  destruct (find_store db sid) as [s|]; [| exact Hdb]. simpl.
  apply (consistent_after_update db sid); [apply set_status_id | exact Hdb | auto].
Qed.

End StoreLaws.

Module ImportLaws.
Import Models Payload Admin StoreInvariants.

Lemma update_first_map_when {A B} (p : A -> bool) (f : A -> A) (h : A -> B) (l : list A) :
  (forall y, p y = true -> h (f y) = h y) ->
  map h (Stores.update_first p f l) = map h l.
Proof.
  intros Hh. induction l as [|a l IH]; simpl; [reflexivity |].
  destruct (p a) eqn:Hp; simpl; [now rewrite Hh | now rewrite IH].
Qed.

Lemma imported_store_id (row : Row) (st : string) (lat lon : Q) (keep : StoreStatus)
    (country : string) :
  store_id (imported_store row st lat lon keep country) = r_store_id row.
Proof.
  unfold imported_store.
  now destruct (r_hours row) as [[[[[[mon tue] wed] thu] fri] sat] sun].
Qed.

Section Batch.
Variable geolocator : string -> option (Q * Q * string).
Variable py_float : string -> option Q.

(** What a row can do to the table: nothing, replace the row of its id and
    the services of that id, or append a row with a new id. *)
Lemma import_row_cases (utcnow : Z) (row : Row) (db db1 : StoreDb) (c c1 : cache)
    (o : outcome) :
  import_row geolocator py_float utcnow row db c = (o, db1, c1) ->
  match o with
  | row_failed _ _ => db1 = db
  | row_updated =>
      exists existing st lat lon,
        find_store db (r_store_id row) = Some existing
        /\ db1 = Stores.insert_services (r_store_id row)
                   (parse_services (default "" (r_services row)))
                   (Stores.delete_services (r_store_id row)
                      {| stores :=
                           Stores.update_first (Stores.has_id (r_store_id row))
                             (fun old => imported_store row st lat lon (status old)
                                           (address_country old))
                             (stores db);
                         store_services := store_services db |})
  | row_created =>
      exists st lat lon,
        find_store db (r_store_id row) = None
        /\ db1 = Stores.insert_services (r_store_id row)
                   (parse_services (default "" (r_services row)))
                   {| stores := (stores db ++ [imported_store row st lat lon active "USA"])%list;
                      store_services := store_services db |}
  end.
Proof.
  unfold import_row. intros H.
  repeat match type of H with
         | context [match ?x with _ => _ end] => destruct x eqn:?
         end;
    injection H as <- <- <-; try reflexivity; eauto 10.
Qed.

Lemma import_row_consistent (utcnow : Z) (row : Row) (db : StoreDb) (c : cache) :
  consistent db ->
  consistent (snd (fst (import_row geolocator py_float utcnow row db c))).
Proof.
  intros Hdb.
  destruct (import_row geolocator py_float utcnow row db c) as [[o db1] c1] eqn:Hrun.
  apply import_row_cases in Hrun. simpl.
  destruct o as [| | sid reason].
  - destruct Hrun as (st & lat & lon & Hnone & ->).
    rewrite <- (imported_store_id row st lat lon active "USA").
    apply StoreLaws.consistent_after_append; [exact Hdb |].
    now rewrite imported_store_id.
  - destruct Hrun as (existing & st & lat & lon & Hfind & ->).
    destruct Hdb as [Hu Ho]. unfold consistent, unique_ids, services_owned. simpl.
    assert (Hids : map store_id
                     (Stores.update_first (Stores.has_id (r_store_id row))
                        (fun old => imported_store row st lat lon (status old)
                                      (address_country old)) (stores db))
                   = map store_id (stores db)).
    { apply update_first_map_when. intros y Hy. rewrite imported_store_id.
      unfold Stores.has_id in Hy. apply String.eqb_eq in Hy. now symmetry. }
    rewrite Hids. split; [exact Hu |].
    intros p Hp. apply in_app_or in Hp as [Hp | Hp].
    + apply filter_In in Hp as [Hp _]. now apply Ho.
    + apply in_map_iff in Hp as (n & <- & _). simpl.
      now apply (StoreLaws.find_store_Some_ids db _ existing).
  - now subst.
Qed.

Lemma fold_consistent (utcnow : Z) (l : list (nat * Row)) (acc : progress) :
  consistent (p_db acc) ->
  consistent (p_db (fold_left (step geolocator py_float utcnow) l acc)).
Proof.
  revert acc. induction l as [|[n row] l IH]; intros acc Hacc; simpl; [exact Hacc |].
  apply IH. unfold step.
  pose proof (import_row_consistent utcnow row (p_db acc) (p_cache acc) Hacc) as H.
  destruct (import_row geolocator py_float utcnow row (p_db acc) (p_cache acc))
    as [[[| | sid reason] db1] c1]; exact H.
Qed.

Lemma bulk_import_consistent (utcnow : Z) (file : CsvFile) (db : StoreDb) (c : cache) :
  consistent db ->
  consistent (snd (fst (bulk_import_stores geolocator py_float utcnow file db c))).
Proof.
  intros Hdb. unfold bulk_import_stores.
  destruct (negb (ends_with _ _)); [exact Hdb |].
  destruct (negb (forallb _ _)); [exact Hdb |].
  simpl. now apply fold_consistent.
Qed.

(** X12: the four endpoints that write the store tables keep them consistent:
    after creating, updating, soft-deleting or bulk-importing, whether the
    call succeeds or fails, store ids are still unique and every service row
    still belongs to a store of the table. *)
Theorem store_tables_stay_consistent (utcnow : Z) (db : StoreDb) (c : cache) :
  consistent db ->
  (forall store_data,
     consistent (snd (fst (Stores.create_store geolocator utcnow store_data db c))))
  /\ (forall sid store_data,
        consistent (snd (fst (Stores.update_store sid store_data db c))))
  /\ (forall sid, consistent (snd (fst (Stores.delete_store sid db c))))
  /\ (forall file,
        consistent (snd (fst (bulk_import_stores geolocator py_float utcnow file db c)))).
Proof.
  intros Hdb. split; [| split; [| split]]; intros.
  - now apply StoreLaws.create_store_consistent.
  - now apply StoreLaws.update_store_consistent.
  - now apply StoreLaws.delete_store_consistent.
  - now apply bulk_import_consistent.
Qed.

End Batch.

End ImportLaws.

Module StoreEndpointLaws.
Import Models Payload Stores StoreInvariants.

Lemma find_app {A} (p : A -> bool) (l l' : list A) :
  List.find p (l ++ l')%list
  = match List.find p l with Some x => Some x | None => List.find p l' end.
Proof.
  induction l as [|a l IH]; simpl; [reflexivity |]. now destruct (p a).
Qed.

Lemma services_after_insert (db : StoreDb) (stores' : list Store) (sid other : string)
    (names : list string) :
  services_of (insert_services sid names
                 {| stores := stores'; store_services := store_services db |}) other
  = (services_of db other ++ if String.eqb sid other then names else [])%list.
Proof.
  unfold services_of, insert_services. simpl.
  now rewrite StoreLaws.names_for_app, StoreLaws.names_for_inserted.
Qed.

Section WithGeocoder.
Variable geolocator : string -> option (Q * Q * string).

Lemma create_store_shape (utcnow : Z) (store_data : StoreCreate) (db db' : StoreDb)
    (c c' : cache) (v : store_view) :
  create_store geolocator utcnow store_data db c = (Ok v, db', c') ->
  find_store db (c_store_id store_data) = None
  /\ store_id (view_store v) = c_store_id store_data
  /\ name (view_store v) = c_name store_data
  /\ status (view_store v) = c_status store_data
  /\ store_type (view_store v) = StoreType_value (c_store_type store_data)
  /\ view_services v = c_services store_data
  /\ db' = insert_services (c_store_id store_data) (c_services store_data)
             {| stores := (stores db ++ [view_store v])%list;
                store_services := store_services db |}.
Proof.
  unfold create_store. intros H.
  destruct (find_store db (c_store_id store_data)) eqn:Hfind; [discriminate |].
  repeat match type of H with
         | context [match ?x with _ => _ end] => destruct x eqn:?
         end;
    try discriminate; injection H as <- <- <-; simpl; auto 10.
Qed.

(** X13: creating a store whose id is taken is refused with 400 and changes
    neither the tables nor the cache. A successful creation adds one row: the
    store is then returned by the lookup of its id exactly as the creation
    returned it, with the services of the request, and the lookup of every
    other id answers as before. *)
Theorem create_then_get (utcnow : Z) (store_data : StoreCreate) (db : StoreDb) (c : cache) :
  consistent db ->
  (forall existing, find_store db (c_store_id store_data) = Some existing ->
     create_store geolocator utcnow store_data db c
     = (HTTPError 400 "Store ID already exists", db, c))
  /\ (forall v db' c',
        create_store geolocator utcnow store_data db c = (Ok v, db', c') ->
        get_store (c_store_id store_data) db' = Ok v
        /\ view_services v = c_services store_data
        /\ length (stores db') = S (length (stores db))
        /\ forall other, other <> c_store_id store_data ->
             get_store other db' = get_store other db).
Proof.
  intros [Hu Ho]. split.
  - intros existing Hfind. unfold create_store. now rewrite Hfind.
  - intros v db' c' Hrun.
    apply create_store_shape in Hrun as (Hnone & Hid & _ & _ & _ & Hsvc & ->).
    pose proof (StoreLaws.services_of_absent db _ Ho
                  (StoreLaws.find_store_None_ids db _ Hnone)) as Hempty.
    repeat split.
    + assert (Hf : find_store
                     (insert_services (c_store_id store_data) (c_services store_data)
                        {| stores := (stores db ++ [view_store v])%list;
                           store_services := store_services db |})
                     (c_store_id store_data) = Some (view_store v)).
      { unfold find_store in *. simpl. rewrite find_app, Hnone. simpl.
        now rewrite Hid, String.eqb_refl. }
      unfold get_store. rewrite Hf. unfold view_of.
      rewrite Hid, services_after_insert, Hempty, String.eqb_refl. simpl.
      rewrite <- Hsvc. now destruct v.
    + exact Hsvc.
    + simpl. rewrite length_app. simpl. lia.
    + intros other Hne.
      assert (Hf : find_store
                     (insert_services (c_store_id store_data) (c_services store_data)
                        {| stores := (stores db ++ [view_store v])%list;
                           store_services := store_services db |}) other
                   = find_store db other).
      { unfold find_store. simpl. rewrite find_app.
        destruct (List.find _ (stores db)); [reflexivity |]. simpl. rewrite Hid.
        destruct (String.eqb_spec (c_store_id store_data) other); [congruence | reflexivity]. }
      unfold get_store. rewrite Hf.
      destruct (find_store db other) as [s|] eqn:Hfind; [| reflexivity].
      unfold view_of. rewrite services_after_insert.
      apply StoreFacts.find_store_In in Hfind as [_ Hs].
      destruct (String.eqb_spec (c_store_id store_data) (store_id s)) as [Heq | _];
        [congruence |].
      now rewrite app_nil_r.
Qed.

End WithGeocoder.

End StoreEndpointLaws.

Module UpdateLaws.
Import Models Payload Stores StoreInvariants.




End UpdateLaws.

Module SessionLaws.
Import Models Auth.

Lemma update_first_none {A} (p : A -> bool) (f : A -> A) (l : list A) :
  List.find p l = None -> Stores.update_first p f l = l.
Proof.
  induction l as [|a l IH]; simpl; [reflexivity |].
  destruct (p a); [discriminate |]. intros H. now rewrite IH.
Qed.

Lemma update_first_app_none {A} (p : A -> bool) (f : A -> A) (l l' : list A) :
  List.find p l = None ->
  Stores.update_first p f (l ++ l') = (l ++ Stores.update_first p f l')%list.
Proof.
  induction l as [|a l IH]; simpl; [reflexivity |].
  destruct (p a); [discriminate |]. intros H. now rewrite IH.
Qed.

Lemma update_first_idem {A} (p : A -> bool) (f : A -> A) (l : list A) :
  (forall x, p (f x) = p x) -> (forall x, f (f x) = f x) ->
  Stores.update_first p f (Stores.update_first p f l) = Stores.update_first p f l.
Proof.
  intros Hp Hf. induction l as [|a l IH]; simpl; [reflexivity |].
  destruct (p a) eqn:Ha; simpl.
  - now rewrite Hp, Ha, Hf.
  - now rewrite Ha, IH.
Qed.

Lemma find_update_first_unaffected {A} (p q : A -> bool) (f : A -> A) (l : list A) :
  (forall x, p x = true -> q x = false /\ q (f x) = false) ->
  List.find q (Stores.update_first p f l) = List.find q l.
Proof.
  intros H. induction l as [|a l IH]; simpl; [reflexivity |].
  destruct (p a) eqn:Ha; simpl.
  - destruct (H a Ha) as [-> ->]. reflexivity.
  - now rewrite IH.
Qed.

Lemma find_agree {A} (p q : A -> bool) (l : list A) :
  (forall x, p x = q x) -> List.find p l = List.find q l.
Proof.
  intros H. induction l as [|a l IH]; simpl; [reflexivity |]. now rewrite H, IH.
Qed.

Lemma existsb_false_find {A} (p : A -> bool) (l : list A) :
  existsb p l = false -> List.find p l = None.
Proof.
  induction l as [|a l IH]; simpl; [reflexivity |].
  destruct (p a); [discriminate | exact IH].
Qed.

Lemma find_weaker_none {A} (p q : A -> bool) (l : list A) :
  (forall x, q x = true -> p x = true) -> List.find p l = None -> List.find q l = None.
Proof.
  intros H. induction l as [|a l IH]; simpl; [reflexivity |].
  destruct (p a) eqn:Ha; [discriminate |].
  destruct (q a) eqn:Hq; [| exact IH]. apply H in Hq. congruence.
Qed.

Lemma find_by_id_unique (l : list User) (u : User) :
  List.NoDup (map id l) -> In u l -> List.find (fun x => id x =? id u) l = Some u.
Proof.
  induction l as [|a l IH]; simpl; [tauto |].
  intros Hnd [-> | Hin].
  - now rewrite Z.eqb_refl.
  - apply NoDup_cons_iff in Hnd as [Hnotin Hnd].
    destruct (Z.eqb_spec (id a) (id u)) as [Heq | _]; [| auto].
    exfalso. apply Hnotin. rewrite Heq. now apply in_map.
Qed.

Section Sessions.
Variable E : collaborators.

(** What a successful login has checked and written. *)
Lemma login_ok (now : Z) (d : LoginRequest) (db db' : AuthDb) (tk : Token) :
  login E now d db = (Ok tk, db') ->
  exists user,
    List.find (fun u => String.eqb (email u) (login_email d)) (users db) = Some user
    /\ verify_password E (login_password d) (hashed_password user) = true
    /\ is_active user = true
    /\ List.find (fun t => String.eqb (token_hash t)
                             (hash_token E (create_refresh_token E (id user) now)))
         (refresh_tokens db) = None
    /\ tk = {| access_token := create_access_token E (id user) (email user) (role_name user) now;
               refresh_token := create_refresh_token E (id user) now;
               token_type := "bearer" |}
    /\ db' = {| users := users db;
                refresh_tokens :=
                  (refresh_tokens db ++
                   [{| token_hash := hash_token E (create_refresh_token E (id user) now);
                       user_id := id user;
                       expires_at := now + timedelta_days 7;
                       revoked := false |}])%list |}.
Proof.
  unfold login. intros H.
  destruct (List.find _ (users db)) as [user|]; [| discriminate].
  destruct (verify_password E _ _) eqn:Hpw; simpl in H; [| discriminate].
  destruct (is_active user) eqn:Hact; simpl in H; [| discriminate].
  destruct (existsb _ (refresh_tokens db)) eqn:Hdup; [discriminate |].
  injection H as <- <-. exists user.
  repeat split; auto. now apply existsb_false_find.
Qed.

(** X18: the life of a session. After a successful login, when the refresh
    token decodes to a refresh claim for the user who logged in: over a
    database that returns timezone-aware datetimes, presenting it within seven
    days of the login gives a new access token for that user together with
    the same refresh token, and after seven days it is refused as expired;
    over a database that returns naive datetimes the comparison of the expiry
    fails and the answer is 500. Once the user has logged out with the token,
    it is refused as revoked, at any time and on every database. *)
Theorem login_then_refresh (now later : Z) (d : LoginRequest) (db db' : AuthDb) (tk : Token)
    (user : User) :
  List.NoDup (map id (users db)) ->
  List.find (fun u => String.eqb (email u) (login_email d)) (users db) = Some user ->
  login E now d db = (Ok tk, db') ->
  decode_token E (refresh_token tk) later
  = Some {| claim_type := Some "refresh"; claim_user_id := Some (id user) |} ->
  users db' = users db
  /\ refresh_access_token E later (refresh_token tk) db'
     = (if aware_datetimes E
        then if later <=? now + timedelta_days 7
             then Ok {| access_token :=
                          create_access_token E (id user) (email user) (role_name user) later;
                        refresh_token := refresh_token tk;
                        token_type := "bearer" |}
             else HTTPError 401 "Refresh token has expired"
        else HTTPError 500
               "TypeError: can't compare offset-naive and offset-aware datetimes")
  /\ fst (logout E (refresh_token tk) user db') = Ok "Successfully logged out"
  /\ refresh_access_token E later (refresh_token tk)
       (snd (logout E (refresh_token tk) user db'))
     = HTTPError 401 "Refresh token not found or has been revoked".
Proof.
  intros Hnd Hfind Hlogin Hdecode.
  destruct (login_ok now d db db' tk Hlogin)
    as (user' & Hfind' & Hpw & Hact & Hfresh & -> & ->).
  rewrite Hfind in Hfind'. injection Hfind' as <-.
  cbn [refresh_token] in *.
  set (tok := create_refresh_token E (id user) now) in *.
  set (h := hash_token E tok) in *.
  set (rec := {| token_hash := h; user_id := id user;
                 expires_at := now + timedelta_days 7; revoked := false |}).
  assert (Hlive : List.find (fun t => String.eqb (token_hash t) h && negb (revoked t))
                    (refresh_tokens db) = None).
  { apply (find_weaker_none (fun t => String.eqb (token_hash t) h)); [| exact Hfresh].
    intros x Hx. now apply andb_true_iff in Hx as [Hx _]. }
  assert (Hown : List.find (fun t => String.eqb h (token_hash t) && (id user =? user_id t))
                   (refresh_tokens db) = None).
  { apply (find_weaker_none (fun t => String.eqb (token_hash t) h)); [| exact Hfresh].
    intros x Hx. apply andb_true_iff in Hx as [Hx _]. now rewrite String.eqb_sym. }
  assert (Huser : List.find (fun u => bool_decide (Some (id u) = Some (id user))) (users db)
                  = Some user).
  { rewrite <- (find_by_id_unique (users db) user Hnd (proj1 (find_some _ _ Hfind))).
    apply find_agree. intros x.
    destruct (Z.eqb_spec (id x) (id user)) as [Heq | Hne].
    - apply bool_decide_eq_true. now rewrite Heq.
    - apply bool_decide_eq_false. intros [= Heq]. contradiction. }
  split; [reflexivity |].
  split.
  { unfold refresh_access_token. rewrite Hdecode. cbn [claim_type claim_user_id].
    rewrite bool_decide_eq_true_2 by reflexivity. cbn [negb refresh_tokens users].
    fold h. rewrite StoreEndpointLaws.find_app, Hlive. cbn [List.find token_hash revoked rec].
    rewrite String.eqb_refl. cbn [andb negb expires_at].
    destruct (aware_datetimes E); cbn [negb]; [| reflexivity].
    rewrite Huser, Hact. cbn [negb].
    change (expires_at rec) with (now + timedelta_days 7).
    destruct (Z.ltb_spec (now + timedelta_days 7) later) as [Hlt | Hge];
      destruct (Z.leb_spec later (now + timedelta_days 7)); try lia; reflexivity. }
  assert (Hout : logout E tok user
                   {| users := users db; refresh_tokens := (refresh_tokens db ++ [rec])%list |}
                 = (Ok "Successfully logged out",
                    {| users := users db;
                       refresh_tokens := (refresh_tokens db ++ [revoke rec])%list |})).
  { unfold logout. cbn [refresh_tokens users]. fold h.
    rewrite StoreEndpointLaws.find_app, Hown. cbn [List.find token_hash user_id rec].
    rewrite String.eqb_refl, Z.eqb_refl. cbn [andb].
    rewrite (update_first_app_none _ _ _ _ Hown). cbn [Stores.update_first token_hash user_id rec].
    rewrite String.eqb_refl, Z.eqb_refl. reflexivity. }
  rewrite Hout. cbn [fst snd]. split; [reflexivity |].
  unfold refresh_access_token. rewrite Hdecode. cbn [claim_type claim_user_id].
  rewrite bool_decide_eq_true_2 by reflexivity. cbn [negb refresh_tokens users].
  fold h. rewrite StoreEndpointLaws.find_app, Hlive.
  cbn [List.find token_hash revoked rec revoke].
  rewrite String.eqb_refl. reflexivity.
Qed.

(** X19: logging out always answers with the same message and touches at
    most one record, one that carries the hash of the presented token and
    belongs to the caller: no record is added or removed, no user is changed,
    every record keeps its hash, owner and expiry, none is un-revoked, and a
    record of another token or of another user is left exactly as it was. A
    second logout changes nothing more, and refreshing with any other token
    gives what it gave before. *)
Theorem logout_revokes_only_own_token (tok : string) (u : User) (db : AuthDb) :
  let db' := snd (logout E tok u db) in
  fst (logout E tok u db) = Ok "Successfully logged out"
  /\ users db' = users db
  /\ length (refresh_tokens db') = length (refresh_tokens db)
  /\ (forall i t, refresh_tokens db !! i = Some t ->
        exists t', refresh_tokens db' !! i = Some t'
                   /\ token_hash t' = token_hash t /\ user_id t' = user_id t
                   /\ expires_at t' = expires_at t
                   /\ (revoked t = true -> revoked t' = true)
                   /\ (token_hash t <> hash_token E tok \/ user_id t <> id u -> t' = t))
  /\ snd (logout E tok u db') = db'
  /\ (forall now other, hash_token E other <> hash_token E tok ->
        refresh_access_token E now other db' = refresh_access_token E now other db).
Proof.
  unfold logout.
  set (owned := fun t : RefreshToken =>
                  String.eqb (hash_token E tok) (token_hash t) && (id u =? user_id t)).
  assert (Hrev : forall x, owned (revoke x) = owned x) by reflexivity.
  destruct (List.find owned (refresh_tokens db)) as [found|] eqn:Hfound; cbn [fst snd].
  - cbn [users refresh_tokens].
    split; [reflexivity |]. split; [reflexivity |].
    split; [apply UpdateFirstFacts.update_first_length |].
    split.
    { intros i t Hi.
      destruct (UpdateFirstFacts.update_first_lookup owned revoke _ i t Hi)
        as [Hsame | [Hp Hnew]].
      - exists t. auto 10.
      - exists (revoke t). split; [exact Hnew |]. simpl. repeat split; auto.
        intros [Hne | Hne]; exfalso; unfold owned in Hp;
          apply andb_true_iff in Hp as [Hh Hu].
        + apply String.eqb_eq in Hh. congruence.
        + apply Z.eqb_eq in Hu. congruence. }
    split.
    { assert (Hagain : List.find owned (Stores.update_first owned revoke (refresh_tokens db))
                       = Some (revoke found)).
      { clear -Hfound Hrev. induction (refresh_tokens db) as [|a l IH]; simpl in *;
          [discriminate |].
        destruct (owned a) eqn:Ha; simpl.
        - injection Hfound as <-. now rewrite Hrev, Ha.
        - rewrite Ha. auto. }
      rewrite Hagain. cbn [users refresh_tokens].
      rewrite update_first_idem; [reflexivity | exact Hrev | reflexivity]. }
    intros now other Hother. unfold refresh_access_token. cbn [users refresh_tokens].
    rewrite (find_update_first_unaffected owned
               (fun t => String.eqb (token_hash t) (hash_token E other) && negb (revoked t))
               revoke (refresh_tokens db)); [reflexivity |].
    intros x Hx. unfold owned in Hx. apply andb_true_iff in Hx as [Hh _].
    apply String.eqb_eq in Hh. simpl. rewrite <- Hh.
    assert (Hneq : String.eqb (hash_token E tok) (hash_token E other) = false).
    { apply String.eqb_neq. congruence. }
    rewrite Hneq. auto.
  - split; [reflexivity |]. split; [reflexivity |]. split; [reflexivity |].
    split; [intros i t Hi; exists t; auto 10 |].
    split; [now rewrite Hfound |]. reflexivity.
Qed.

End Sessions.

End SessionLaws.

Module AccessLaws.
Import Models Auth Dependencies.

Section Gate.
Variable E : collaborators.
Variable permissions_of : User -> list string.

(** What [get_current_user] has checked when it returns a user. *)
Lemma current_user_ok (now : Z) (token : string) (db : AuthDb) (u : User) :
  get_current_user E now token db = Ok u <->
  exists claims,
    decode_token E token now = Some claims
    /\ claim_type claims = Some "access"
    /\ claim_user_id claims = Some (id u)
    /\ List.find (fun x => id x =? id u) (users db) = Some u
    /\ is_active u = true.
Proof.
  unfold get_current_user. split.
  - intros H. destruct (decode_token E token now) as [claims|]; [| discriminate].
    exists claims. split; [reflexivity |].
    destruct (bool_decide (claim_type claims = Some "access")) eqn:Hty; [| discriminate].
    apply bool_decide_eq_true in Hty. cbn [negb] in H.
    destruct (claim_user_id claims) as [uid|]; [| discriminate].
    destruct (List.find _ (users db)) as [user|] eqn:Hfind; [| discriminate].
    destruct (is_active user) eqn:Hact; [| discriminate].
    injection H as ->. apply find_some in Hfind as Hid. destruct Hid as [_ Hid].
    apply Z.eqb_eq in Hid. subst uid. auto.
  - intros (claims & -> & Hty & -> & Hfind & Hact).
    rewrite bool_decide_eq_true_2 by exact Hty. cbn [negb]. now rewrite Hfind, Hact.
Qed.



(** X21: access tokens and refresh tokens are not interchangeable. At one
    instant, a token that authenticates a request is refused by the refresh
    endpoint as an invalid refresh token, and a token the refresh endpoint
    accepts is refused on every protected endpoint as being of the wrong
    type. *)
Theorem token_types_are_not_interchangeable (now : Z) (token : string) (db : AuthDb) :
  (forall u, get_current_user E now token db = Ok u ->
             refresh_access_token E now token db = HTTPError 401 "Invalid refresh token")
  /\ (forall tk, refresh_access_token E now token db = Ok tk ->
                 get_current_user E now token db = HTTPError 401 "Invalid token type").
Proof.
  split.
  - intros u Hu. apply current_user_ok in Hu as (claims & Hdec & Hty & _).
    unfold refresh_access_token. rewrite Hdec, Hty.
    rewrite bool_decide_eq_false_2 by discriminate. reflexivity.
  - intros tk. unfold refresh_access_token, get_current_user.
    destruct (decode_token E token now) as [claims|]; [| discriminate].
    destruct (bool_decide (claim_type claims = Some "refresh")) eqn:Hty; [| discriminate].
    apply bool_decide_eq_true in Hty. rewrite Hty. intros _.
    rewrite bool_decide_eq_false_2 by discriminate. reflexivity.
Qed.

End Gate.

End AccessLaws.

Module UserLaws.
Import Models Auth Dependencies Users.

Lemma map_unchanged {A} (g : A -> A) (l : list A) :
  (forall x, In x l -> g x = x) -> map g l = l.
Proof.
  induction l as [|a l IH]; simpl; intros H; [reflexivity |].
  rewrite H by now left. rewrite IH; [reflexivity |]. intros x Hx. apply H. now right.
Qed.

(** With unique ids, updating the first row of an id is updating every row of
    that id. *)
Lemma update_first_unique (f : User -> User) (k : Z) (l : list User) :
  List.NoDup (map id l) ->
  Stores.update_first (fun u => id u =? k) f l
  = map (fun x => if id x =? k then f x else x) l.
Proof.
  induction l as [|a l IH]; simpl; [reflexivity |].
  intros Hnd. apply NoDup_cons_iff in Hnd as [Hnotin Hnd].
  destruct (Z.eqb_spec (id a) k) as [Heq | Hne].
  - f_equal. symmetry. apply map_unchanged. intros x Hx.
    destruct (Z.eqb_spec (id x) k) as [Hk | _]; [| reflexivity].
    exfalso. apply Hnotin. rewrite Heq, <- Hk. now apply in_map.
  - now rewrite IH.
Qed.

Lemma find_map_preserving {A} (p : A -> bool) (g : A -> A) (l : list A) :
  (forall x, p (g x) = p x) -> List.find p (map g l) = g <$> List.find p l.
Proof.
  intros H. induction l as [|a l IH]; simpl; [reflexivity |].
  rewrite H. destruct (p a); [reflexivity | exact IH].
Qed.

Section Lockout.
Variable E : collaborators.

(** X22: deactivating a user. An unknown id is answered 404 and the
    administrator's own id 400, both without a change. Otherwise the call
    succeeds and is a soft delete: the rows, their ids and e-mail addresses
    and all refresh tokens stay. From then on (ids being unique) no access
    token authenticates as that user, no refresh token that names that user
    is honoured (the refresh is answered 401, or, where the database returns
    naive datetimes and the comparison of the expiry fails, 500), and a login
    with an e-mail address of that user is refused with 401 and writes
    nothing, while a token that names another user authenticates exactly as
    before. *)
Theorem deactivated_user_is_locked_out (uid : Z) (current_user : User) (db : AuthDb) :
  List.NoDup (map id (users db)) ->
  match List.find (fun u => id u =? uid) (users db) with
  | None => deactivate_user uid current_user db = (HTTPError 404 "User not found", db)
  | Some _ =>
      if uid =? id current_user
      then deactivate_user uid current_user db
           = (HTTPError 400 "Cannot deactivate your own account", db)
      else
        exists db',
          deactivate_user uid current_user db = (Ok tt, db')
          /\ map id (users db') = map id (users db)
          /\ map email (users db') = map email (users db)
          /\ refresh_tokens db' = refresh_tokens db
          /\ (forall now token u,
                get_current_user E now token db' = Ok u ->
                id u <> uid /\ get_current_user E now token db = Ok u)
          /\ (forall now token claims,
                decode_token E token now = Some claims ->
                claim_user_id claims <> Some uid ->
                get_current_user E now token db' = get_current_user E now token db)
          /\ (forall now token claims,
                decode_token E token now = Some claims ->
                claim_user_id claims = Some uid ->
                exists code detail,
                  refresh_access_token E now token db' = HTTPError code detail
                  /\ (code = 401 \/ (code = 500 /\ aware_datetimes E = false)))
          /\ (forall now d u,
                List.find (fun x => String.eqb (email x) (login_email d)) (users db) = Some u ->
                id u = uid ->
                exists detail, login E now d db' = (HTTPError 401 detail, db'))
  end.
Proof.
  intros Hnd. unfold deactivate_user.
  destruct (List.find (fun u => id u =? uid) (users db)) as [target|] eqn:Htarget;
    [| reflexivity].
  apply find_some in Htarget as Hid. destruct Hid as [_ Hid]. apply Z.eqb_eq in Hid.
  rewrite Hid. destruct (uid =? id current_user) eqn:Hself; [reflexivity |].
  eexists. split; [reflexivity |]. cbn [users refresh_tokens].
  set (g := fun x : User => if id x =? uid then deactivated x else x).
  rewrite (update_first_unique deactivated uid (users db) Hnd). fold g.
  assert (Hgid : forall x, id (g x) = id x) by (intros x; unfold g; now destruct (id x =? uid)).
  assert (Hgmail : forall x, email (g x) = email x)
    by (intros x; unfold g; now destruct (id x =? uid)).
  assert (Hfind_id : forall k,
            List.find (fun x => id x =? k) (map g (users db))
            = g <$> List.find (fun x => id x =? k) (users db)).
  { intros k. apply find_map_preserving. intros x. now rewrite Hgid. }
  split; [rewrite map_map; apply map_ext; exact Hgid |].
  split; [rewrite map_map; apply map_ext; exact Hgmail |].
  split; [reflexivity |].
  split.
  { intros now token u Hu.
    apply AccessLaws.current_user_ok in Hu as (claims & Hdec & Hty & Hcid & Hfind & Hact).
    cbn [users] in Hfind. rewrite Hfind_id in Hfind.
    destruct (List.find (fun x => id x =? id u) (users db)) as [x|] eqn:Hx; [| discriminate].
    injection Hfind as Hgx. unfold g in Hgx.
    destruct (Z.eqb_spec (id x) uid) as [Heq | Hne].
    - subst u. discriminate.
    - subst x. split; [exact Hne |].
      apply AccessLaws.current_user_ok. exists claims. auto. }
  split.
  { intros now token claims Hdec Hother. unfold get_current_user. rewrite Hdec.
    destruct (negb (bool_decide (claim_type claims = Some "access"))); [reflexivity |].
    destruct (claim_user_id claims) as [k|]; [| reflexivity].
    cbn [users]. rewrite Hfind_id.
    destruct (List.find (fun x => id x =? k) (users db)) as [x|] eqn:Hx; [| reflexivity].
    apply find_some in Hx as [_ Hk]. apply Z.eqb_eq in Hk. simpl. unfold g.
    destruct (Z.eqb_spec (id x) uid) as [Heq | _]; [| reflexivity].
    exfalso. apply Hother. congruence. }
  split.
  { intros now token claims Hdec Hcid. unfold refresh_access_token, unauthorized.
    rewrite Hdec, Hcid. cbn [users refresh_tokens].
    destruct (negb (bool_decide (claim_type claims = Some "refresh"))); [eauto 6 |].
    destruct (List.find _ (refresh_tokens db)) as [db_token|]; [| eauto 6].
    destruct (aware_datetimes E); cbn [negb]; [| eauto 8].
    destruct (expires_at db_token <? now); [eauto 6 |].
    rewrite (find_map_preserving (fun u => bool_decide (Some (id u) = Some uid)) g)
      by (intros x; now rewrite Hgid).
    destruct (List.find (fun u => bool_decide (Some (id u) = Some uid)) (users db))
      as [x|] eqn:Hx; [| simpl; eauto 6].
    apply find_some in Hx as [_ Hk]. apply bool_decide_eq_true in Hk.
    injection Hk as Hk. simpl. unfold g. rewrite Hk, Z.eqb_refl. simpl. eauto 6. }
  intros now d u Hu Hk. unfold login, unauthorized. cbn [users].
  rewrite (find_map_preserving (fun x => String.eqb (email x) (login_email d)) g)
    by (intros x; now rewrite Hgmail).
  rewrite Hu. cbn [fmap option_fmap option_map].
  assert (Hgu : g u = deactivated u) by (unfold g; now rewrite Hk, Z.eqb_refl).
  rewrite Hgu. cbn [hashed_password deactivated is_active user_status negb].
  destruct (verify_password E (login_password d) (hashed_password u)); cbn [negb]; eauto.
Qed.

End Lockout.

End UserLaws.

Module CacheTypingLaws.
Import Models Schemas Payload Search CacheTyping.

Lemma get_well_typed (c : cache) (key : string) (utcnow : Z) :
  well_typed c -> well_typed (snd (Cache.get c key utcnow)).
Proof.
  intros Hc. unfold Cache.get. destruct (c !! key) as [e|]; [| exact Hc].
  destruct (Cache.expires_at e <? utcnow); [| exact Hc].
  intros k e' Hk. simpl in Hk. apply lookup_delete_Some in Hk as [_ Hk]. now apply Hc.
Qed.

Lemma get_hit_entry (c c' : cache) (key : string) (utcnow : Z) (v : py_value) :
  Cache.get c key utcnow = (Some v, c') ->
  exists e, c !! key = Some e /\ Cache.value e = v.
Proof.
  unfold Cache.get. destruct (c !! key) as [e|]; [| discriminate].
  destruct (Cache.expires_at e <? utcnow); [discriminate |].
  intros [= <- _]. eauto.
Qed.

Lemma set_well_typed (c : cache) (key : string) (v : py_value) (ttl utcnow : Z) :
  well_typed c ->
  match v with SearchResponse _ => is_search_key key | GeoResult _ => is_geocode_key key end ->
  well_typed (Cache.set c key v ttl utcnow).
Proof.
  intros Hc Hv k e Hk. unfold Cache.set in Hk.
  destruct (decide (k = key)) as [-> | Hne].
  - rewrite lookup_insert_eq in Hk. injection Hk as <-. exact Hv.
  - rewrite lookup_insert_ne in Hk by congruence. now apply Hc.
Qed.

Lemma search_cache_key_is_search (E : collaborators) (r : StoreSearchRequest) (lat lon : Q) :
  is_search_key (search_cache_key E r lat lon).
Proof.
  unfold is_search_key, search_cache_key.
  destruct (services r) as [[|a l]|]; destruct (store_types r) as [[|b l']|];
    simpl;
    match goal with |- String.prefix EmptyString ?x = true => now destruct x end.
Qed.

Lemma hit_under_search_key (c c' : cache) (key : string) (utcnow : Z) (v : py_value) :
  well_typed c -> is_search_key key -> Cache.get c key utcnow = (Some v, c') ->
  exists r, v = SearchResponse r.
Proof.
  intros Hc Hkey Hget. apply get_hit_entry in Hget as (e & He & <-).
  specialize (Hc key e He). destruct (Cache.value e) as [r | g]; [eauto |].
  exfalso. unfold is_search_key, is_geocode_key in *.
  destruct key as [|[[] [] [] [] [] [] [] []] key]; simpl in *; discriminate.
Qed.

Section WithCollaborators.
Variable E : collaborators.

Lemma geocode_address_typed (c : cache) (utcnow : Z) (addr : string) :
  well_typed c ->
  well_typed (snd (Geocoding.geocode_address (geolocator E) c utcnow addr))
  /\ match fst (Geocoding.geocode_address (geolocator E) c utcnow addr) with
     | Some v => exists g, v = GeoResult g
     | None => True
     end.
Proof.
  intros Hc. unfold Geocoding.geocode_address.
  pose proof (get_well_typed c (Geocoding.geocode_key addr) utcnow Hc) as Hget.
  destruct (Cache.get c (Geocoding.geocode_key addr) utcnow) as [[v|] c1] eqn:Hrun;
    simpl in Hget |- *.
  - split; [exact Hget |].
    apply get_hit_entry in Hrun as (e & He & <-).
    specialize (Hc _ e He). destruct (Cache.value e) as [r | g]; [| eauto].
    exfalso. unfold is_search_key, Geocoding.geocode_key in Hc. simpl in Hc. discriminate.
  - destruct (geolocator E addr) as [[[lat lon] formatted]|]; simpl; [| auto].
    split; [| eauto]. apply set_well_typed; [exact Hget | reflexivity].
Qed.

Lemma resolve_origin_typed (clk : clock) (r : StoreSearchRequest) (c : cache) :
  well_typed c ->
  well_typed (snd (resolve_origin E clk r c))
  /\ match fst (resolve_origin E clk r c) with
     | Ok _ => True
     | HTTPError code _ => code = 400
     end.
Proof.
  intros Hc. unfold resolve_origin, Geocoding.geocode_postal_code.
  destruct (direct_coordinates r) as [[lat lon]|]; [simpl; auto |].
  destruct (postal_code r) as [[|a code]|]; destruct (address r) as [[|b addr]|];
    try (simpl; now auto);
    match goal with
    | |- context [Geocoding.geocode_address ?g c ?t ?a] =>
        destruct (geocode_address_typed c t a Hc) as [Hty Hval];
        destruct (Geocoding.geocode_address g c t a) as [[v|] c1]
    end; simpl in Hty, Hval |- *; auto;
    destruct Hval as [g ->]; simpl; auto.
Qed.

(** X24: search responses and geocoding results share one cache without
    being confused. Over a table whose rows can all be loaded, and for a
    request that has passed the rate limiter: when every entry of the cache
    holds the kind of value its key announces, the body of the search route
    leaves the cache in that state, whatever it answers, and a value it
    returns is a search response, never a geocoding result. *)
Theorem search_keeps_cache_well_typed (clk : clock) (body : StoreSearchRequest)
    (db : StoreDb) (c : cache) :
  Loading.loadable db ->
  well_typed c ->
  well_typed (snd (post_search E clk body db c))
  /\ forall v, fst (post_search E clk body db c) = Ok v -> exists r, v = SearchResponse r.
Proof.
  intros _ Hc. unfold post_search, validate.
  destruct (negb (field_constraints body)); [simpl; split; [exact Hc | discriminate] |].
  destruct (validate_lat_lon_pair body); [simpl; split; [exact Hc | discriminate] |].
  unfold search_stores.
  destruct (cacheable body) as [[lat lon]|].
  - pose proof (get_well_typed c (search_cache_key E body lat lon) (utcnow clk) Hc) as Hget.
    destruct (Cache.get c (search_cache_key E body lat lon) (utcnow clk))
      as [[hit|] c1] eqn:Hrun; simpl in Hget |- *.
    + split; [exact Hget |]. intros v [= <-].
      exact (hit_under_search_key c c1 _ _ hit Hc (search_cache_key_is_search E body lat lon)
               Hrun).
    + destruct (resolve_origin_typed clk body c1 Hget) as [Hty _].
      destruct (resolve_origin E clk body c1) as [[[[slat slon] info] | code detail] c2];
        simpl in Hty |- *.
      * split; [| intros v [= <-]; eauto]. apply set_well_typed; [exact Hty |].
        apply search_cache_key_is_search.
      * split; [exact Hty | discriminate].
  - destruct (resolve_origin_typed clk body c Hc) as [Hty _].
    destruct (resolve_origin E clk body c) as [[[[slat slon] info] | code detail] c2];
      simpl in Hty |- *; (split; [exact Hty |]); [intros v [= <-]; eauto | discriminate].
Qed.

End WithCollaborators.

End CacheTypingLaws.

Module LawExamples.
Import Models Schemas Payload Search Stores Admin Auth StoreInvariants Scenario Fixtures.

Lemma test_db_consistent : consistent test_db.
Proof.
  split.
  - unfold unique_ids. simpl. repeat constructor. simpl. tauto.
  - intros p [<- | [<- | []]]; simpl; auto.
Qed.

Lemma results_are_the_matching_stores_witness :
  exists item,
    In item (results (build_response stand_ins monday_noon near_test_store test_db
                        40.7128%Q (-74.0060)%Q (at_coordinates 40.7128%Q (-74.0060)%Q)))
    /\ item_store item = test_store.
Proof.
  apply (ResultLaws.results_are_the_matching_stores stand_ins monday_noon near_test_store
           test_db 40.7128%Q (-74.0060)%Q (at_coordinates 40.7128%Q (-74.0060)%Q)
           test_store).
  - repeat constructor.
  - split; [now left |]. split; [reflexivity |].
    split; [split; vm_compute; discriminate |].
    split; [split; vm_compute; discriminate |].
    split; [intros t ts Ht; discriminate Ht |].
    split; [vm_compute; discriminate |].
    split; [intros w ws Hw; discriminate Hw |].
    intros Ho. discriminate Ho.
Defined.

Lemma store_types_share_the_key_of_services_witness :
  search_cache_key stand_ins by_store_types 40.7128%Q (-74.0060)%Q
  = search_cache_key stand_ins by_service_names 40.7128%Q (-74.0060)%Q
  /\ fst (search_stores stand_ins one_minute_later by_store_types test_db
            (snd (search_stores stand_ins monday_noon by_service_names test_db empty_cache)))
     = Ok (SearchResponse
             (build_response stand_ins monday_noon by_service_names test_db
                40.7128%Q (-74.0060)%Q (at_coordinates 40.7128%Q (-74.0060)%Q))).
Proof.
  destruct (SearchCacheLaws.store_types_share_the_key_of_services stand_ins monday_noon
              one_minute_later by_service_names by_store_types test_db test_db empty_cache
              40.7128%Q (-74.0060)%Q flagship []) as [Hkey Hrun];
    try reflexivity.
  - vm_compute. discriminate.
  - split; [exact Hkey |]. now rewrite Hrun.
Defined.

Lemma deleted_store_is_not_found_witness :
  exists resp,
    fst (search_stores stand_ins monday_noon near_test_store
           (snd (fst (delete_store "S0001" test_db empty_cache)))
           (snd (delete_store "S0001" test_db empty_cache)))
    = Ok (SearchResponse resp)
    /\ forall item, In item (results resp) -> store_id (item_store item) <> "S0001".
Proof.
  pose proof (SearchFacts.search_miss stand_ins monday_noon near_test_store
                (snd (fst (delete_store "S0001" test_db empty_cache)))
                (snd (delete_store "S0001" test_db empty_cache))
                40.7128%Q (-74.0060)%Q eq_refl eq_refl) as Hrun.
  cbv zeta in Hrun.
  eexists. split; [now rewrite Hrun |].
  eapply (SearchCacheLaws.deleted_store_is_not_found stand_ins monday_noon near_test_store
            test_db empty_cache _ "S0001" test_store).
  3: exact Hrun.
  - simpl. repeat constructor. simpl. tauto.
  - reflexivity.
Defined.

Lemma store_tables_stay_consistent_witness :
  consistent (snd (fst (create_store one_postal_code 0 new_store test_db empty_cache)))
  /\ consistent (snd (fst (import_file good_and_bad test_db empty_cache))).
Proof.
  destruct (ImportLaws.store_tables_stay_consistent one_postal_code known_floats 0
              test_db empty_cache test_db_consistent) as (Hcreate & _ & _ & Himport).
  split; [apply Hcreate | apply Himport].
Defined.

Lemma create_then_get_witness :
  exists v db' c',
    create_store one_postal_code 0 new_store test_db empty_cache = (Ok v, db', c')
    /\ get_store "S0100" db' = Ok v
    /\ view_services v = ["pickup"].
Proof.
  destruct (create_store one_postal_code 0 new_store test_db empty_cache)
    as [[[v | code detail] db'] c'] eqn:Hrun; [| vm_compute in Hrun; discriminate].
  exists v, db', c'. split; [reflexivity |].
  destruct (StoreEndpointLaws.create_then_get one_postal_code 0 new_store test_db
              empty_cache test_db_consistent) as [_ Hok].
  destruct (Hok v db' c' Hrun) as (Hget & Hsvc & _). auto.
Defined.


Lemma login_then_refresh_witness :
  refresh_access_token toy_auth 1000 "refresh.1.0"
    (snd (login toy_auth 0 admin_login auth_db))
  = Ok {| access_token := "access.1.1000"; refresh_token := "refresh.1.0";
          token_type := "bearer" |}
  /\ refresh_access_token toy_auth 1000 "refresh.1.0"
       (snd (logout toy_auth "refresh.1.0" admin (snd (login toy_auth 0 admin_login auth_db))))
     = HTTPError 401 "Refresh token not found or has been revoked".
Proof.
  destruct (login toy_auth 0 admin_login auth_db) as [[tk | code detail] db'] eqn:Hrun;
    [| vm_compute in Hrun; discriminate].
  assert (Htok : refresh_token tk = "refresh.1.0")
    by (vm_compute in Hrun; now injection Hrun as <- _).
  destruct (SessionLaws.login_then_refresh toy_auth 0 1000 admin_login auth_db db' tk admin)
    as (_ & Hrefresh & _ & Hrevoked).
  - simpl. repeat constructor; simpl; intuition discriminate.
  - reflexivity.
  - exact Hrun.
  - rewrite Htok. reflexivity.
  - rewrite Htok in Hrefresh, Hrevoked. simpl. split; [exact Hrefresh | exact Hrevoked].
Defined.

Lemma token_types_are_not_interchangeable_witness :
  refresh_access_token toy_auth 0 admin_access_token auth_db
  = HTTPError 401 "Invalid refresh token".
Proof.
  apply (proj1 (AccessLaws.token_types_are_not_interchangeable toy_auth 0
                  admin_access_token auth_db) admin).
  reflexivity.
Defined.

Lemma deactivated_user_is_locked_out_witness :
  exists db',
    Users.deactivate_user 3 admin team = (Ok tt, db')
    /\ map id (users db') = [1; 3]
    /\ exists detail,
         login toy_auth 0 (credentials "editor@test.com" "Editor123!") db'
         = (HTTPError 401 detail, db').
Proof.
  destruct (UserLaws.deactivated_user_is_locked_out toy_auth 3 admin team)
    as (db' & Hrun & Hids & _ & _ & _ & _ & _ & Hlogin).
  - simpl. repeat constructor; simpl; intuition discriminate.
  - exists db'. split; [exact Hrun |]. split; [exact Hids |].
    apply (Hlogin 0 (credentials "editor@test.com" "Editor123!") editor); reflexivity.
Defined.

Lemma search_keeps_cache_well_typed_witness :
  CacheTyping.well_typed
    (snd (post_search stand_ins monday_noon near_test_store test_db empty_cache))
  /\ forall v, fst (post_search stand_ins monday_noon near_test_store test_db empty_cache)
               = Ok v ->
               exists r, v = SearchResponse r.
Proof.
  apply (CacheTypingLaws.search_keeps_cache_well_typed stand_ins monday_noon
           near_test_store test_db empty_cache).
  - repeat constructor.
  - intros key e Hkey. unfold empty_cache in Hkey. rewrite lookup_empty in Hkey.
    discriminate.
Defined.

End LawExamples.

Module FreshnessLaws.
Import Models Schemas Payload Search Stores.

Section WithCollaborators.
Variable E : collaborators.

Lemma search_on_empty_cache (clk : clock) (r : StoreSearchRequest) (db : StoreDb)
    (lat lon : Q) :
  cacheable r = Some (lat, lon) ->
  fst (search_stores E clk r db ∅)
  = Ok (SearchResponse (build_response E clk r db lat lon (at_coordinates lat lon))).
Proof.
  intros Hc.
  pose proof (SearchFacts.search_miss E clk r db ∅ lat lon Hc eq_refl) as Hrun.
  cbv zeta in Hrun. now rewrite Hrun.
Qed.

(** X25: a write through the store endpoints is seen by the next search.
    After a store has been created, updated or deleted with success, a
    search by coordinates is answered with the response computed from the
    tables as the write left them, whatever the cache held before the
    write. *)
Theorem store_writes_are_seen_by_search (clk : clock) (r : StoreSearchRequest)
    (lat lon : Q) (db db' : StoreDb) (c c' : cache) :
  cacheable r = Some (lat, lon) ->
  (exists utcnow store_data v,
     create_store (geolocator E) utcnow store_data db c = (Ok v, db', c'))
  \/ (exists sid store_data v, update_store sid store_data db c = (Ok v, db', c'))
  \/ (exists sid, delete_store sid db c = (Ok tt, db', c')) ->
  fst (search_stores E clk r db' c')
  = Ok (SearchResponse (build_response E clk r db' lat lon (at_coordinates lat lon))).
Proof.
  intros Hc Hwrite.
  assert (Hempty : c' = ∅).
  { destruct Hwrite as [(t & d & v & H) | [(sid & d & v & H) | (sid & H)]].
    - exact (InvalidationFacts.create_store_clears _ _ _ _ _ _ _ _ H).
    - exact (InvalidationFacts.update_store_clears _ _ _ _ _ _ _ H).
    - exact (InvalidationFacts.delete_store_clears _ _ _ _ _ H). }
  subst c'. now apply search_on_empty_cache.
Qed.

(** X26: without coordinates, a postal code decides the origin alone. Two
    requests with the same postal code and no usable coordinates resolve to
    the same origin whatever their addresses are, and when the postal code
    cannot be geocoded the search is refused with 400: the address is not
    tried. *)
Theorem postal_code_decides_the_origin (clk : clock) (r r' : StoreSearchRequest) (c : cache)
    (code : string) :
  direct_coordinates r = None -> direct_coordinates r' = None ->
  postal_code r = Some code -> postal_code r' = Some code -> code <> "" ->
  resolve_origin E clk r' c = resolve_origin E clk r c
  /\ (fst (Cache.get c (Geocoding.geocode_key (code +:+ ", " +:+ "USA")) (utcnow clk)) = None ->
      geolocator E (code +:+ ", " +:+ "USA") = None ->
      forall db,
        fst (search_stores E clk r db c)
        = HTTPError 400 ("Could not geocode postal code: " +:+ code)).
Proof.
  intros Hd Hd' Hp Hp' Hne.
  destruct code as [|a code]; [contradiction |].
  split.
  - unfold resolve_origin. now rewrite Hd, Hd', Hp, Hp'.
  - intros Hmiss Hgeo db.
    assert (Hnc : cacheable r = None).
    { unfold cacheable. rewrite Hd. now destruct (open_now_requested r). }
    rewrite (SearchFacts.search_not_cacheable E clk r db c Hnc).
    unfold compute_response, resolve_origin. rewrite Hd, Hp.
    unfold Geocoding.geocode_postal_code, Geocoding.geocode_address.
    destruct (Cache.get c _ (utcnow clk)) as [[v|] c1]; [discriminate |].
    now rewrite Hgeo.
Qed.

End WithCollaborators.

End FreshnessLaws.

Module FreshnessExamples.
Import Models Schemas Payload Search Stores Scenario Fixtures.

Lemma store_writes_are_seen_by_search_witness :
  fst (search_stores stand_ins one_minute_later near_test_store
         (snd (fst (delete_store "S0001" test_db warm_cache)))
         (snd (delete_store "S0001" test_db warm_cache)))
  = Ok (SearchResponse
          (build_response stand_ins one_minute_later near_test_store
             (snd (fst (delete_store "S0001" test_db warm_cache)))
             40.7128%Q (-74.0060)%Q (at_coordinates 40.7128%Q (-74.0060)%Q))).
Proof.
  apply (FreshnessLaws.store_writes_are_seen_by_search stand_ins one_minute_later
           near_test_store 40.7128%Q (-74.0060)%Q test_db _ warm_cache _).
  - reflexivity.
  - right. right. exists "S0001". reflexivity.
Defined.

Lemma postal_code_decides_the_origin_witness :
  fst (search_stores stand_ins monday_noon
         (with_postal_code "99999" (by_coordinates 0 0 10%Q)) test_db empty_cache)
  = HTTPError 400 "Could not geocode postal code: 99999".
Proof.
  destruct (FreshnessLaws.postal_code_decides_the_origin stand_ins monday_noon
              (with_postal_code "99999" (by_coordinates 0 0 10%Q))
              (with_postal_code "99999" (by_coordinates 0 0 10%Q))
              empty_cache "99999") as [_ Hfail];
    [reflexivity | reflexivity | reflexivity | reflexivity | discriminate |].
  apply Hfail; reflexivity.
Defined.

End FreshnessExamples.
